(** * crypto_price_app: a shallow embedding of the data layer

    The development follows the repository's modules:
    - [Utils]          : utils.py            ([format_large_number],
                         [format_percent], [get_percent_color])
    - [Frames]         : the pandas primitives the data layer calls
                         ([sort_values], [nlargest], [nsmallest], [sum])
    - [Payloads]       : the JSON shapes exchanged between api.py and
                         data_processing.py
    - [DataProcessing] : data_processing.py
    - [Api]            : api.py              (the cache, the symbol index and
                         the two fetch operations, over an explicit world)
    - [App]            : app.py              (the history call of the page)
    - [Ui]             : ui_components.py    (the metrics of a row)
    - [Charts]         : charts.py           (the market-cap chart)
    The properties follow the definitions, in modules named after what
    they are about ([MoversFacts], [ListingsFacts], [ApiFacts], ...).

    Numbers.  Python floats are modelled by [pyfloat]: the exact rational for a
    finite value, plus the three IEEE special values.  Rounding, overflow and
    the sign of zero are outside this model; [Binary64] re-evaluates the
    arithmetic of the market share on the kernel's binary64 floats.  A null of
    a JSON payload and the NaN pandas stores for it in a float column are both
    [None] of an [option Q]. *)

From Stdlib Require Import QArith Qabs Qround ZArith Lia Lqa Ascii String.
From Stdlib Require Import DecimalString DecimalZ DecimalPos.
From stdpp Require Import gmap strings list fin_maps sorting.
From Corelib Require Import PrimFloat.

Open Scope string_scope.

(** ** Python values shared by the modules *)

(** A Python float: a finite value, or one of the IEEE special values. *)
Inductive pyfloat : Type :=
| Finite (q : Q)
| PosInf
| NegInf
| NaN.

(** The outcome of a call that may raise. *)
Inductive pyexn : Type :=
| KeyError (key : string)
| IndexError.

Inductive result (A : Type) : Type :=
| Ok (a : A)
| Raise (e : pyexn).
Arguments Ok {A} a.
Arguments Raise {A} e.

Definition is_finite (x : pyfloat) : bool :=
  match x with Finite _ => true | _ => false end.

(** [x == 0] on Python numbers: false on NaN and on the infinities. *)
Definition pyfloat_is_zero (x : pyfloat) : bool :=
  match x with Finite q => Qeq_bool q 0 | _ => false end.

(** [abs(x) >= 1000]: every comparison with NaN is false. *)
Definition pyfloat_abs_ge (x : pyfloat) (bound : Q) : bool :=
  match x with
  | Finite q => Qle_bool bound (Qabs q)
  | PosInf | NegInf => true
  | NaN => false
  end.

(** Division of numpy float64 scalars, which is what pandas' [sum] hands back:
    a zero divisor raises nothing, it yields NaN or an infinity (numpy only
    emits a RuntimeWarning). *)
Definition np_div (a b : Q) : pyfloat :=
  if Qeq_bool b 0 then
    if Qeq_bool a 0 then NaN
    else if Qle_bool 0 a then PosInf else NegInf
  else Finite (a / b).

(** [x * c] for a finite factor [c]. *)
Definition pyfloat_mul (x : pyfloat) (c : Q) : pyfloat :=
  match x with
  | Finite q => Finite (q * c)
  | NaN => NaN
  | PosInf =>
      if Qeq_bool c 0 then NaN else if Qle_bool 0 c then PosInf else NegInf
  | NegInf =>
      if Qeq_bool c 0 then NaN else if Qle_bool 0 c then NegInf else PosInf
  end.

(** [x / c] for a finite non-zero divisor [c] (the 1000.0 of the formatter). *)
Definition pyfloat_div_const (x : pyfloat) (c : Q) : pyfloat :=
  match x with
  | Finite q => Finite (q / c)
  | NaN => NaN
  | PosInf => if Qle_bool 0 c then PosInf else NegInf
  | NegInf => if Qle_bool 0 c then NegInf else PosInf
  end.

(** Decimal rendering of an integer, as [str(int)] and an f-string do. *)
Definition show_Z (z : Z) : string := NilZero.string_of_int (Z.to_int z).

(** ** utils.py *)
Module Utils.

(** Round to the nearest integer, ties to even: the rounding of Python's
    fixed-point format on the exact value. *)
Definition round_half_even (x : Q) : Z :=
  let f := Qfloor x in
  let r := (x - inject_Z f)%Q in
  match (r ?= 1 # 2)%Q with
  | Lt => f
  | Gt => (f + 1)%Z
  | Eq => if Z.even f then f else (f + 1)%Z
  end.

(** [n] written with at least [width] digits, zeros to the left. *)
Fixpoint pad_zeros (width : nat) (s : string) : string :=
  match width with
  | O => s
  | S w => if (String.length s <? S w)%nat then pad_zeros w ("0" +:+ s) else s
  end.

(** [f"{q:.{precision}f}"] on a finite value. *)
Definition format_fixed_Q (q : Q) (precision : nat) : string :=
  let scale := (10 ^ Z.of_nat precision)%Z in
  let n := round_half_even (Qabs q * inject_Z scale) in
  let sign := if Qle_bool 0 q then "" else "-" in
  let int_part := show_Z (n / scale) in
  match precision with
  | O => sign +:+ int_part
  | S _ => sign +:+ int_part +:+ "." +:+ pad_zeros precision (show_Z (n mod scale))
  end.

(** [f"{num:.{precision}f}"]. *)
Definition format_fixed (num : pyfloat) (precision : nat) : string :=
  match num with
  | Finite q => format_fixed_Q q precision
  | PosInf => "inf"
  | NegInf => "-inf"
  | NaN => "nan"
  end.

Definition suffixes : list string := ["" ; "K" ; "M" ; "B" ; "T"].

(** The loop
    [while abs(num) >= 1000 and magnitude < len(suffixes) - 1:
         magnitude += 1; num /= 1000.0]
    run for at most [fuel] iterations. *)
Fixpoint scale_loop (fuel : nat) (num : pyfloat) (magnitude : nat)
  : pyfloat * nat :=
  match fuel with
  | O => (num, magnitude)
  | S fuel' =>
      if pyfloat_abs_ge num 1000 && (magnitude <? length suffixes - 1)%nat
      then scale_loop fuel' (pyfloat_div_const num 1000) (S magnitude)
      else (num, magnitude)
  end.

(** The loop guard, as the source writes it. *)
Definition scale_guard (st : pyfloat * nat) : bool :=
  pyfloat_abs_ge (fst st) 1000 && (snd st <? length suffixes - 1)%nat.

(** The magnitude read off the absolute value: the number of thousands
    below it, four at most.  The infinities are above every bound, NaN is
    above none. *)
Definition magnitude_by_abs (x : pyfloat) : nat :=
  match x with
  | NaN => 0
  | PosInf | NegInf => 4
  | Finite q =>
      let a := Qabs q in
      if Qle_bool 1000000000000 a then 4
      else if Qle_bool 1000000000 a then 3
      else if Qle_bool 1000000 a then 2
      else if Qle_bool 1000 a then 1
      else 0
  end.

(** [x] after [m] divisions by 1000.0. *)
Definition scaled_down (m : nat) (x : pyfloat) : pyfloat :=
  Nat.iter m (fun y => pyfloat_div_const y 1000) x.

(** [format_large_number(num, precision=2)]; [None] is Python's None. *)
Definition format_large_number (num : option pyfloat) (precision : nat)
  : string :=
  match num with
  | None => "N/A"
  | Some x =>
      if pyfloat_is_zero x then "0"
      else
        let '(scaled, magnitude) := scale_loop (length suffixes) x 0 in
        "$" +:+ format_fixed scaled precision +:+ nth magnitude suffixes ""
  end.

(** [x > 0] and [x < 0] on Python numbers: both false on NaN. *)
Definition pyfloat_gt0 (x : pyfloat) : bool :=
  match x with
  | Finite q => negb (Qle_bool q 0)
  | PosInf => true
  | NegInf | NaN => false
  end.

Definition pyfloat_lt0 (x : pyfloat) : bool :=
  match x with
  | Finite q => negb (Qle_bool 0 q)
  | NegInf => true
  | PosInf | NaN => false
  end.

(** [format_percent(percent, include_sign=True)]; [None] is Python's
    None. *)
Definition format_percent (percent : option pyfloat) (include_sign : bool)
  : string :=
  match percent with
  | None => "N/A"
  | Some x =>
      let sign := if pyfloat_gt0 x && include_sign then "+" else "" in
      sign +:+ format_fixed x 2 +:+ "%"
  end.

(** [get_percent_color(percent)]. *)
Definition get_percent_color (percent : option pyfloat) : string :=
  match percent with
  | None => "gray"
  | Some x =>
      if pyfloat_gt0 x then "#10B981"
      else if pyfloat_lt0 x then "#EF4444"
      else "#94A3B8"
  end.

(** The ten digits. *)
Definition is_digit_char (c : ascii) : Prop :=
  c = "0"%char \/ c = "1"%char \/ c = "2"%char \/ c = "3"%char
  \/ c = "4"%char \/ c = "5"%char \/ c = "6"%char \/ c = "7"%char
  \/ c = "8"%char \/ c = "9"%char.

End Utils.

(** ** The pandas primitives used by data_processing.py *)
Module Frames.

(** A DataFrame is the list of its rows, or the frame without any column that
    [pd.DataFrame()] and [pd.DataFrame([])] build: selecting or sorting by a
    column of the latter raises KeyError.  Columns holding numbers are float64
    columns and a null in them is NaN, here [None]; a column in which no row
    holds a number at all is typed [object] by pandas, and such frames are
    outside this model. *)
Inductive frame (A : Type) : Type :=
| NoColumns
| Frame (rows : list A).
Arguments NoColumns {A}.
Arguments Frame {A} rows.

(** [pd.DataFrame(records)] for a list of dicts. *)
Definition DataFrame {A} (records : list A) : frame A :=
  match records with
  | [] => NoColumns
  | _ :: _ => Frame records
  end.

(** [rows.take(indexer)]: the rows at the positions [indexer] names, in the
    order of [indexer]. *)
Definition take_rows {A} (rows : list A) (indexer : list nat) : list A :=
  omap (fun i => rows !! i) indexer.

Definition notna (x : option Q) : bool :=
  match x with Some _ => true | None => false end.

Definition isna (x : option Q) : bool := negb (notna x).

(** [series.sum()]: NaN entries are skipped ([skipna=True]); the sum of no
    entry is 0. *)
Definition series_sum (col : list (option Q)) : Q :=
  fold_right Qplus 0%Q (omap id col).

Section SortValues.
Context {A : Type}.

(** numpy's [argsort] of a float64 array without NaN, for the sort kind
    pandas passes by default ([kind='quicksort']): the data_processing module
    never names another kind.  It is a parameter of the model; numpy promises
    of it that the result lists every position once and reads the array in
    non-decreasing order (see [argsort_spec]). *)
Variable argsort : list Q -> list nat.

(** What numpy promises of [argsort]: it lists every position once, and
    reading the array in that order gives a non-decreasing sequence.  The
    order of equal values is promised for [kind='stable'] only. *)
Definition argsort_spec : Prop :=
  forall l : list Q,
    argsort l ≡ₚ seq 0 (length l)
    /\ StronglySorted Qle (take_rows l (argsort l)).

(** [df.sort_values(column, ascending=...)] on the rows of a frame with the
    default [na_position='last'], as pandas' [nargsort] computes it: the
    rows with a NaN key are set apart in their order; the others are sorted
    by [argsort], for a descending sort between two reversals; the NaN rows
    are appended. *)
Definition sort_rows (key : A -> option Q) (ascending : bool)
  (rows : list A) : list A :=
  let non_nans := List.filter (fun r => notna (key r)) rows in
  let nans := List.filter (fun r => isna (key r)) rows in
  let non_nans := if ascending then non_nans else rev non_nans in
  let sorted := take_rows non_nans (argsort (omap key non_nans)) in
  let sorted := if ascending then sorted else rev sorted in
  sorted ++ nans.

(** [df.sort_values(column, ascending=...)]; [key] reads the column named
    [column]. *)
Definition sort_values (column : string) (key : A -> option Q) (ascending : bool)
  (df : frame A) : result (frame A) :=
  match df with
  | NoColumns => Raise (KeyError column)
  | Frame rows => Ok (Frame (sort_rows key ascending rows))
  end.

End SortValues.

Section StableSort.
Context {A : Type}.
Variable leb : A -> A -> bool.

(** Insertion before the first element that is not smaller: the new element
    precedes its equals. *)
Fixpoint insert_sorted (x : A) (l : list A) : list A :=
  match l with
  | [] => [x]
  | y :: l' => if leb x y then x :: y :: l' else y :: insert_sorted x l'
  end.

(** The stable sort for [leb].  A stable sort has one possible result, so
    this is the result of numpy's [kind='mergesort'] too. *)
Fixpoint stable_sort (l : list A) : list A :=
  match l with
  | [] => []
  | x :: l' => insert_sorted x (stable_sort l')
  end.

(** Two elements the order does not tell apart. *)
Definition tied (a b : A) : bool := leb a b && leb b a.

(** A class of elements the order does not tell apart. *)
Definition tie_class (p : A -> bool) : Prop :=
  forall x y, p x = true -> p y = true -> leb x y = true.

End StableSort.

Definition key_leb {A} (key : A -> Q) (a b : A) : bool :=
  Qle_bool (key a) (key b).

Definition key_geb {A} (key : A -> Q) (a b : A) : bool :=
  Qle_bool (key b) (key a).

(** A column in descending order with its nulls last. *)
Definition descending_nulls_last (col : list (option Q)) : Prop :=
  exists (vals : list Q) (nulls : nat),
    col = (map Some vals ++ replicate nulls None)%list
    /\ StronglySorted (fun a b => (b <= a)%Q) vals.

(** The rows whose key is above that of [a]. *)
Definition above {A} (key : A -> Q) (a x : A) : bool :=
  negb (Qle_bool (key x) (key a)).

(** The value of a key that is known not to be null (NaN rows were dropped). *)
Definition key_value (x : option Q) : Q :=
  match x with Some q => q | None => 0%Q end.

(** [df.nsmallest(n, column)] with the default [keep='first'] on rows whose
    [column] is not null, for [n] below the number of rows (which is where
    [get_top_gainers_losers] calls it: it asks for half the rows at most):
    the first [n] rows in ascending order of the column, the earlier row
    first among equal values; pandas selects them with numpy's mergesort.
    [n <= 0] gives no row. *)
Definition nsmallest {A} (n : Z) (key : A -> option Q) (rows : list A)
  : list A :=
  if (n <=? 0)%Z then []
  else
    take (Z.to_nat n)
      (stable_sort (key_leb (fun r => key_value (key r))) rows).

(** [df.nlargest(n, column)], likewise in descending order (pandas sorts
    the negated column). *)
Definition nlargest {A} (n : Z) (key : A -> option Q) (rows : list A)
  : list A :=
  if (n <=? 0)%Z then []
  else
    take (Z.to_nat n)
      (stable_sort (key_geb (fun r => key_value (key r))) rows).

(** The rows whose key is the number [v]. *)
Definition key_is {A} (key : A -> option Q) (v : Q) (r : A) : bool :=
  match key r with
  | Some q => Qeq_bool q v
  | None => false
  end.

(** The array with its positions. *)
Definition enumerate {A} (l : list A) : list (nat * A) :=
  zip (seq 0 (length l)) l.

(** numpy's [argsort] with [kind='stable']. *)
Definition stable_argsort (l : list Q) : list nat :=
  map fst (stable_sort (key_leb snd) (enumerate l)).

(** An [argsort] that keeps numpy's promise and returns equal values latest
    first. *)
Definition latest_first_argsort (l : list Q) : list nat :=
  map fst (stable_sort (key_leb snd) (rev (enumerate l))).

(** *** numpy's quicksort

    The routine numpy runs for [argsort(kind='quicksort')] on an array of
    doubles without NaN (npysort, [aquicksort]): an introsort on the array
    of positions [tosort], with a median-of-three partition of every range
    of more than 17 positions, an insertion sort of the shorter ranges, and
    a stack of the ranges still to sort.  After [2 * floor(log2(n))] nested
    partitions the routine switches to a heapsort, which this model leaves
    out: it answers [None] there.  This is numpy's portable routine; a
    build that hands doubles to a vectorised sort leaves ties in yet
    another order. *)
Section NumpyQuicksort.

(** The array being sorted. *)
Variable v : list Q.

(** [v[tosort[p]]]. *)
Definition value_at (tosort : list nat) (p : nat) : Q :=
  nth (nth p tosort O) v 0%Q.

Definition less (a b : Q) : bool := negb (Qle_bool b a).

(** [INTP_SWAP(tosort[i], tosort[j])]. *)
Definition swap (tosort : list nat) (i j : nat) : list nat :=
  <[i := nth j tosort O]> (<[j := nth i tosort O]> tosort).

(** [do ++pi; while (less(v[*pi], vp))]. *)
Fixpoint scan_up (fuel : nat) (tosort : list nat) (vp : Q) (pi : nat) : nat :=
  match fuel with
  | O => pi
  | S fuel' =>
      let pi := S pi in
      if less (value_at tosort pi) vp then scan_up fuel' tosort vp pi else pi
  end.

(** [do --pj; while (less(vp, v[*pj]))]. *)
Fixpoint scan_down (fuel : nat) (tosort : list nat) (vp : Q) (pj : nat)
  : nat :=
  match fuel with
  | O => pj
  | S fuel' =>
      let pj := Nat.pred pj in
      if less vp (value_at tosort pj) then scan_down fuel' tosort vp pj
      else pj
  end.

(** The loop that moves the positions across the pivot value [vp]. *)
Fixpoint partition_loop (fuel : nat) (tosort : list nat) (vp : Q)
  (pi pj : nat) : list nat * nat :=
  match fuel with
  | O => (tosort, pi)
  | S fuel' =>
      let pi := scan_up (length tosort) tosort vp pi in
      let pj := scan_down (length tosort) tosort vp pj in
      if (pj <=? pi)%nat then (tosort, pi)
      else partition_loop fuel' (swap tosort pi pj) vp pi pj
  end.

(** One partition of the range [pl..pr]: the new array and the place of the
    pivot. *)
Definition partition (tosort : list nat) (pl pr : nat) : list nat * nat :=
  let pm := (pl + (pr - pl) / 2)%nat in
  let tosort :=
    if less (value_at tosort pm) (value_at tosort pl)
    then swap tosort pm pl else tosort in
  let tosort :=
    if less (value_at tosort pr) (value_at tosort pm)
    then swap tosort pr pm else tosort in
  let tosort :=
    if less (value_at tosort pm) (value_at tosort pl)
    then swap tosort pm pl else tosort in
  let vp := value_at tosort pm in
  let pj := (pr - 1)%nat in
  let tosort := swap tosort pm pj in
  let '(tosort, pi) := partition_loop (length tosort) tosort vp pl pj in
  (swap tosort pi (pr - 1), pi).

(** The inner loop of the insertion sort: the positions before [pj] whose
    value is above [vp] move up by one, and [vi] takes the free place. *)
Fixpoint insert_down (fuel : nat) (tosort : list nat) (vp : Q) (vi : nat)
  (pl pj : nat) : list nat :=
  match fuel with
  | O => <[pj := vi]> tosort
  | S fuel' =>
      if (pl <? pj)%nat && less vp (value_at tosort (pj - 1))
      then insert_down fuel' (<[pj := nth (pj - 1) tosort O]> tosort)
             vp vi pl (pj - 1)
      else <[pj := vi]> tosort
  end.

(** The insertion sort of the range [pl..pr]. *)
Definition insertion_range (tosort : list nat) (pl pr : nat) : list nat :=
  fold_left
    (fun tosort pi =>
       let vi := nth pi tosort O in
       insert_down (length tosort) tosort (nth vi v 0%Q) vi pl pi)
    (seq (S pl) (pr - pl)) tosort.

(** The main loop.  [at_head] tells that the range was just taken from the
    stack (or is the first), where the depth is checked. *)
Fixpoint aquicksort_loop (fuel : nat) (tosort : list nat) (pl pr : nat)
  (cdepth : Z) (stack : list (nat * nat * Z)) (at_head : bool)
  : option (list nat) :=
  match fuel with
  | O => None
  | S fuel' =>
      if at_head && (cdepth <? 0)%Z then None
      else if (16 <? pr - pl)%nat then
        let '(tosort, pi) := partition tosort pl pr in
        let cdepth := (cdepth - 1)%Z in
        if (pi - pl <? pr - pi)%nat then
          aquicksort_loop fuel' tosort pl (pi - 1) cdepth
            ((S pi, pr, cdepth) :: stack) false
        else
          aquicksort_loop fuel' tosort (S pi) pr cdepth
            ((pl, (pi - 1)%nat, cdepth) :: stack) false
      else
        let tosort := insertion_range tosort pl pr in
        match stack with
        | [] => Some tosort
        | (pl, pr, cdepth) :: stack =>
            aquicksort_loop fuel' tosort pl pr cdepth stack true
        end
  end.

End NumpyQuicksort.

(** [v.argsort(kind='quicksort')]; the positions, or [None] where the
    routine would go on with its heapsort. *)
Definition aquicksort (v : list Q) : option (list nat) :=
  let num := length v in
  aquicksort_loop v (2 * num + 2) (seq 0 num) 0 (num - 1)
    (2 * Z.log2 (Z.of_nat num)) [] true.

(** numpy's default [argsort], as far as the model of its quicksort goes. *)
Definition quicksort_argsort (v : list Q) : list nat :=
  match aquicksort v with
  | Some tosort => tosort
  | None => stable_argsort v
  end.

End Frames.

(** ** The payloads api.py hands to data_processing.py *)
Module Payloads.

(** A Python dict with its insertion order: assigning to a key that is
    present replaces the value in place, a new key goes to the end. *)
Fixpoint dict_set {K V} `{EqDecision K} (k : K) (v : V) (d : list (K * V))
  : list (K * V) :=
  match d with
  | [] => [(k, v)]
  | (k', v') :: d' =>
      if decide (k = k') then (k, v) :: d' else (k', v') :: dict_set k v d'
  end.

Fixpoint dict_get {K V} `{EqDecision K} (k : K) (d : list (K * V))
  : option V :=
  match d with
  | [] => None
  | (k', v') :: d' => if decide (k = k') then Some v' else dict_get k d'
  end.

(** The ['USD'] block of a coin of the listings payload.  The key
    [percent_change_30d] may be absent (outer [None]); the other keys are
    there, with a number or a null. *)
Record quote : Type := {
  q_price : option Q;
  q_market_cap : option Q;
  q_volume_24h : option Q;
  q_percent_change_1h : option Q;
  q_percent_change_24h : option Q;
  q_percent_change_7d : option Q;
  q_percent_change_30d : option (option Q);
  q_last_updated : option string
}.

(** One coin of the listings payload. *)
Record coin : Type := {
  c_id : option string;
  c_name : option string;
  c_symbol : option string;
  c_slug : option string;
  c_cmc_rank : option Z;
  c_image : option string;
  c_quote : quote
}.

(** [{'data': [...]}]. *)
Record listings : Type := { data : list coin }.

(** The text [datetime.utcfromtimestamp(t).strftime(...)] writes for the
    epoch second [t], kept symbolic. *)
Inductive iso_time : Type := utc_iso (epoch : Z).

(** The ['USD'] block of one sample of the history payload. *)
Record usd_sample : Type := {
  s_price : Q;
  s_volume_24h : option Q;
  s_market_cap : option Q;
  s_timestamp : iso_time
}.

(** [{'quotes': {epoch_seconds: {'USD': ...}}}]. *)
Record history_entry : Type := { quotes : list (Z * usd_sample) }.

Record status_block : Type := {
  error_code : Z;
  error_message : option string;
  credit_count : Z
}.

(** The history payload, a dict that may hold the keys ['data'] and
    ['status']. *)
Record history : Type := {
  h_data : option (list (string * history_entry));
  h_status : option status_block
}.

(** [not api_data] on a dict: it has no key. *)
Definition history_is_empty (h : history) : bool :=
  match h_data h, h_status h with
  | None, None => true
  | _, _ => false
  end.

End Payloads.

(** ** data_processing.py *)
Module DataProcessing.
Import Frames Payloads.

(** A cell of the [last_updated] column: the provider's text, then, after
    [pd.to_datetime], the datetime that text denotes (NaT for a null). *)
Inductive last_updated_cell : Type :=
| IsoText (s : option string)
| Datetime (s : option string).

Definition to_datetime (c : last_updated_cell) : last_updated_cell :=
  match c with
  | IsoText s => Datetime s
  | Datetime s => Datetime s
  end.

(** A row of the listings frame. *)
Record listing_row : Type := {
  id : option string;
  name : option string;
  symbol : option string;
  slug : option string;
  cmc_rank : option Z;
  price : option Q;
  market_cap : option Q;
  volume_24h : option Q;
  percent_change_1h : option Q;
  percent_change_24h : option Q;
  percent_change_7d : option Q;
  percent_change_30d : option Q;
  last_updated : last_updated_cell
}.

(** The dict appended to [crypto_list] for one coin. *)
Definition listing_of_coin (c : coin) : listing_row :=
  let usd := c_quote c in
  {| id := c_id c;
     name := c_name c;
     symbol := c_symbol c;
     slug := c_slug c;
     cmc_rank := c_cmc_rank c;
     price := q_price usd;
     market_cap := q_market_cap usd;
     volume_24h := q_volume_24h usd;
     percent_change_1h := q_percent_change_1h usd;
     percent_change_24h := q_percent_change_24h usd;
     percent_change_7d := q_percent_change_7d usd;
     percent_change_30d :=
       match q_percent_change_30d usd with
       | Some v => v
       | None => Some 0%Q
       end;
     last_updated := IsoText (q_last_updated usd) |}.

Definition set_last_updated (f : last_updated_cell -> last_updated_cell)
  (r : listing_row) : listing_row :=
  {| id := id r; name := name r; symbol := symbol r; slug := slug r;
     cmc_rank := cmc_rank r; price := price r; market_cap := market_cap r;
     volume_24h := volume_24h r; percent_change_1h := percent_change_1h r;
     percent_change_24h := percent_change_24h r;
     percent_change_7d := percent_change_7d r;
     percent_change_30d := percent_change_30d r;
     last_updated := f (last_updated r) |}.

(** The percent-change columns [get_top_gainers_losers] may be asked for. *)
Inductive timeframe : Type :=
| change_1h
| change_24h
| change_7d
| change_30d.

Definition column_name (tf : timeframe) : string :=
  match tf with
  | change_1h => "percent_change_1h"
  | change_24h => "percent_change_24h"
  | change_7d => "percent_change_7d"
  | change_30d => "percent_change_30d"
  end.

Definition column (tf : timeframe) (r : listing_row) : option Q :=
  match tf with
  | change_1h => percent_change_1h r
  | change_24h => percent_change_24h r
  | change_7d => percent_change_7d r
  | change_30d => percent_change_30d r
  end.

(** A row of [gainers] and [losers]: the columns
    [['name', 'symbol', timeframe, 'price']]. *)
Record mover : Type := {
  m_name : option string;
  m_symbol : option string;
  m_change : option Q;
  m_price : option Q
}.

Definition project (tf : timeframe) (r : listing_row) : mover :=
  {| m_name := name r; m_symbol := symbol r;
     m_change := column tf r; m_price := price r |}.

(** The rows whose percent change is [v]. *)
Definition column_is (tf : timeframe) (v : Q) (r : listing_row) : bool :=
  match column tf r with
  | Some q => Qeq_bool q v
  | None => false
  end.

Definition change_is (v : Q) (m : mover) : bool :=
  match m_change m with
  | Some q => Qeq_bool q v
  | None => false
  end.

(** The size of both selections, in the spec's words: [n], or
    [floor(valid_count / 2)] when fewer than [2n] valid rows remain. *)
Definition movers_count (valid_count n : nat) : nat :=
  if (valid_count <? 2 * n)%nat then (valid_count / 2)%nat else n.

(** [get_top_gainers_losers(df, n=5, timeframe='percent_change_24h')]. *)
Definition get_top_gainers_losers (df : frame listing_row) (n : Z)
  (tf : timeframe) : result (frame mover * frame mover) :=
  match df with
  | NoColumns => Raise (KeyError (column_name tf))
  | Frame rows =>
      let valid_df := List.filter (fun r => notna (column tf r)) rows in
      let n :=
        if (Z.of_nat (length valid_df) <? n * 2)%Z
        then (Z.of_nat (length valid_df) / 2)%Z
        else n in
      let gainers := map (project tf) (nlargest n (column tf) valid_df) in
      let losers := map (project tf) (nsmallest n (column tf) valid_df) in
      Ok (Frame gainers, Frame losers)
  end.

(** The dict [calculate_market_share] returns. *)
Record market_share : Type := {
  Bitcoin : pyfloat;
  Ethereum : pyfloat;
  Altcoins : pyfloat
}.

(** [df['symbol'] == s]. *)
Definition symbol_is (s : string) (r : listing_row) : bool :=
  bool_decide (symbol r = Some s).

(** [calculate_market_share(df)]. *)
Definition calculate_market_share (df : frame listing_row)
  : result market_share :=
  match df with
  | NoColumns => Raise (KeyError "market_cap")
  | Frame rows =>
      let total_market_cap := series_sum (map market_cap rows) in
      let btc_market_cap :=
        series_sum (map market_cap (List.filter (symbol_is "BTC") rows)) in
      let eth_market_cap :=
        series_sum (map market_cap (List.filter (symbol_is "ETH") rows)) in
      let altcoins_market_cap :=
        (total_market_cap - btc_market_cap - eth_market_cap)%Q in
      Ok {| Bitcoin := pyfloat_mul (np_div btc_market_cap total_market_cap) 100;
            Ethereum := pyfloat_mul (np_div eth_market_cap total_market_cap) 100;
            Altcoins :=
              pyfloat_mul (np_div altcoins_market_cap total_market_cap) 100 |}
  end.

(** A coin of which only the symbol and the market cap are given. *)
Definition coin_with_cap (sym : string) (cap : option Q) : coin :=
  {| c_id := None; c_name := None; c_symbol := Some sym; c_slug := None;
     c_cmc_rank := None; c_image := None;
     c_quote :=
       {| q_price := None; q_market_cap := cap; q_volume_24h := None;
          q_percent_change_1h := None; q_percent_change_24h := None;
          q_percent_change_7d := None; q_percent_change_30d := Some None;
          q_last_updated := None |} |}.

(** Eighteen coins, named "0" to "17", of market cap 1 each. *)
Definition equal_caps_payload : listings :=
  {| data :=
       map (fun i => coin_with_cap (show_Z (Z.of_nat i)) (Some 1%Q))
         (seq 0 18) |}.

(** The rows [prepare_listings_data] sorts: one per coin of the payload, in
    the order of the payload. *)
Definition listed (api_data : listings) : list listing_row :=
  map (fun c => set_last_updated to_datetime (listing_of_coin c))
    (data api_data).

(** [x] is the finite number [q]. *)
Definition is_value (x : pyfloat) (q : Q) : Prop :=
  match x with
  | Finite a => (a == q)%Q
  | _ => False
  end.

(** A listing of which only the symbol and the market cap are given. *)
Definition listing (sym : string) (cap : option Q) : listing_row :=
  {| id := None; name := None; symbol := Some sym; slug := None;
     cmc_rank := None; price := None; market_cap := cap; volume_24h := None;
     percent_change_1h := None; percent_change_24h := None;
     percent_change_7d := None; percent_change_30d := None;
     last_updated := Datetime None |}.

(** A row of the history frame; [timestamp] is the datetime as a position on
    the time line. *)
Record history_row : Type := {
  timestamp : Z;
  hprice : Q;
  hvolume_24h : option Q;
  hmarket_cap : option Q
}.

Section Prepare.

(** numpy's default [argsort] behind [sort_values], see [Frames]. *)
Variable argsort : list Q -> list nat.

(** [datetime.fromtimestamp]: the local wall-clock time of an epoch second,
    as a position on the time line.  Nothing is assumed of the time zone. *)
Variable fromtimestamp : Z -> Z.

(** [prepare_listings_data(api_data)]. *)
Definition prepare_listings_data (api_data : listings)
  : result (frame listing_row) :=
  let crypto_list := map listing_of_coin (data api_data) in
  match DataFrame crypto_list with
  | NoColumns => Raise (KeyError "last_updated")
  | Frame rows =>
      let df := Frame (map (set_last_updated to_datetime) rows) in
      sort_values argsort "market_cap" market_cap false df
  end.

(** The dict appended to [hist_data] for one item of [quotes]. *)
Definition history_row_of (item : Z * usd_sample) : history_row :=
  {| timestamp := fromtimestamp (fst item);
     hprice := s_price (snd item);
     hvolume_24h := s_volume_24h (snd item);
     hmarket_cap := s_market_cap (snd item) |}.

(** [prepare_historical_data(api_data)]; [None] is Python's None. *)
Definition prepare_historical_data (api_data : option history)
  : result (frame history_row) :=
  match api_data with
  | None => Ok (DataFrame [])
  | Some d =>
      if history_is_empty d then Ok (DataFrame [])
      else
        match h_data d with
        | None => Ok (DataFrame [])
        | Some entries =>
            match entries with
            | [] => Raise IndexError
            | (symbol, _) :: _ =>
                match dict_get symbol entries with
                | None => Raise (KeyError symbol)
                | Some entry =>
                    let hist_data := map history_row_of (quotes entry) in
                    sort_values argsort "timestamp"
                      (fun r => Some (inject_Z (timestamp r))) true
                      (DataFrame hist_data)
                end
            end
        end
  end.

End Prepare.

(** A listing of which only the symbol and the 24 hours change are
    given. *)
Definition listing_with_change (sym : string) (change : option Q)
  : listing_row :=
  {| id := None; name := None; symbol := Some sym; slug := None;
     cmc_rank := None; price := None; market_cap := None; volume_24h := None;
     percent_change_1h := None; percent_change_24h := change;
     percent_change_7d := None; percent_change_30d := None;
     last_updated := Datetime None |}.

(** The percent-change field of a listing that a timeframe selects, in
    the spec's words: the field of that name, read off the record; [column]
    is the code's [df[timeframe]]. *)
Definition selected_change (tf : timeframe) (r : listing_row) : option Q :=
  match tf with
  | change_1h => percent_change_1h r
  | change_24h => percent_change_24h r
  | change_7d => percent_change_7d r
  | change_30d => percent_change_30d r
  end.

(** The four fields a mover keeps of a listing, in the spec's words: name,
    symbol, price and the selected change. *)
Definition mover_of (tf : timeframe) (r : listing_row) : mover :=
  {| m_name := name r; m_symbol := symbol r;
     m_change := selected_change tf r; m_price := price r |}.

(** The listings whose selected change is [v]. *)
Definition selected_is (tf : timeframe) (v : Q) (r : listing_row) : bool :=
  match selected_change tf r with
  | Some q => Qeq_bool q v
  | None => false
  end.

(** A listing of which only the symbol and the four changes are given. *)
Definition listing_with_changes (sym : string)
  (c1h c24h c7d c30d : option Q) : listing_row :=
  {| id := None; name := None; symbol := Some sym; slug := None;
     cmc_rank := None; price := None; market_cap := None; volume_24h := None;
     percent_change_1h := c1h; percent_change_24h := c24h;
     percent_change_7d := c7d; percent_change_30d := c30d;
     last_updated := Datetime None |}.

(** Five listings whose four changes order them in four different ways;
    "C" has no 24 hours change, "B" and "D" tie on it. *)
Definition movers_sample : list listing_row :=
  [listing_with_changes "A" (Some 1%Q) (Some 5%Q) (Some (-3)%Q) (Some 0%Q);
   listing_with_changes "B" (Some 4%Q) (Some 2%Q) (Some 7%Q) (Some 1%Q);
   listing_with_changes "C" (Some 3%Q) None (Some 9%Q) (Some (-2)%Q);
   listing_with_changes "D" (Some 2%Q) (Some 2%Q) (Some 1%Q) (Some 8%Q);
   listing_with_changes "E" (Some 0%Q) (Some (-1)%Q) (Some 4%Q) (Some 3%Q)].

End DataProcessing.

(** ** The market share on binary64 floats

    The arithmetic of [calculate_market_share] once more, on the kernel's
    IEEE 754 binary64 numbers, to evaluate it on given listings with the
    rounding the exact model leaves out.  The sum runs left to right. *)
Module Binary64.

Definition series_sum (col : list (option float)) : float :=
  fold_left (fun acc x => match x with Some v => acc + v | None => acc end)%float
    col 0%float.

Definition symbol_is (s : string) (r : string * option float) : bool :=
  bool_decide (fst r = s).

Definition calculate_market_share (rows : list (string * option float))
  : float * float * float :=
  let total_market_cap := series_sum (map snd rows) in
  let btc_market_cap :=
    series_sum (map snd (List.filter (symbol_is "BTC") rows)) in
  let eth_market_cap :=
    series_sum (map snd (List.filter (symbol_is "ETH") rows)) in
  let altcoins_market_cap :=
    (total_market_cap - btc_market_cap - eth_market_cap)%float in
  ((btc_market_cap / total_market_cap * 100)%float,
   (eth_market_cap / total_market_cap * 100)%float,
   (altcoins_market_cap / total_market_cap * 100)%float).

End Binary64.

(** ** api.py *)
Module Api.
Import Payloads.

Definition CACHE_EXPIRATION_SECONDS : Q := 60.

(** *** The provider *)

(** One element of the answer of [/coins/list]. *)
Record coin_list_entry : Type := {
  cl_id : string;
  cl_symbol : string
}.

(** One element of the answer of [/coins/markets]; each key is read with
    [coin.get], so each may be missing or null. *)
Record market_coin : Type := {
  mk_id : option string;
  mk_name : option string;
  mk_symbol : option string;
  mk_market_cap_rank : option Z;
  mk_image : option string;
  mk_current_price : option Q;
  mk_market_cap : option Q;
  mk_total_volume : option Q;
  mk_change_1h : option Q;
  mk_change_24h : option Q;
  mk_change_7d : option Q;
  mk_change_30d : option Q;
  mk_last_updated : option string
}.

(** The answer of [/coins/{id}/market_chart]: three series of
    [[milliseconds, value]] pairs; a missing key reads as the empty list
    ([data.get(key, [])]). *)
Record market_chart : Type := {
  prices : list (Z * Q);
  total_volumes : list (Z * Q);
  market_caps : list (Z * Q)
}.

(** The body of an answer: JSON of the expected shape, or a body on which
    [response.json()] or a subscript raises; [request_exception] tells which
    [except] clause catches it, [e] is the exception's text. *)
Inductive body (B : Type) : Type :=
| Json (b : B)
| BadBody (request_exception : bool) (e : string).
Arguments Json {B} b.
Arguments BadBody {B} request_exception e.

(** What [requests.get] does: it raises a [RequestException], or returns a
    response. *)
Inductive response (B : Type) : Type :=
| ConnectionFailed (e : string)
| Response (status_code : Z) (text : string) (json : body B).
Arguments ConnectionFailed {B} e.
Arguments Response {B} status_code text json.

(** The calls the module sends to the provider. *)
Inductive request : Type :=
| GetCoinList
| GetMarkets (vs_currency : string) (per_page page : Z)
| GetMarketChart (coin_id : string) (days : Z).

(** The provider as it answers during one call of the module. *)
Record network : Type := {
  coin_list : response (list coin_list_entry);
  markets : string -> Z -> Z -> response (list market_coin);
  market_chart_of : string -> Z -> response market_chart
}.

(** *** The process state *)

(** What streamlit is asked to show. *)
Inductive ui_message : Type :=
| st_error (text : string)
| st_warning (text : string).

(** The module's globals, with two ghost fields: the requests sent and the
    messages shown so far, latest first. *)
Record world : Type := {
  coin_symbol_to_id_map : option (gmap string string);
  cache_latest_listings : option listings * option Q;
  cache_historical_data : gmap string (history * Q);
  sent : list request;
  shown : list ui_message
}.

Definition initial_world : world :=
  {| coin_symbol_to_id_map := None;
     cache_latest_listings := (None, None);
     cache_historical_data := ∅;
     sent := [];
     shown := [] |}.

Definition send (r : request) (w : world) : world :=
  {| coin_symbol_to_id_map := coin_symbol_to_id_map w;
     cache_latest_listings := cache_latest_listings w;
     cache_historical_data := cache_historical_data w;
     sent := r :: sent w;
     shown := shown w |}.

Definition show (m : ui_message) (w : world) : world :=
  {| coin_symbol_to_id_map := coin_symbol_to_id_map w;
     cache_latest_listings := cache_latest_listings w;
     cache_historical_data := cache_historical_data w;
     sent := sent w;
     shown := m :: shown w |}.

Definition set_coin_map (m : gmap string string) (w : world) : world :=
  {| coin_symbol_to_id_map := Some m;
     cache_latest_listings := cache_latest_listings w;
     cache_historical_data := cache_historical_data w;
     sent := sent w;
     shown := shown w |}.

Definition set_latest_listings (data : listings) (now : Q) (w : world)
  : world :=
  {| coin_symbol_to_id_map := coin_symbol_to_id_map w;
     cache_latest_listings := (Some data, Some now);
     cache_historical_data := cache_historical_data w;
     sent := sent w;
     shown := shown w |}.

Definition set_historical_data (key : string) (data : history) (now : Q)
  (w : world) : world :=
  {| coin_symbol_to_id_map := coin_symbol_to_id_map w;
     cache_latest_listings := cache_latest_listings w;
     cache_historical_data := <[key := (data, now)]> (cache_historical_data w);
     sent := sent w;
     shown := shown w |}.

(** *** Strings *)

(** [str.upper] on ASCII text. *)
Definition upper_ascii (c : ascii) : ascii :=
  let n := nat_of_ascii c in
  if (97 <=? n)%nat && (n <=? 122)%nat then ascii_of_nat (n - 32) else c.

Fixpoint str_upper (s : string) : string :=
  match s with
  | EmptyString => EmptyString
  | String c s' => String (upper_ascii c) (str_upper s')
  end.

(** [now - timestamp < CACHE_EXPIRATION_SECONDS]. *)
Definition fresh (now timestamp : Q) : bool :=
  negb (Qle_bool CACHE_EXPIRATION_SECONDS (now - timestamp)).

(** *** get_coin_symbol_to_id_map *)

(** [{coin['symbol'].upper(): coin['id'] for coin in coins}]: a later coin
    replaces an earlier one of the same symbol. *)
Definition symbol_index (coins : list coin_list_entry) : gmap string string :=
  fold_left (fun m c => <[str_upper (cl_symbol c) := cl_id c]> m) coins ∅.

Definition get_coin_symbol_to_id_map (net : network) (w : world)
  : gmap string string * world :=
  match coin_symbol_to_id_map w with
  | Some m => (m, w)
  | None =>
      let w := send GetCoinList w in
      match coin_list net with
      | Response status_code _ json =>
          if (status_code =? 200)%Z then
            match json with
            | Json coins =>
                let m := symbol_index coins in (m, set_coin_map m w)
            | BadBody _ e =>
                let w := show (st_error ("Error fetching coin list: " +:+ e)) w in
                (∅, set_coin_map ∅ w)
            end
          else
            let w :=
              show (st_error ("Failed to fetch coin list with status code: "
                              +:+ show_Z status_code)) w in
            (∅, set_coin_map ∅ w)
      | ConnectionFailed e =>
          let w := show (st_error ("Error fetching coin list: " +:+ e)) w in
          (∅, set_coin_map ∅ w)
      end
  end.

(** *** fetch_latest_listings *)

(** [coin.get('symbol').upper() if coin.get('symbol') else None]. *)
Definition upper_symbol (s : option string) : option string :=
  match s with
  | None => None
  | Some EmptyString => None
  | Some s => Some (str_upper s)
  end.

(** The dict built for one coin of the provider's answer. *)
Definition coin_dict (c : market_coin) : coin :=
  {| c_id := mk_id c;
     c_name := mk_name c;
     c_symbol := upper_symbol (mk_symbol c);
     c_slug := mk_id c;
     c_cmc_rank := mk_market_cap_rank c;
     c_image := mk_image c;
     c_quote :=
       {| q_price := mk_current_price c;
          q_market_cap := mk_market_cap c;
          q_volume_24h := mk_total_volume c;
          q_percent_change_1h := mk_change_1h c;
          q_percent_change_24h := mk_change_24h c;
          q_percent_change_7d := mk_change_7d c;
          q_percent_change_30d := Some (mk_change_30d c);
          q_last_updated := mk_last_updated c |} |}.

(** The messages of the two [except] clauses. *)
Definition exception_message (request_exception : bool) (e : string)
  : ui_message :=
  if request_exception then st_error ("Request error: " +:+ e)
  else st_error ("Error: " +:+ e).

(** [fetch_latest_listings(vs_currency='usd', per_page=100, page=1)] called
    when the clock reads [now]; [None] is the failure. *)
Definition fetch_latest_listings (vs_currency : string) (per_page page : Z)
  (now : Q) (net : network) (w : world) : option listings * world :=
  let cache_entry := cache_latest_listings w in
  let hit :=
    match cache_entry with
    | (Some data, Some timestamp) =>
        if fresh now timestamp then Some data else None
    | _ => None
    end in
  match hit with
  | Some data => (Some data, w)
  | None =>
      let w := send (GetMarkets vs_currency per_page page) w in
      match markets net vs_currency per_page page with
      | Response status_code text json =>
          if (status_code =? 200)%Z then
            match json with
            | Json coins =>
                let result := {| data := map coin_dict coins |} in
                (Some result, set_latest_listings result now w)
            | BadBody request_exception e =>
                (None, show (exception_message request_exception e) w)
            end
          else
            let w :=
              show (st_error ("API request failed with status code: "
                              +:+ show_Z status_code)) w in
            (None, show (st_error ("Error message: " +:+ text)) w)
      | ConnectionFailed e => (None, show (exception_message true e) w)
      end
  end.

(** *** fetch_historical_data *)

(** The [days] argument: an integer, or a value on which [int(days)] raises
    ValueError. *)
Inductive days_arg : Type :=
| DaysInt (d : Z)
| DaysInvalid.

(** [int(timestamp_ms / 1000)]: truncation toward zero. *)
Definition epoch_seconds (timestamp_ms : Z) : Z := Z.quot timestamp_ms 1000.

(** The body of the loop [for i in range(len(prices))]. *)
Definition add_sample (prices volumes market_caps : list (Z * Q))
  (quotes : list (Z * usd_sample)) (i : nat) : list (Z * usd_sample) :=
  match prices !! i with
  | None => quotes
  | Some (timestamp_ms, price) =>
      let timestamp := epoch_seconds timestamp_ms in
      dict_set timestamp
        {| s_price := price;
           s_volume_24h := snd <$> volumes !! i;
           s_market_cap := snd <$> market_caps !! i;
           s_timestamp := utc_iso timestamp |}
        quotes
  end.

Definition build_quotes (chart : market_chart) : list (Z * usd_sample) :=
  fold_left (add_sample (prices chart) (total_volumes chart) (market_caps chart))
    (seq 0 (length (prices chart))) [].

(** The payload built from the provider's answer. *)
Definition history_result (symbol : string) (chart : market_chart) : history :=
  {| h_data := Some [(symbol, {| quotes := build_quotes chart |})];
     h_status :=
       Some {| error_code := 0; error_message := None; credit_count := 0 |} |}.

(** The sample of the [i]-th point of the price series, in the spec's
    words: the three series zipped by index, with a null where the volume
    or the market-cap series has no [i]-th point. *)
Definition sample_at (chart : market_chart) (i : nat) (point : Z * Q)
  : Z * usd_sample :=
  (epoch_seconds point.1,
   {| s_price := point.2;
      s_volume_24h := snd <$> total_volumes chart !! i;
      s_market_cap := snd <$> market_caps chart !! i;
      s_timestamp := utc_iso (epoch_seconds point.1) |}).

Definition zipped_samples (chart : market_chart) : list (Z * usd_sample) :=
  imap (sample_at chart) (prices chart).

(** [f"{symbol}_{days}"]. *)
Definition cache_key (symbol : string) (days : Z) : string :=
  symbol +:+ "_" +:+ show_Z days.

(** [if not coin_id]: no entry, or an empty id. *)
Definition resolved (coin_id : option string) : option string :=
  match coin_id with
  | None => None
  | Some EmptyString => None
  | Some id => Some id
  end.

(** The argument checks at the head of [fetch_historical_data]. *)
Definition clamp_days (days : days_arg) (w : world) : Z * world :=
  let '(days, w) :=
    match days with
    | DaysInt d => (d, w)
    | DaysInvalid =>
        (30%Z,
         show (st_warning
                 "Invalid value for days parameter. Defaulting to 30 days.") w)
    end in
  if (365 <? days)%Z then
    (365%Z,
     show (st_warning
             "Public API users are limited to querying historical data within the past 365 days. Limiting to 365 days.") w)
  else (days, w).

(** [fetch_historical_data(symbol, days=30)] called when the clock reads
    [now]; [None] is the failure. *)
Definition fetch_historical_data (symbol : string) (days : days_arg)
  (now : Q) (net : network) (w : world) : option history * world :=
  let symbol := str_upper symbol in
  let '(days, w) := clamp_days days w in
  let key := cache_key symbol days in
  let hit :=
    match cache_historical_data w !! key with
    | Some (data, timestamp) =>
        if fresh now timestamp then Some data else None
    | None => None
    end in
  match hit with
  | Some data => (Some data, w)
  | None =>
      let '(symbol_to_id, w) := get_coin_symbol_to_id_map net w in
      match resolved (symbol_to_id !! symbol) with
      | None =>
          (None, show (st_error ("Coin ID not found for symbol: " +:+ symbol)) w)
      | Some coin_id =>
          let w := send (GetMarketChart coin_id days) w in
          match market_chart_of net coin_id days with
          | Response status_code text json =>
              if (status_code =? 200)%Z then
                match json with
                | Json chart =>
                    let result := history_result symbol chart in
                    (Some result, set_historical_data key result now w)
                | BadBody request_exception e =>
                    (None, show (exception_message request_exception e) w)
                end
              else
                let w :=
                  show (st_error
                          ("Historical data API request failed with status code: "
                           +:+ show_Z status_code)) w in
                (None, show (st_error ("Error message: " +:+ text)) w)
          | ConnectionFailed e => (None, show (exception_message true e) w)
          end
      end
  end.

(** *** Runs of the process *)

(** One call into the module from outside. *)
Inductive call : Type :=
| CallCoinMap (net : network)
| CallListings (vs_currency : string) (per_page page : Z) (now : Q)
    (net : network)
| CallHistory (symbol : string) (days : days_arg) (now : Q) (net : network).

Definition run (w : world) (c : call) : world :=
  match c with
  | CallCoinMap net => snd (get_coin_symbol_to_id_map net w)
  | CallListings vs_currency per_page page now net =>
      snd (fetch_latest_listings vs_currency per_page page now net w)
  | CallHistory symbol days now net =>
      snd (fetch_historical_data symbol days now net w)
  end.

(** The state after a sequence of calls, from a fresh process. *)
Definition run_all (cs : list call) (w : world) : world := fold_left run cs w.

(** [c] occurs in [s]. *)
Fixpoint contains (c : ascii) (s : string) : bool :=
  match s with
  | EmptyString => false
  | String c' s' => if Ascii.eqb c c' then true else contains c s'
  end.

(** Every entry of the history cache was written for a symbol the index
    resolves. *)
Definition cache_resolved (w : world) : Prop :=
  forall key entry,
    cache_historical_data w !! key = Some entry ->
    exists index symbol days coin_id,
      coin_symbol_to_id_map w = Some index
      /\ key = cache_key symbol days
      /\ resolved (index !! symbol) = Some coin_id.

Definition is_coin_list_request (r : request) : bool :=
  match r with GetCoinList => true | _ => false end.

Definition is_market_chart_request (r : request) : bool :=
  match r with GetMarketChart _ _ => true | _ => false end.

(** The requests for the coin list sent so far. *)
Definition coin_list_requests (w : world) : nat :=
  length (List.filter is_coin_list_request (sent w)).

(** While the index is not set no request for the coin list was sent, and
    at most one was sent at all. *)
Definition index_built_once (w : world) : Prop :=
  match coin_symbol_to_id_map w with
  | Some _ => (coin_list_requests w <= 1)%nat
  | None => coin_list_requests w = O
  end.

(** The requests for history data sent so far. *)
Definition market_chart_requests (w : world) : list request :=
  List.filter is_market_chart_request (sent w).

(** A provider that answers every call with the status [code] and no JSON. *)
Definition failing_network (code : Z) : network :=
  {| coin_list := Response code "" (BadBody false "");
     markets := fun _ _ _ => Response code "" (BadBody false "");
     market_chart_of := fun _ _ => Response code "" (BadBody false "") |}.

(** A provider that knows the coins [coins], lists [listed] whatever the
    parameters, and has the chart [chart] for every coin. *)
Definition serving_network (coins : list coin_list_entry)
  (listed : list market_coin) (chart : market_chart) : network :=
  {| coin_list := Response 200 "" (Json coins);
     markets := fun _ _ _ => Response 200 "" (Json listed);
     market_chart_of := fun _ _ => Response 200 "" (Json chart) |}.

Definition empty_chart : market_chart :=
  {| prices := []; total_volumes := []; market_caps := [] |}.

(** A coin of the provider's listing of which only the id is given. *)
Definition market_coin_of (coin_id : string) : market_coin :=
  {| mk_id := Some coin_id; mk_name := None; mk_symbol := None;
     mk_market_cap_rank := None; mk_image := None; mk_current_price := None;
     mk_market_cap := None; mk_total_volume := None; mk_change_1h := None;
     mk_change_24h := None; mk_change_7d := None; mk_change_30d := None;
     mk_last_updated := None |}.

(** The number of days a call of [fetch_historical_data] works with, after
    the checks at its head. *)
Definition clamped_days (days : days_arg) : Z :=
  match days with
  | DaysInt d => if (365 <? d)%Z then 365%Z else d
  | DaysInvalid => 30%Z
  end.

(** A request for history data names a coin and asks for 365 days at
    most. *)
Definition chart_request_ok (r : request) : Prop :=
  match r with
  | GetMarketChart coin_id days => (days <= 365)%Z /\ coin_id <> ""
  | _ => True
  end.

(** Every payload of the history cache was built for the symbol of its
    key. *)
Definition cache_payloads (w : world) : Prop :=
  forall key payload timestamp,
    cache_historical_data w !! key = Some (payload, timestamp) ->
    exists symbol days chart,
      key = cache_key symbol days /\ payload = history_result symbol chart.

(** The last coin of the list whose symbol is [symbol] in upper case. *)
Definition last_coin (symbol : string) (coins : list coin_list_entry)
  : option coin_list_entry :=
  List.find (fun c => bool_decide (str_upper (cl_symbol c) = symbol))
    (rev coins).

End Api.

(** ** app.py *)
Module App.
Import Payloads Api.

(** The characters [str.strip] and [int] take for blanks, on ASCII text:
    tab to carriage return, the four separators and the space. *)
Definition is_space (c : ascii) : bool :=
  let n := nat_of_ascii c in
  ((9 <=? n)%nat && (n <=? 13)%nat) || ((28 <=? n)%nat && (n <=? 32)%nat).

Definition is_digit (c : ascii) : bool :=
  let n := nat_of_ascii c in (48 <=? n)%nat && (n <=? 57)%nat.

Fixpoint all_chars (p : ascii -> bool) (s : string) : bool :=
  match s with
  | EmptyString => true
  | String c s' => p c && all_chars p s'
  end.

Fixpoint lstrip (s : string) : string :=
  match s with
  | EmptyString => EmptyString
  | String c s' => if is_space c then lstrip s' else s
  end.

Fixpoint rstrip (s : string) : string :=
  match s with
  | EmptyString => EmptyString
  | String c s' =>
      match rstrip s' with
      | EmptyString => if is_space c then EmptyString else String c EmptyString
      | r => String c r
      end
  end.

(** The digits of an integer literal: decimal digits, with single
    underscores between two digits; [after_digit] tells whether the
    character before was a digit. *)
Fixpoint digits_value (acc : Z) (after_digit : bool) (s : string)
  : option Z :=
  match s with
  | EmptyString => if after_digit then Some acc else None
  | String c s' =>
      if is_digit c then
        digits_value (10 * acc + Z.of_nat (nat_of_ascii c - 48)) true s'
      else if Ascii.eqb c "_" && after_digit then digits_value acc false s'
      else None
  end.

(** [int(text)] on ASCII text, inside [try: ... except ValueError]: blanks
    around, an optional sign, then the digits; anything else raises
    ValueError. *)
Definition py_int (text : string) : days_arg :=
  let s := rstrip (lstrip text) in
  let '(negative, digits) :=
    match s with
    | String c rest =>
        if Ascii.eqb c "-" then (true, rest)
        else if Ascii.eqb c "+" then (false, rest)
        else (false, s)
    | EmptyString => (false, s)
    end in
  match digits_value 0 false digits with
  | Some v => DaysInt (if negative then - v else v)
  | None => DaysInvalid
  end.

(** A calendar date. *)
Record date : Type := {
  year : Z;
  month : Z;
  day : Z
}.

(** The dates [datetime] can hold whose year has four digits. *)
Definition valid_date (d : date) : Prop :=
  (1000 <= year d <= 9999)%Z /\ (1 <= month d <= 12)%Z
  /\ (1 <= day d <= 31)%Z.

Definition two_digits (n : Z) : string :=
  if (n <? 10)%Z then "0" +:+ show_Z n else show_Z n.

(** [d.strftime('%Y-%m-%d')]. *)
Definition strftime_ymd (d : date) : string :=
  show_Z (year d) +:+ "-" +:+ two_digits (month d) +:+ "-"
  +:+ two_digits (day d).

(** The call of [fetch_historical_data] the page makes for the selected
    symbol: its second argument is [start_date], the text of the day
    [timeframe_days] days before today. *)
Definition fetch_selected_history (selected_symbol : string)
  (start_date : date) (now : Q) (net : network) (w : world)
  : option history * world :=
  fetch_historical_data selected_symbol (py_int (strftime_ymd start_date))
    now net w.

End App.

(** ** ui_components.py *)
Module Ui.
Import Frames Payloads DataProcessing Utils.

(** The number the Python code reads in a cell of a float column of a
    row: a null is NaN. *)
Definition cell (x : option Q) : pyfloat :=
  match x with
  | Some q => Finite q
  | None => NaN
  end.

(** The truth value of a float: false for zero, true for every other
    value, NaN included. *)
Definition truthy (x : pyfloat) : bool := negb (pyfloat_is_zero x).

(** What [render_metrics] hands to the three [st.metric] calls of a row. *)
Record metrics : Type := {
  price_value : string;
  price_delta : option string;
  market_cap_value : string;
  volume_value : string
}.

Definition row_metrics (row : listing_row) : metrics :=
  let change := cell (percent_change_24h row) in
  {| price_value := "$" +:+ format_fixed (cell (price row)) 4;
     price_delta :=
       if truthy change then Some (format_fixed change 2 +:+ "%") else None;
     market_cap_value := format_large_number (Some (cell (market_cap row))) 2;
     volume_value := format_large_number (Some (cell (volume_24h row))) 2 |}.

End Ui.

(** ** charts.py *)
Module Charts.
Import Frames Payloads DataProcessing Utils Ui.

(** A column in ascending order with its nulls last. *)
Definition ascending_nulls_last (col : list (option Q)) : Prop :=
  exists (vals : list Q) (nulls : nat),
    col = (map Some vals ++ replicate nulls None)%list
    /\ StronglySorted Qle vals.

(** One bar of the market-cap chart: its label on the y axis, its length
    and the text written beside it. *)
Record bar : Type := {
  bar_name : option string;
  bar_value : option Q;
  bar_text : string
}.

(** The data and the height of the figure [create_market_cap_chart]
    builds. *)
Record market_cap_chart : Type := {
  bars : list bar;
  height : Z
}.

Definition market_cap_bar (row : listing_row) : bar :=
  {| bar_name := name row;
     bar_value := market_cap row;
     bar_text :=
       "$" +:+ format_fixed
                 (pyfloat_div_const (cell (market_cap row)) 1000000000) 2
       +:+ "B" |}.

Section MarketCapChart.

(** numpy's default [argsort] behind [sort_values], see [Frames]. *)
Variable argsort : list Q -> list nat.

(** [create_market_cap_chart(df)]. *)
Definition create_market_cap_chart (df : frame listing_row)
  : result market_cap_chart :=
  match df with
  | NoColumns => Raise (KeyError "market_cap")
  | Frame rows =>
      let df_sorted := sort_rows argsort market_cap true rows in
      Ok {| bars := map market_cap_bar df_sorted;
            height := Z.max 300 (Z.of_nat (length rows) * 50) |}
  end.

End MarketCapChart.

End Charts.

(** * Properties *)

(** ** The stable sort *)
Module StableSortFacts.
Import Frames.

Section Facts.
Context {A : Type}.
Variable leb : A -> A -> bool.
Hypothesis leb_total : forall a b, leb a b = true \/ leb b a = true.
Hypothesis leb_trans :
  forall a b c, leb a b = true -> leb b c = true -> leb a c = true.

Lemma insert_sorted_perm x l : insert_sorted leb x l ≡ₚ x :: l.
Proof.
  induction l as [|y l IH]; simpl; [reflexivity|].
  destruct (leb x y); [reflexivity|].
  rewrite IH. apply Permutation_swap.
Qed.

Lemma stable_sort_perm l : stable_sort leb l ≡ₚ l.
Proof.
  induction l as [|x l IH]; simpl; [reflexivity|].
  rewrite insert_sorted_perm. now rewrite IH.
Qed.

Lemma stable_sort_length l : length (stable_sort leb l) = length l.
Proof. apply Permutation_length, stable_sort_perm. Qed.

Lemma insert_sorted_sorted x l :
  StronglySorted (fun a b => leb a b = true) l ->
  StronglySorted (fun a b => leb a b = true) (insert_sorted leb x l).
Proof.
  induction 1 as [|y l Hs IH Hy]; simpl.
  - repeat constructor.
  - destruct (leb x y) eqn:Hxy.
    + constructor; [constructor; assumption|].
      constructor; [assumption|].
      eapply Forall_impl; [exact Hy|]. intros z Hz. simpl in Hz. eauto.
    + constructor; [assumption|].
      rewrite insert_sorted_perm. constructor; [|assumption].
      destruct (leb_total x y) as [H|H]; congruence.
Qed.

Lemma stable_sort_sorted l :
  StronglySorted (fun a b => leb a b = true) (stable_sort leb l).
Proof.
  induction l as [|x l IH]; simpl; [constructor|].
  now apply insert_sorted_sorted.
Qed.

Lemma tied_tie_class z : tie_class leb (tied leb z).
Proof.
  intros x y Hx Hy. unfold tied in Hx, Hy.
  apply andb_prop in Hx as [_ Hxz]. apply andb_prop in Hy as [Hzy _]. eauto.
Qed.

(** Inserting [x] leaves the elements of a tie in their order, with [x] in
    front of them when it is one of them. *)
Lemma filter_tie_insert p x l :
  tie_class leb p ->
  List.filter p (insert_sorted leb x l) = List.filter p (x :: l).
Proof.
  intros Hp. induction l as [|y l IH]; [reflexivity|].
  simpl insert_sorted. destruct (leb x y) eqn:Hxy; [reflexivity|].
  change (List.filter p (y :: insert_sorted leb x l))
    with (if p y then y :: List.filter p (insert_sorted leb x l)
          else List.filter p (insert_sorted leb x l)).
  rewrite IH. simpl.
  destruct (p x) eqn:Hx, (p y) eqn:Hy; try reflexivity.
  rewrite (Hp _ _ Hx Hy) in Hxy. discriminate.
Qed.

(** Stability: the elements of each tie keep the order of the input. *)
Lemma stable_sort_stable p l :
  tie_class leb p ->
  List.filter p (stable_sort leb l) = List.filter p l.
Proof.
  intros Hp. induction l as [|x l IH]; [reflexivity|].
  simpl stable_sort. rewrite filter_tie_insert by assumption.
  simpl. now rewrite IH.
Qed.

(** The first rows of the sorted list hold the first rows of each tie. *)
Lemma take_stable_sort_prefix p k l :
  tie_class leb p ->
  List.filter p (take k (stable_sort leb l)) `prefix_of` List.filter p l.
Proof.
  intros Hp. rewrite <- (stable_sort_stable p l Hp).
  rewrite <- (take_drop k (stable_sort leb l)) at 2.
  rewrite List.filter_app. now apply prefix_app_r.
Qed.

End Facts.

End StableSortFacts.

(** ** Sorting by a rational key *)
Module KeySortFacts.
Import Frames StableSortFacts.

Section Facts.
Context {A : Type}.
Variable key : A -> Q.

Lemma key_leb_total a b : key_leb key a b = true \/ key_leb key b a = true.
Proof.
  unfold key_leb. rewrite !Qle_bool_iff.
  destruct (Qlt_le_dec (key b) (key a)) as [H|H]; [right|left]; lra.
Qed.

Lemma key_leb_trans a b c :
  key_leb key a b = true -> key_leb key b c = true -> key_leb key a c = true.
Proof. unfold key_leb. rewrite !Qle_bool_iff. lra. Qed.

Lemma key_geb_total a b : key_geb key a b = true \/ key_geb key b a = true.
Proof. unfold key_geb. destruct (key_leb_total a b); auto. Qed.

Lemma key_geb_trans a b c :
  key_geb key a b = true -> key_geb key b c = true -> key_geb key a c = true.
Proof. unfold key_geb. intros. eapply key_leb_trans; eauto. Qed.

(** Being tied is having equal keys, for either direction of the order. *)
Lemma tied_leb_eq a b : tied (key_leb key) a b = Qeq_bool (key a) (key b).
Proof.
  unfold tied, key_leb.
  destruct (Qeq_bool (key a) (key b)) eqn:E.
  - apply Qeq_bool_iff in E. apply andb_true_intro.
    rewrite !Qle_bool_iff. lra.
  - apply andb_false_iff.
    destruct (Qle_bool (key a) (key b)) eqn:E1; [right|now left].
    destruct (Qle_bool (key b) (key a)) eqn:E2; [|reflexivity].
    apply Qle_bool_iff in E1, E2.
    assert (H : Qeq_bool (key a) (key b) = true) by (apply Qeq_bool_iff; lra).
    congruence.
Qed.

Lemma tied_geb_eq a b : tied (key_geb key) a b = Qeq_bool (key a) (key b).
Proof.
  rewrite <- tied_leb_eq. unfold tied, key_geb, key_leb. apply andb_comm.
Qed.

(** In a list sorted downwards, only rows before [a] are above it. *)
Lemma above_desc_bound l i a :
  StronglySorted (fun x y => key_geb key x y = true) l ->
  l !! i = Some a ->
  (length (List.filter (above key a) l) <= i)%nat.
Proof.
  intros Hs Hi.
  assert (Hlt : (i < length l)%nat) by (eapply lookup_lt_Some; eauto).
  rewrite <- (take_drop_middle l i a Hi) in Hs |- *.
  rewrite List.filter_app, length_app.
  assert (Hnil : List.filter (above key a) (a :: drop (S i) l) = []).
  { apply StronglySorted_app_1_r in Hs.
    apply StronglySorted_inv in Hs as [_ Hall].
    cbn [List.filter].
    assert (Ha : above key a a = false).
    { unfold above. apply negb_false_iff, Qle_bool_iff. lra. }
    rewrite Ha. clear Ha.
    induction Hall as [|y t Hy _ IH]; [reflexivity|].
    cbn [List.filter].
    assert (Hay : above key a y = false).
    { unfold above. unfold key_geb in Hy. now rewrite Hy. }
    rewrite Hay. exact IH. }
  rewrite Hnil. simpl.
  pose proof (filter_length_le (above key a) (take i l)) as Hle.
  rewrite length_take in Hle. lia.
Qed.

(** In a list sorted upwards, every row from [b] on is above [a] when [b]
    is. *)
Lemma above_asc_bound l j a b :
  StronglySorted (fun x y => key_leb key x y = true) l ->
  l !! j = Some b ->
  above key a b = true ->
  (length l - j <= length (List.filter (above key a) l))%nat.
Proof.
  intros Hs Hj Hab.
  assert (Hlt : (j < length l)%nat) by (eapply lookup_lt_Some; eauto).
  rewrite <- (take_drop_middle l j b Hj) in Hs |- *.
  rewrite List.filter_app, !length_app.
  assert (Hall : List.filter (above key a) (b :: drop (S j) l) = b :: drop (S j) l).
  { apply StronglySorted_app_1_r in Hs.
    apply StronglySorted_inv in Hs as [_ Hall].
    cbn [List.filter]. rewrite Hab. f_equal.
    induction Hall as [|y t Hy _ IH]; [reflexivity|].
    cbn [List.filter].
    assert (Hay : above key a y = true).
    { unfold above, key_leb in *.
      apply negb_true_iff in Hab. apply negb_true_iff.
      destruct (Qle_bool (key y) (key a)) eqn:E; [|reflexivity].
      apply Qle_bool_iff in E, Hy.
      assert (Hba : Qle_bool (key b) (key a) = true)
        by (apply Qle_bool_iff; lra).
      congruence. }
    rewrite Hay. now rewrite IH. }
  rewrite Hall, length_take. simpl. lia.
Qed.

(** The [k] largest rows are not below the [k] smallest ones, as soon as
    there are [2k] rows. *)
Lemma top_not_below_bottom l k a b :
  (2 * k <= length l)%nat ->
  a ∈ take k (stable_sort (key_geb key) l) ->
  b ∈ take k (stable_sort (key_leb key) l) ->
  (key b <= key a)%Q.
Proof.
  intros Hk Ha Hb.
  apply elem_of_take in Ha as (i & Hi & Hik).
  apply elem_of_take in Hb as (j & Hj & Hjk).
  destruct (Qlt_le_dec (key a) (key b)) as [Hlt|Hle]; [exfalso|exact Hle].
  assert (Hab : above key a b = true).
  { unfold above. apply negb_true_iff.
    destruct (Qle_bool (key b) (key a)) eqn:E; [|reflexivity].
    apply Qle_bool_iff in E. lra. }
  pose proof (above_desc_bound _ _ _
    (stable_sort_sorted _ key_geb_total key_geb_trans l) Hi) as Hup.
  pose proof (above_asc_bound _ _ _ _
    (stable_sort_sorted _ key_leb_total key_leb_trans l) Hj Hab) as Hlow.
  assert (Hperm : stable_sort (key_geb key) l ≡ₚ stable_sort (key_leb key) l).
  { rewrite !stable_sort_perm. reflexivity. }
  assert (Hlen : length (List.filter (above key a) (stable_sort (key_geb key) l))
                 = length (List.filter (above key a) (stable_sort (key_leb key) l))).
  { apply Permutation_length.
    clear -Hperm. induction Hperm; simpl.
    - reflexivity.
    - destruct (above key a x); [constructor|]; assumption.
    - destruct (above key a x), (above key a y); try reflexivity. apply Permutation_swap.
    - etransitivity; eassumption. }
  rewrite stable_sort_length in Hlow. lia.
Qed.

End Facts.

End KeySortFacts.

(** ** get_top_gainers_losers *)
Module MoversFacts.
Import Frames Payloads DataProcessing StableSortFacts KeySortFacts.

Section Facts.
Variable tf : timeframe.

Let key (r : listing_row) : Q := key_value (column tf r).

Lemma nlargest_count (k : nat) (rows : list listing_row) :
  nlargest (Z.of_nat k) (column tf) rows
  = take k (stable_sort (key_geb key) rows).
Proof.
  unfold nlargest. destruct k as [|k]; [reflexivity|].
  destruct (Z.of_nat (S k) <=? 0)%Z eqn:E; [apply Z.leb_le in E; lia|].
  now rewrite Nat2Z.id.
Qed.

Lemma nsmallest_count (k : nat) (rows : list listing_row) :
  nsmallest (Z.of_nat k) (column tf) rows
  = take k (stable_sort (key_leb key) rows).
Proof.
  unfold nsmallest. destruct k as [|k]; [reflexivity|].
  destruct (Z.of_nat (S k) <=? 0)%Z eqn:E; [apply Z.leb_le in E; lia|].
  now rewrite Nat2Z.id.
Qed.

(** The [n] the two selections are made with. *)
Lemma adjusted_count (len n : nat) :
  (if (Z.of_nat len <? Z.of_nat n * 2)%Z then (Z.of_nat len / 2)%Z
   else Z.of_nat n)
  = Z.of_nat (movers_count len n).
Proof.
  unfold movers_count.
  destruct (Z.of_nat len <? Z.of_nat n * 2)%Z eqn:E;
    destruct (len <? 2 * n)%nat eqn:E'; try reflexivity.
  - now rewrite Nat2Z.inj_div.
  - apply Z.ltb_lt in E. apply Nat.ltb_ge in E'. lia.
  - apply Z.ltb_ge in E. apply Nat.ltb_lt in E'. lia.
Qed.

Lemma movers_count_le (len n : nat) :
  (movers_count len n <= n /\ 2 * movers_count len n <= len)%nat.
Proof.
  unfold movers_count. destruct (len <? 2 * n)%nat eqn:E.
  - apply Nat.ltb_lt in E.
    pose proof (Nat.Div0.mul_div_le len 2).
    assert (len / 2 < S n)%nat; [|lia].
    apply Nat.Div0.div_lt_upper_bound; lia.
  - apply Nat.ltb_ge in E. lia.
Qed.

Lemma column_is_tie_leb v : tie_class (key_leb key) (column_is tf v).
Proof.
  intros x y Hx Hy. unfold column_is, key_leb, key in *.
  destruct (column tf x) as [qx|]; [|discriminate].
  destruct (column tf y) as [qy|]; [|discriminate].
  apply Qeq_bool_iff in Hx, Hy. apply Qle_bool_iff. simpl. lra.
Qed.

Lemma column_is_tie_geb v : tie_class (key_geb key) (column_is tf v).
Proof. intros x y Hx Hy. unfold key_geb. now apply column_is_tie_leb with v. Qed.

Lemma filter_column_is_valid v rows :
  List.filter (column_is tf v) (List.filter (fun r => notna (column tf r)) rows)
  = List.filter (column_is tf v) rows.
Proof.
  induction rows as [|r rows IH]; [reflexivity|]. simpl.
  unfold column_is at 2. destruct (column tf r) as [q|] eqn:E; simpl.
  - unfold column_is at 1. rewrite E. now rewrite IH.
  - exact IH.
Qed.

Lemma filter_change_project v rows :
  List.filter (change_is v) (map (project tf) rows)
  = map (project tf) (List.filter (column_is tf v) rows).
Proof.
  induction rows as [|r rows IH]; [reflexivity|]. simpl.
  change (change_is v (project tf r)) with (column_is tf v r).
  destruct (column_is tf v r); simpl; now rewrite IH.
Qed.

End Facts.

(** A negative [n] is not reduced, and pandas selects no row for it. *)
Lemma top_movers_negative_count (rows : list listing_row) (n : Z)
  (tf : timeframe) :
  (n < 0)%Z ->
  get_top_gainers_losers (Frame rows) n tf = Ok (Frame [], Frame []).
Proof.
  intros Hn. unfold get_top_gainers_losers, nlargest, nsmallest.
  set (valid := List.filter _ rows).
  destruct (Z.of_nat (length valid) <? n * 2)%Z eqn:E;
    [apply Z.ltb_lt in E; lia|].
  destruct (n <=? 0)%Z eqn:E'; [reflexivity|apply Z.leb_gt in E'; lia].
Qed.

Lemma prefix_map {A B} (f : A -> B) (l1 l2 : list A) :
  l1 `prefix_of` l2 -> map f l1 `prefix_of` map f l2.
Proof. intros [t ->]. exists (map f t). apply map_app. Qed.

(** For a count [n], in the terms of the code: both frames have
    [movers_count] rows that come from rows with a change, every change
    among the gainers is at least every change among the losers, and each
    tie keeps the order of the input. *)
Lemma top_movers_of_count (rows : list listing_row) (n : nat) (tf : timeframe) :
  let valid_count :=
    length (List.filter (fun r => notna (column tf r)) rows) in
  let k := movers_count valid_count n in
  exists gainers losers : list mover,
    get_top_gainers_losers (Frame rows) (Z.of_nat n) tf
    = Ok (Frame gainers, Frame losers)
    /\ (forall m, m ∈ (gainers ++ losers)%list ->
        exists r q, r ∈ rows /\ m = project tf r /\ m_change m = Some q)
    /\ length gainers = k /\ length losers = k /\ (k <= n)%nat
    /\ (forall g l qg ql,
        g ∈ gainers -> l ∈ losers ->
        m_change g = Some qg -> m_change l = Some ql -> (ql <= qg)%Q)
    /\ (forall v,
        List.filter (change_is v) gainers
        `prefix_of` map (project tf) (List.filter (column_is tf v) rows))
    /\ (forall v,
        List.filter (change_is v) losers
        `prefix_of` map (project tf) (List.filter (column_is tf v) rows)).
Proof.
  intros valid_count k.
  set (valid := List.filter (fun r => notna (column tf r)) rows).
  set (key := fun r : listing_row => key_value (column tf r)).
  pose proof (movers_count_le valid_count n) as [Hkn Hk2]. fold k in Hkn, Hk2.
  assert (Hvalid : forall r, r ∈ valid ->
            r ∈ rows /\ exists q, column tf r = Some q).
  { intros r Hr. apply list_elem_of_In, filter_In in Hr as [Hin Hq].
    split; [now apply list_elem_of_In|].
    destruct (column tf r) as [q|]; [eauto|discriminate]. }
  assert (Hsel : forall leb (r : listing_row),
            r ∈ take k (stable_sort leb valid) -> r ∈ valid).
  { intros leb r Hr. apply elem_of_take in Hr as (i & Hi & _).
    apply list_elem_of_lookup_2 in Hi.
    now rewrite (stable_sort_perm leb valid) in Hi. }
  exists (map (project tf) (take k (stable_sort (key_geb key) valid))),
         (map (project tf) (take k (stable_sort (key_leb key) valid))).
  split.
  { unfold get_top_gainers_losers. fold valid.
    rewrite adjusted_count. fold valid_count. fold k.
    now rewrite nlargest_count, nsmallest_count. }
  split.
  { intros m Hm. apply elem_of_app in Hm.
    assert (exists leb r, r ∈ take k (stable_sort leb valid)
                          /\ m = project tf r) as (leb & r & Hr & ->).
    { destruct Hm as [Hm|Hm]; apply list_elem_of_fmap in Hm as (r & -> & Hr);
        eauto. }
    apply Hsel, Hvalid in Hr as (Hin & q & Hq). exists r, q. auto. }
  split.
  { rewrite length_map, length_take, stable_sort_length.
    unfold valid_count in Hk2. fold valid in Hk2. lia. }
  split.
  { rewrite length_map, length_take, stable_sort_length.
    unfold valid_count in Hk2. fold valid in Hk2. lia. }
  split; [exact Hkn|].
  split.
  { intros g l qg ql Hg Hl Hqg Hql.
    apply list_elem_of_fmap in Hg as (rg & -> & Hg).
    apply list_elem_of_fmap in Hl as (rl & -> & Hl).
    simpl in Hqg, Hql.
    assert (H : (key rl <= key rg)%Q).
    { apply top_not_below_bottom with (l := valid) (k := k); assumption. }
    unfold key in H. now rewrite Hqg, Hql in H. }
  split.
  - intros v. rewrite filter_change_project. apply prefix_map.
    rewrite <- (filter_column_is_valid tf v rows). fold valid.
    apply take_stable_sort_prefix, column_is_tie_geb.
  - intros v. rewrite filter_change_project. apply prefix_map.
    rewrite <- (filter_column_is_valid tf v rows). fold valid.
    apply take_stable_sort_prefix, column_is_tie_leb.
Qed.

(** C4, as the code has it.  For every listings frame, every integer [n]
    and every percent-change column, [get_top_gainers_losers] returns two
    frames whose rows are made of listings of the input whose selected
    field is not null: their name, symbol, price and that field.  For
    [n >= 0] both have [n] rows, or [floor(valid_count / 2)] when fewer than
    [2n] listings have the field, hence equally many and at most [n]; for
    [n < 0] nothing is reduced and both are empty.  Every change among the
    gainers is at least every change among the losers; and for each value
    the gainers (the losers) holding it are the first listings of the input
    holding it, in the order of the input. *)
Theorem top_movers_spec (rows : list listing_row) (n : Z) (tf : timeframe) :
  let valid_count :=
    length (List.filter (fun r => notna (selected_change tf r)) rows) in
  let k :=
    if (n <? 0)%Z then O else movers_count valid_count (Z.to_nat n) in
  exists gainers losers : list mover,
    get_top_gainers_losers (Frame rows) n tf
    = Ok (Frame gainers, Frame losers)
    /\ (forall m, m ∈ (gainers ++ losers)%list ->
        exists r q, r ∈ rows /\ selected_change tf r = Some q
                    /\ m = {| m_name := name r; m_symbol := symbol r;
                              m_change := Some q; m_price := price r |})
    /\ length gainers = k /\ length losers = k
    /\ ((0 <= n)%Z -> (Z.of_nat k <= n)%Z)
    /\ ((n < 0)%Z -> gainers = [] /\ losers = [])
    /\ (forall g l qg ql,
        g ∈ gainers -> l ∈ losers ->
        m_change g = Some qg -> m_change l = Some ql -> (ql <= qg)%Q)
    /\ (forall v,
        List.filter (change_is v) gainers
        `prefix_of` map (mover_of tf) (List.filter (selected_is tf v) rows))
    /\ (forall v,
        List.filter (change_is v) losers
        `prefix_of` map (mover_of tf) (List.filter (selected_is tf v) rows)).
Proof.
  intros valid_count k.
  assert (Hcolumn : forall r, column tf r = selected_change tf r)
    by (intros r; destruct tf; reflexivity).
  assert (Hvalid : List.filter (fun r => notna (column tf r)) rows
                   = List.filter (fun r => notna (selected_change tf r)) rows).
  { apply filter_ext. intros r. now rewrite Hcolumn. }
  assert (Hties : forall v,
             map (project tf) (List.filter (column_is tf v) rows)
             = map (mover_of tf) (List.filter (selected_is tf v) rows)).
  { intros v. rewrite (filter_ext (column_is tf v) (selected_is tf v)).
    - apply map_ext. intros r. unfold project, mover_of. now rewrite Hcolumn.
    - intros r. unfold column_is, selected_is. now rewrite Hcolumn. }
  destruct (n <? 0)%Z eqn:Hn.
  - apply Z.ltb_lt in Hn. exists [], []. subst k.
    split; [now apply top_movers_negative_count|].
    split; [intros m Hm; now apply elem_of_nil in Hm|].
    split; [reflexivity|]. split; [reflexivity|].
    split; [lia|]. split; [auto|].
    split; [intros g l qg ql Hg; now apply elem_of_nil in Hg|].
    split; intros v; apply prefix_nil.
  - apply Z.ltb_ge in Hn.
    destruct (top_movers_of_count rows (Z.to_nat n) tf)
      as (gainers & losers & Hcall & Hrows & Hg & Hl & Hk & Hge & Htg & Htl).
    rewrite Z2Nat.id in Hcall by exact Hn. rewrite Hvalid in Hg, Hl, Hk.
    fold valid_count in Hg, Hl, Hk. fold k in Hg, Hl, Hk.
    exists gainers, losers.
    split; [exact Hcall|].
    split.
    { intros m Hm. destruct (Hrows m Hm) as (r & q & Hr & -> & Hq).
      cbn [project m_change] in Hq. exists r, q.
      split; [exact Hr|]. split; [now rewrite <- Hcolumn|].
      unfold project. now rewrite Hq. }
    split; [exact Hg|]. split; [exact Hl|].
    split; [lia|]. split; [lia|]. split; [exact Hge|].
    split; intros v; rewrite <- Hties; [apply Htg|apply Htl].
Qed.

Lemma top_movers_spec_witness :
  (exists gainers losers,
      get_top_gainers_losers (Frame movers_sample) 3 change_24h
      = Ok (Frame gainers, Frame losers)
      /\ map m_symbol gainers = [Some "A"; Some "B"]
      /\ map m_change gainers = [Some 5%Q; Some 2%Q]
      /\ map m_symbol losers = [Some "E"; Some "B"]
      /\ map m_change losers = [Some (-1)%Q; Some 2%Q])
  /\ (exists gainers losers,
        get_top_gainers_losers (Frame movers_sample) 2 change_7d
        = Ok (Frame gainers, Frame losers)
        /\ map m_symbol gainers = [Some "C"; Some "B"]
        /\ map m_symbol losers = [Some "A"; Some "D"])
  /\ (exists gainers losers,
        get_top_gainers_losers (Frame movers_sample) 1 change_1h
        = Ok (Frame gainers, Frame losers)
        /\ map m_symbol gainers = [Some "B"]
        /\ map m_symbol losers = [Some "E"])
  /\ (exists gainers losers,
        get_top_gainers_losers (Frame movers_sample) 1 change_30d
        = Ok (Frame gainers, Frame losers)
        /\ map m_symbol gainers = [Some "D"]
        /\ map m_symbol losers = [Some "C"]).
Proof.
  destruct (top_movers_spec movers_sample 3 change_24h)
    as (g1 & l1 & H1 & _).
  destruct (top_movers_spec movers_sample 2 change_7d)
    as (g2 & l2 & H2 & _).
  destruct (top_movers_spec movers_sample 1 change_1h)
    as (g3 & l3 & H3 & _).
  destruct (top_movers_spec movers_sample 1 change_30d)
    as (g4 & l4 & H4 & _).
  split; [exists g1, l1; split; [exact H1|];
          vm_compute in H1; injection H1 as <- <-; repeat split|].
  split; [exists g2, l2; split; [exact H2|];
          vm_compute in H2; injection H2 as <- <-; repeat split|].
  split; [exists g3, l3; split; [exact H3|];
          vm_compute in H3; injection H3 as <- <-; repeat split|].
  exists g4, l4. split; [exact H4|].
  vm_compute in H4. injection H4 as <- <-. repeat split.
Defined.

(** C4, as the spec words it, fails for a negative [n]: the count is not
    reduced, both frames are empty, and their length 0 is not at most
    [n]. *)
Lemma top_movers_negative_exceeds_n :
  get_top_gainers_losers (Frame movers_sample) (-1) change_24h
  = Ok (Frame [], Frame [])
  /\ ~ (Z.of_nat (length (@nil mover)) <= -1)%Z.
Proof. split; [reflexivity|]. cbn. lia. Qed.

End MoversFacts.

(** ** calculate_market_share *)
Module MarketShareFacts.
Import Frames Payloads DataProcessing.

(** The three sums the shares are computed from. *)
Lemma np_div_nonzero a b : ~ (b == 0)%Q -> np_div a b = Finite (a / b).
Proof.
  intros Hb. unfold np_div.
  destruct (Qeq_bool b 0) eqn:E; [|reflexivity].
  apply Qeq_bool_iff in E. contradiction.
Qed.

Lemma np_div_zero a b :
  (b == 0)%Q ->
  np_div a b = if Qeq_bool a 0 then NaN
               else if Qle_bool 0 a then PosInf else NegInf.
Proof.
  intros Hb. unfold np_div.
  destruct (Qeq_bool b 0) eqn:E; [reflexivity|].
  apply Qeq_bool_neq in E. contradiction.
Qed.

Lemma times_100_not_finite x :
  is_finite x = false -> is_finite (pyfloat_mul x 100) = false.
Proof. destruct x; simpl; intros H; try discriminate; reflexivity. Qed.

Lemma np_div_zero_not_finite a b :
  (b == 0)%Q -> is_finite (pyfloat_mul (np_div a b) 100) = false.
Proof.
  intros Hb. apply times_100_not_finite. rewrite np_div_zero by assumption.
  destruct (Qeq_bool a 0); [reflexivity|]. now destruct (Qle_bool 0 a).
Qed.

Lemma np_div_zero_zero a b :
  (b == 0)%Q -> (a == 0)%Q -> pyfloat_mul (np_div a b) 100 = NaN.
Proof.
  intros Hb Ha. rewrite np_div_zero by assumption.
  apply Qeq_bool_iff in Ha. now rewrite Ha.
Qed.

(** C3.  For every listings frame whose total market cap is not zero,
    [calculate_market_share] returns three finite shares, each its category
    sum divided by the total and multiplied by 100, and the three add up to
    100 (exactly, in the arithmetic of the model); and the listings BTC 600,
    ETH 300, XRP 100 give 60, 30 and 10. *)
Theorem market_share_sums_to_100 :
  (forall rows : list listing_row,
      let total := series_sum (map market_cap rows) in
      let btc :=
        series_sum (map market_cap (List.filter (symbol_is "BTC") rows)) in
      let eth :=
        series_sum (map market_cap (List.filter (symbol_is "ETH") rows)) in
      ~ (total == 0)%Q ->
      exists s b e a,
        calculate_market_share (Frame rows) = Ok s
        /\ Bitcoin s = Finite b /\ Ethereum s = Finite e
        /\ Altcoins s = Finite a
        /\ (b == btc / total * 100)%Q
        /\ (e == eth / total * 100)%Q
        /\ (a == (total - btc - eth) / total * 100)%Q
        /\ (b + e + a == 100)%Q)
  /\ (exists s,
        calculate_market_share
          (Frame [listing "BTC" (Some 600%Q); listing "ETH" (Some 300%Q);
                  listing "XRP" (Some 100%Q)]) = Ok s
        /\ is_value (Bitcoin s) 60 /\ is_value (Ethereum s) 30
        /\ is_value (Altcoins s) 10).
Proof.
  split.
  - intros rows total btc eth Htotal.
    eexists _, _, _, _. split.
    { unfold calculate_market_share. fold total btc eth.
      rewrite !np_div_nonzero by assumption. simpl. reflexivity. }
    simpl. repeat split; try reflexivity. field. exact Htotal.
  - eexists. split; [reflexivity|]. simpl. repeat split; reflexivity.
Qed.

Lemma market_share_sums_to_100_witness :
  exists s b e a,
    calculate_market_share
      (Frame [listing "BTC" (Some 3%Q); listing "DOGE" None;
              listing "ETH" (Some 1%Q)]) = Ok s
    /\ Bitcoin s = Finite b /\ Ethereum s = Finite e /\ Altcoins s = Finite a
    /\ (b + e + a == 100)%Q.
Proof.
  destruct (proj1 market_share_sums_to_100
              [listing "BTC" (Some 3%Q); listing "DOGE" None;
               listing "ETH" (Some 1%Q)])
    as (s & b & e & a & Hs & Hb & He & Ha & _ & _ & _ & Hsum).
  - vm_compute. discriminate.
  - exists s, b, e, a. auto.
Defined.

(** The listings of the scenario on binary64 floats: the shares are the
    floats 60, 30 and 10. *)
Lemma market_share_scenario_binary64 :
  Binary64.calculate_market_share
    [("BTC", Some 600%float); ("ETH", Some 300%float); ("XRP", Some 100%float)]
  = (60%float, 30%float, 10%float).
Proof. vm_compute. reflexivity. Qed.

(** Division by zero, then times 100: NaN for 0, the infinity of the sign
    otherwise. *)
Lemma np_div_zero_sign a b :
  (b == 0)%Q ->
  ((a == 0)%Q -> pyfloat_mul (np_div a b) 100 = NaN)
  /\ ((0 < a)%Q -> pyfloat_mul (np_div a b) 100 = PosInf)
  /\ ((a < 0)%Q -> pyfloat_mul (np_div a b) 100 = NegInf).
Proof.
  intros Hb. rewrite np_div_zero by assumption.
  split; [|split]; intros Ha.
  - apply Qeq_bool_iff in Ha. now rewrite Ha.
  - assert (H0 : Qeq_bool a 0 = false).
    { apply not_true_is_false. intros E. apply Qeq_bool_iff in E. lra. }
    assert (H1 : Qle_bool 0 a = true) by (apply Qle_bool_iff; lra).
    now rewrite H0, H1.
  - assert (H0 : Qeq_bool a 0 = false).
    { apply not_true_is_false. intros E. apply Qeq_bool_iff in E. lra. }
    assert (H1 : Qle_bool 0 a = false).
    { apply not_true_is_false. intros E. apply Qle_bool_iff in E. lra. }
    now rewrite H0, H1.
Qed.

(** C2, as the code has it.  For every listings frame whose market caps sum
    to zero, [calculate_market_share] raises nothing: it returns the three
    shares [category / 0 * 100], none of them a finite number.  The share
    of a category is NaN when the sum of the category is zero, the positive
    infinity when it is positive and the negative infinity when it is
    negative; the sum of the alternative coins is what the code divides,
    [total - btc - eth]. *)
Theorem market_share_zero_total (rows : list listing_row) :
  let total := series_sum (map market_cap rows) in
  let btc :=
    series_sum (map market_cap (List.filter (symbol_is "BTC") rows)) in
  let eth :=
    series_sum (map market_cap (List.filter (symbol_is "ETH") rows)) in
  let alt := (total - btc - eth)%Q in
  (total == 0)%Q ->
  exists s,
    calculate_market_share (Frame rows) = Ok s
    /\ is_finite (Bitcoin s) = false
    /\ is_finite (Ethereum s) = false
    /\ is_finite (Altcoins s) = false
    /\ ((btc == 0)%Q -> Bitcoin s = NaN)
    /\ ((0 < btc)%Q -> Bitcoin s = PosInf)
    /\ ((btc < 0)%Q -> Bitcoin s = NegInf)
    /\ ((eth == 0)%Q -> Ethereum s = NaN)
    /\ ((0 < eth)%Q -> Ethereum s = PosInf)
    /\ ((eth < 0)%Q -> Ethereum s = NegInf)
    /\ ((alt == 0)%Q -> Altcoins s = NaN)
    /\ ((0 < alt)%Q -> Altcoins s = PosInf)
    /\ ((alt < 0)%Q -> Altcoins s = NegInf)
    /\ ((btc == 0)%Q -> (eth == 0)%Q -> Altcoins s = NaN).
Proof.
  intros total btc eth alt Htotal.
  destruct (np_div_zero_sign btc total Htotal) as (Hb0 & Hb1 & Hb2).
  destruct (np_div_zero_sign eth total Htotal) as (He0 & He1 & He2).
  destruct (np_div_zero_sign alt total Htotal) as (Ha0 & Ha1 & Ha2).
  eexists. split.
  { unfold calculate_market_share. fold total btc eth. reflexivity. }
  cbn [Bitcoin Ethereum Altcoins]. fold alt.
  split; [now apply np_div_zero_not_finite|].
  split; [now apply np_div_zero_not_finite|].
  split; [now apply np_div_zero_not_finite|].
  repeat (split; [assumption|]).
  intros Hb He. apply Ha0. unfold alt. lra.
Qed.

Lemma market_share_zero_total_witness :
  exists s,
    calculate_market_share
      (Frame [listing "BTC" (Some 5%Q); listing "ETH" (Some (-5)%Q)]) = Ok s
    /\ Bitcoin s = PosInf /\ Ethereum s = NegInf /\ Altcoins s = NaN.
Proof.
  destruct (market_share_zero_total
              [listing "BTC" (Some 5%Q); listing "ETH" (Some (-5)%Q)])
    as (s & Hs & _ & _ & _ & _ & Hb & _ & _ & _ & He & Ha & _).
  - vm_compute. reflexivity.
  - exists s. split; [exact Hs|].
    split; [apply Hb; reflexivity|].
    split; [apply He; reflexivity|].
    apply Ha; vm_compute; reflexivity.
Defined.

(** C2, as the spec words it, fails: a single listing with market cap 0
    has total 0, and the call returns three NaN; no failure is raised. *)
Lemma market_share_zero_total_returns_nan :
  (series_sum (map market_cap [listing "BTC" (Some 0%Q)]) == 0)%Q
  /\ calculate_market_share (Frame [listing "BTC" (Some 0%Q)])
     = Ok {| Bitcoin := NaN; Ethereum := NaN; Altcoins := NaN |}.
Proof. split; reflexivity. Qed.

(** The same listing on binary64 floats: [0.0 / 0.0 * 100] is NaN. *)
Lemma market_share_zero_total_binary64 :
  Binary64.calculate_market_share [("BTC", Some 0%float)]
  = (nan, nan, nan).
Proof. vm_compute. reflexivity. Qed.

End MarketShareFacts.

(** ** format_large_number *)
Module UtilsFacts.
Import Utils.

Lemma abs_ge_div (q b : Q) :
  Qle_bool b (Qabs (q / 1000)) = Qle_bool (b * 1000) (Qabs q).
Proof.
  assert (H : (Qabs (q / 1000) == Qabs q / 1000)%Q).
  { unfold Qdiv. rewrite Qabs_Qmult. reflexivity. }
  destruct (Qle_bool (b * 1000) (Qabs q)) eqn:E.
  - apply Qle_bool_iff in E. apply Qle_bool_iff. rewrite H.
    apply Qle_shift_div_l; [reflexivity|exact E].
  - destruct (Qle_bool b (Qabs (q / 1000))) eqn:E'; [|reflexivity].
    apply Qle_bool_iff in E'. rewrite H in E'.
    assert (Hc : Qle_bool (b * 1000) (Qabs q) = true).
    { apply Qle_bool_iff.
      assert (Heq : (Qabs q / 1000 * 1000 == Qabs q)%Q) by field.
      rewrite <- Heq.
      apply Qmult_le_compat_r; [exact E'|discriminate]. }
    congruence.
Qed.

Lemma Qle_bool_false_lt (a b : Q) : Qle_bool a b = false -> (b < a)%Q.
Proof.
  intros H. destruct (Qlt_le_dec b a) as [Hlt|Hle]; [exact Hlt|].
  apply Qle_bool_iff in Hle. congruence.
Qed.

(** Boolean comparisons of the context, as propositions. *)
Ltac qle_props :=
  repeat match goal with
    | H : Qle_bool _ _ = true |- _ => apply Qle_bool_iff in H
    | H : Qle_bool _ _ = false |- _ => apply Qle_bool_false_lt in H
    end.

(** The loop stops after [magnitude_by_abs] divisions, within its fuel. *)
Lemma scale_loop_magnitude (x : pyfloat) :
  scale_loop (length suffixes) x 0
  = (scaled_down (magnitude_by_abs x) x, magnitude_by_abs x).
Proof.
  destruct x as [q| | |]; try reflexivity.
  unfold scaled_down. cbn -[Qle_bool Qabs Qdiv].
  rewrite !abs_ge_div.
  change (1000 * 1000)%Q with 1000000%Q.
  rewrite !andb_true_r, andb_false_r.
  destruct (Qle_bool 1000 (Qabs q)) eqn:E1;
    destruct (Qle_bool 1000000 (Qabs q)) eqn:E2;
    destruct (Qle_bool (1000000 * 1000) (Qabs q)) eqn:E3;
    destruct (Qle_bool (1000000 * 1000 * 1000) (Qabs q)) eqn:E4;
    destruct (Qle_bool 1000000000 (Qabs q)) eqn:F3;
    destruct (Qle_bool 1000000000000 (Qabs q)) eqn:F4;
    try reflexivity; exfalso; qle_props; lra.
Qed.

(** The loop guard is false where the loop stops: the loop has run to its
    end. *)
Lemma scale_loop_exits (x : pyfloat) :
  scale_guard (scale_loop (length suffixes) x 0) = false.
Proof.
  rewrite scale_loop_magnitude. unfold scale_guard, scaled_down.
  destruct x as [q| | |]; try reflexivity.
  cbn -[Qle_bool Qabs Qdiv].
  destruct (Qle_bool 1000000000000 (Qabs q)) eqn:F4;
    [cbn -[Qle_bool Qabs Qdiv]; apply andb_false_r|].
  destruct (Qle_bool 1000000000 (Qabs q)) eqn:F3;
    [cbn -[Qle_bool Qabs Qdiv]; rewrite !abs_ge_div, andb_true_r;
     apply not_true_is_false; intros E; qle_props; lra|].
  destruct (Qle_bool 1000000 (Qabs q)) eqn:F2;
    [cbn -[Qle_bool Qabs Qdiv]; rewrite !abs_ge_div, andb_true_r;
     apply not_true_is_false; intros E; qle_props; lra|].
  destruct (Qle_bool 1000 (Qabs q)) eqn:F1;
    cbn -[Qle_bool Qabs Qdiv]; rewrite ?abs_ge_div, andb_true_r;
    apply not_true_is_false; intros E; qle_props; lra.
Qed.

Lemma magnitude_by_abs_opp (q : Q) :
  magnitude_by_abs (Finite (- q)) = magnitude_by_abs (Finite q).
Proof.
  unfold magnitude_by_abs.
  assert (H : (Qabs (- q) == Qabs q)%Q) by apply Qabs_opp.
  now rewrite !(Qleb_comp _ _ (reflexivity _) _ _ H).
Qed.

Lemma magnitude_by_abs_bound (x : pyfloat) :
  (magnitude_by_abs x < length suffixes)%nat.
Proof.
  destruct x as [q| | |]; simpl; try lia.
  repeat match goal with |- context [if ?b then _ else _] => destruct b end;
    lia.
Qed.

(** C10.  [format_large_number] returns "N/A" for None and the bare "0"
    for a zero; for every other number, negative ones included, it returns
    "$", the number after [m] divisions by 1000 in fixed-point notation, and
    the [m]-th suffix, where [m] is read off the absolute value of the
    number, so that a number and its opposite get the same suffix. *)
Theorem format_large_number_cases :
  (forall precision, format_large_number None precision = "N/A")
  /\ (forall x precision,
        pyfloat_is_zero x = true ->
        format_large_number (Some x) precision = "0")
  /\ (forall x precision,
        pyfloat_is_zero x = false ->
        let m := magnitude_by_abs x in
        format_large_number (Some x) precision
        = "$" +:+ format_fixed (scaled_down m x) precision
              +:+ nth m suffixes ""
        /\ String.get 0 (format_large_number (Some x) precision)
           = Some "$"%char
        /\ (m < length suffixes)%nat)
  /\ (forall q, magnitude_by_abs (Finite (- q)) = magnitude_by_abs (Finite q)).
Proof.
  split; [reflexivity|].
  split; [intros x p Hx; unfold format_large_number; now rewrite Hx|].
  split; [|exact magnitude_by_abs_opp].
  intros x p Hx m.
  assert (Heq : format_large_number (Some x) p
                = "$" +:+ format_fixed (scaled_down m x) p
                      +:+ nth m suffixes "").
  { unfold format_large_number. rewrite Hx, scale_loop_magnitude.
    reflexivity. }
  split; [exact Heq|]. split; [now rewrite Heq|].
  apply magnitude_by_abs_bound.
Qed.

Lemma format_large_number_cases_witness :
  format_large_number (Some (Finite 0)) 2 = "0"
  /\ format_large_number (Some (Finite 1500000)) 2 = "$1.50M"
  /\ format_large_number (Some (Finite (-1500000))) 2 = "$-1.50M".
Proof.
  destruct format_large_number_cases as (_ & Hzero & Hother & _).
  split; [apply Hzero; reflexivity|].
  split.
  - destruct (Hother (Finite 1500000) 2%nat) as [-> _]; [reflexivity|].
    vm_compute. reflexivity.
  - destruct (Hother (Finite (-1500000)) 2%nat) as [-> _]; [reflexivity|].
    vm_compute. reflexivity.
Defined.

End UtilsFacts.

(** ** sort_values *)
Module SortValuesFacts.
Import Frames StableSortFacts KeySortFacts.

Section Facts.
Context {A : Type}.

Lemma omap_step {B C} (f : B -> option C) (x : B) (l : list B) :
  omap f (x :: l)
  = match f x with Some y => y :: omap f l | None => omap f l end.
Proof. reflexivity. Qed.

Lemma omap_ext_in {B C} (f g : B -> option C) (l : list B) :
  (forall x, In x l -> f x = g x) -> omap f l = omap g l.
Proof.
  induction l as [|x l IH]; intros H; [reflexivity|].
  rewrite !omap_step. rewrite (H x) by now left. rewrite IH; [reflexivity|].
  intros y Hy. apply H. now right.
Qed.

Lemma take_rows_seq (l : list A) : take_rows l (seq 0 (length l)) = l.
Proof.
  unfold take_rows.
  induction l as [|x l IH] using rev_ind; [reflexivity|].
  rewrite length_app. simpl length. rewrite Nat.add_1_r, seq_S, omap_app.
  simpl. rewrite lookup_app_r by lia. rewrite Nat.sub_diag. simpl.
  f_equal. rewrite <- IH at 2. apply omap_ext_in.
  intros i Hi. apply in_seq in Hi. apply lookup_app_l. lia.
Qed.

Lemma take_rows_perm (l : list A) (indexer : list nat) :
  indexer ≡ₚ seq 0 (length l) -> take_rows l indexer ≡ₚ l.
Proof.
  intros H. unfold take_rows. rewrite H. fold (take_rows l (seq 0 (length l))).
  now rewrite take_rows_seq.
Qed.

Lemma take_rows_map {B} (f : A -> B) (l : list A) (indexer : list nat) :
  take_rows (map f l) indexer = map f (take_rows l indexer).
Proof.
  unfold take_rows. induction indexer as [|i t IH]; [reflexivity|].
  rewrite !omap_step, list_lookup_fmap.
  destruct (l !! i); simpl; now rewrite IH.
Qed.

Lemma StronglySorted_rev {B} (R : B -> B -> Prop) (l : list B) :
  StronglySorted R l -> StronglySorted (fun a b => R b a) (rev l).
Proof.
  induction 1 as [|x l Hs IH Hx]; simpl; [constructor|].
  apply StronglySorted_app_2; [|exact IH|repeat constructor].
  intros a b Ha Hb. apply list_elem_of_singleton in Hb as ->.
  apply list_elem_of_In, in_rev in Ha. rewrite Forall_forall in Hx.
  apply Hx. now apply list_elem_of_In.
Qed.

Variable key : A -> option Q.

Lemma omap_key_notna (l : list A) :
  omap key (List.filter (fun r => notna (key r)) l)
  = map (fun r => key_value (key r)) (List.filter (fun r => notna (key r)) l).
Proof.
  induction l as [|x l IH]; [reflexivity|]. cbn [List.filter].
  destruct (key x) as [q|] eqn:E; cbn [notna]; [|exact IH].
  rewrite omap_step, E. cbn [map]. rewrite E. simpl. now rewrite IH.
Qed.

Lemma map_key_notna (l : list A) :
  map key (List.filter (fun r => notna (key r)) l)
  = map Some (map (fun r => key_value (key r))
                (List.filter (fun r => notna (key r)) l)).
Proof.
  induction l as [|x l IH]; [reflexivity|]. simpl.
  destruct (key x) as [q|] eqn:E; simpl; [|exact IH].
  rewrite E. simpl. now rewrite IH.
Qed.

Lemma map_key_isna (l : list A) :
  map key (List.filter (fun r => isna (key r)) l)
  = replicate (length (List.filter (fun r => isna (key r)) l)) None.
Proof.
  induction l as [|x l IH]; [reflexivity|]. simpl.
  destruct (key x) as [q|] eqn:E; simpl; [exact IH|].
  rewrite E. now rewrite IH.
Qed.

Lemma filter_split_perm (l : list A) :
  (List.filter (fun r => notna (key r)) l
   ++ List.filter (fun r => isna (key r)) l)%list ≡ₚ l.
Proof.
  induction l as [|x l IH]; [reflexivity|]. simpl.
  unfold isna. destruct (notna (key x)); simpl.
  - now rewrite IH.
  - rewrite <- Permutation_middle. now rewrite IH.
Qed.

Variable argsort : list Q -> list nat.
Hypothesis argsort_ok : argsort_spec argsort.

(** The rows [argsort] picks from a list without null key: all of them, in
    non-decreasing order of the key. *)
Lemma argsort_rows (l : list A) :
  let keys := map (fun r => key_value (key r)) l in
  take_rows l (argsort keys) ≡ₚ l
  /\ StronglySorted Qle
       (map (fun r => key_value (key r)) (take_rows l (argsort keys))).
Proof.
  intros keys. destruct (argsort_ok keys) as [Hperm Hsorted]. split.
  - apply take_rows_perm. unfold keys in Hperm. now rewrite length_map in Hperm.
  - rewrite <- take_rows_map. exact Hsorted.
Qed.

(** The sorted frame holds the rows of the input. *)
Lemma sort_rows_perm (ascending : bool) (rows : list A) :
  sort_rows argsort key ascending rows ≡ₚ rows.
Proof.
  unfold sort_rows. etransitivity; [|apply filter_split_perm].
  apply Permutation_app_tail.
  set (non_nans := List.filter (fun r => notna (key r)) rows).
  destruct ascending.
  - unfold non_nans at 2. rewrite omap_key_notna. apply argsort_rows.
  - rewrite <- Permutation_rev.
    unfold non_nans. rewrite <- filter_rev, omap_key_notna.
    etransitivity; [apply argsort_rows|].
    rewrite filter_rev. symmetry. apply Permutation_rev.
Qed.

(** The shape of a sorted frame: the rows without null key, which are in
    the order asked for, then the rows with a null key as the input has
    them. *)
Lemma sort_rows_shape (ascending : bool) (rows : list A) :
  exists sorted : list A,
    sort_rows argsort key ascending rows
    = (sorted ++ List.filter (fun r => isna (key r)) rows)%list
    /\ sorted ≡ₚ List.filter (fun r => notna (key r)) rows
    /\ StronglySorted
         (if ascending then Qle else fun a b => (b <= a)%Q)
         (map (fun r => key_value (key r)) sorted).
Proof.
  unfold sort_rows.
  set (non_nans := List.filter (fun r => notna (key r)) rows).
  destruct ascending.
  - assert (Hk : omap key non_nans
                 = map (fun r => key_value (key r)) non_nans)
      by apply omap_key_notna.
    rewrite Hk. eexists. split; [reflexivity|]. apply argsort_rows.
  - unfold non_nans. rewrite <- filter_rev, omap_key_notna.
    eexists. split; [reflexivity|].
    destruct (argsort_rows (List.filter (fun r => notna (key r)) (rev rows)))
      as [Hperm Hsorted].
    split.
    + rewrite <- Permutation_rev, Hperm, filter_rev.
      symmetry. apply Permutation_rev.
    + rewrite map_rev. now apply StronglySorted_rev in Hsorted.
Qed.

Lemma map_key_all_notna (l : list A) :
  Forall (fun r => notna (key r) = true) l ->
  map key l = map Some (map (fun r => key_value (key r)) l).
Proof.
  induction 1 as [|x l Hx _ IH]; [reflexivity|]. simpl. rewrite IH.
  destruct (key x); [reflexivity|discriminate].
Qed.

(** A frame sorted downwards has its key column in descending order, the
    nulls last. *)
Lemma sort_rows_descending (rows : list A) :
  descending_nulls_last (map key (sort_rows argsort key false rows)).
Proof.
  destruct (sort_rows_shape false rows) as (sorted & -> & Hperm & Hsorted).
  exists (map (fun r => key_value (key r)) sorted),
         (length (List.filter (fun r => isna (key r)) rows)).
  split; [|exact Hsorted].
  rewrite map_app, map_key_isna. f_equal.
  apply map_key_all_notna. rewrite Hperm. apply Forall_forall.
  intros r Hr. now apply list_elem_of_In, filter_In in Hr as [_ Hr].
Qed.

(** A frame without null key sorted upwards has its key column in
    ascending order. *)
Lemma sort_rows_ascending (rows : list A) :
  Forall (fun r => notna (key r) = true) rows ->
  StronglySorted Qle
    (map (fun r => key_value (key r)) (sort_rows argsort key true rows)).
Proof.
  intros Hall.
  destruct (sort_rows_shape true rows) as (sorted & -> & Hperm & Hsorted).
  assert (Hnil : List.filter (fun r => isna (key r)) rows = []).
  { clear -Hall. induction Hall as [|x l Hx _ IH]; [reflexivity|].
    simpl. unfold isna at 1. now rewrite Hx. }
  rewrite Hnil, app_nil_r. exact Hsorted.
Qed.

End Facts.

(** *** Two sort kinds that keep numpy's promise *)

Lemma enumerate_lookup {B} (l : list B) (p : nat * B) :
  p ∈ enumerate l -> l !! p.1 = Some p.2.
Proof.
  intros Hp. destruct p as [i x].
  apply list_elem_of_lookup in Hp as [j Hj].
  apply lookup_zip_Some in Hj as [Hi Hx].
  apply lookup_seq in Hi as [-> _]. exact Hx.
Qed.

Lemma take_rows_pairs {B} (l : list B) (pairs : list (nat * B)) :
  (forall p, p ∈ pairs -> l !! p.1 = Some p.2) ->
  take_rows l (map fst pairs) = map snd pairs.
Proof.
  unfold take_rows. induction pairs as [|p pairs IH]; intros H; [reflexivity|].
  cbn [map]. rewrite omap_step, (H p) by now left.
  rewrite IH; [reflexivity|]. intros q Hq. apply H. now right.
Qed.

Lemma fst_enumerate {B} (l : list B) : map fst (enumerate l) = seq 0 (length l).
Proof. apply fst_zip. now rewrite length_seq. Qed.

(** Sorting the numbered values by value gives an [argsort] that keeps the
    promise, whatever order the numbered values are taken in. *)
Lemma sorted_pairs_spec (order : list Q -> list (nat * Q)) :
  (forall l, order l ≡ₚ enumerate l) ->
  argsort_spec (fun l => map fst (stable_sort (key_leb snd) (order l))).
Proof.
  intros Horder l.
  assert (Hperm : stable_sort (key_leb snd) (order l) ≡ₚ enumerate l).
  { etransitivity; [apply stable_sort_perm|apply Horder]. }
  split.
  - rewrite Hperm. now rewrite fst_enumerate.
  - rewrite take_rows_pairs.
    + eapply StronglySorted_fmap;
        [|apply (stable_sort_sorted (key_leb snd));
          [apply key_leb_total|apply key_leb_trans]].
      intros x y H. now apply Qle_bool_iff.
    + intros p Hp. apply enumerate_lookup. now rewrite <- Hperm.
Qed.

Lemma stable_argsort_spec : argsort_spec stable_argsort.
Proof. apply (sorted_pairs_spec enumerate). reflexivity. Qed.

Lemma latest_first_argsort_spec : argsort_spec latest_first_argsort.
Proof.
  apply (sorted_pairs_spec (fun l => rev (enumerate l))).
  intros l. symmetry. apply Permutation_rev.
Qed.

(** *** The stable kind sorts the rows stably *)

Section StableKind.
Context {A B : Type}.
Variable f : A -> B.
Variable lebA : A -> A -> bool.
Variable lebB : B -> B -> bool.
Hypothesis leb_f : forall a b, lebB (f a) (f b) = lebA a b.

Lemma insert_sorted_map x l :
  insert_sorted lebB (f x) (map f l) = map f (insert_sorted lebA x l).
Proof.
  induction l as [|y l IH]; [reflexivity|]. simpl.
  rewrite leb_f. destruct (lebA x y); [reflexivity|]. simpl. now rewrite IH.
Qed.

Lemma stable_sort_map l :
  stable_sort lebB (map f l) = map f (stable_sort lebA l).
Proof.
  induction l as [|x l IH]; [reflexivity|]. simpl.
  now rewrite IH, insert_sorted_map.
Qed.

End StableKind.

Lemma zip_map_r {A B C} (g : B -> C) (ns : list A) (l : list B) :
  zip ns (map g l) = map (fun p => (p.1, g p.2)) (zip ns l).
Proof.
  revert l. induction ns as [|n ns IH]; intros [|x l]; try reflexivity.
  simpl. now rewrite IH.
Qed.

Lemma snd_enumerate {B} (l : list B) : map snd (enumerate l) = l.
Proof. apply snd_zip. now rewrite length_seq. Qed.

(** With [kind='stable'], taking the rows [argsort] names is sorting the
    rows stably. *)
Lemma take_rows_stable_argsort {A} (kv : A -> Q) (l : list A) :
  take_rows l (stable_argsort (map kv l)) = stable_sort (key_leb kv) l.
Proof.
  unfold stable_argsort, enumerate. rewrite length_map, zip_map_r.
  fold (enumerate l).
  rewrite (stable_sort_map (fun p : nat * A => (p.1, kv p.2))
             (key_leb (fun p => kv p.2)) (key_leb snd)) by reflexivity.
  rewrite map_map. cbn [fst].
  rewrite take_rows_pairs.
  - rewrite <- (stable_sort_map snd (key_leb (fun p => kv p.2)) (key_leb kv))
      by reflexivity.
    now rewrite snd_enumerate.
  - intros p Hp. apply enumerate_lookup.
    now rewrite (stable_sort_perm _ (enumerate l)) in Hp.
Qed.

Lemma key_is_tie_class {A} (key : A -> option Q) (v : Q) :
  tie_class (key_leb (fun r => key_value (key r))) (key_is key v).
Proof.
  intros x y Hx Hy. unfold key_is, key_leb in *.
  destruct (key x) as [qx|]; [|discriminate].
  destruct (key y) as [qy|]; [|discriminate].
  apply Qeq_bool_iff in Hx, Hy. apply Qle_bool_iff. simpl. lra.
Qed.

Lemma filter_key_is_isna {A} (key : A -> option Q) (v : Q) (rows : list A) :
  List.filter (key_is key v) (List.filter (fun r => isna (key r)) rows) = [].
Proof.
  induction rows as [|r rows IH]; [reflexivity|]. cbn [List.filter].
  unfold isna at 1. destruct (key r) eqn:E; cbn [notna negb]; [exact IH|].
  cbn [List.filter]. unfold key_is at 1. now rewrite E.
Qed.

Lemma filter_key_is_notna {A} (key : A -> option Q) (v : Q) (rows : list A) :
  List.filter (key_is key v) (List.filter (fun r => notna (key r)) rows)
  = List.filter (key_is key v) rows.
Proof.
  induction rows as [|r rows IH]; [reflexivity|]. cbn [List.filter].
  unfold key_is at 2. destruct (key r) eqn:E; cbn [notna].
  - cbn [List.filter]. unfold key_is at 1. rewrite E. now rewrite IH.
  - exact IH.
Qed.

(** With [kind='stable'], a sorted frame keeps the rows of each tie in the
    order of the input, in either direction. *)
Lemma sort_rows_stable_kind {A} (key : A -> option Q) (ascending : bool)
  (v : Q) (rows : list A) :
  List.filter (key_is key v) (sort_rows stable_argsort key ascending rows)
  = List.filter (key_is key v) rows.
Proof.
  unfold sort_rows.
  rewrite List.filter_app, filter_key_is_isna, app_nil_r.
  pose proof (key_is_tie_class key v) as Htie.
  destruct ascending.
  - rewrite omap_key_notna, take_rows_stable_argsort.
    rewrite stable_sort_stable by assumption. apply filter_key_is_notna.
  - rewrite <- filter_rev, omap_key_notna, take_rows_stable_argsort.
    rewrite filter_rev, stable_sort_stable by assumption.
    rewrite filter_key_is_notna, filter_rev. apply rev_involutive.
Qed.

End SortValuesFacts.

(** ** prepare_listings_data *)
Module ListingsFacts.
Import Frames Payloads DataProcessing SortValuesFacts.

Lemma filter_isna_notna_perm {A} (key : A -> option Q) (sorted l : list A) :
  sorted ≡ₚ List.filter (fun r => notna (key r)) l ->
  List.filter (fun r => isna (key r)) sorted = [].
Proof.
  intros Hperm.
  assert (Hall : Forall (fun r => notna (key r) = true) sorted).
  { rewrite Hperm. apply Forall_forall. intros r Hr.
    now apply list_elem_of_In, filter_In in Hr as [_ Hr]. }
  clear Hperm. induction Hall as [|x t Hx _ IH]; [reflexivity|].
  cbn [List.filter]. unfold isna at 1. now rewrite Hx.
Qed.

Lemma filter_idempotent {A} (p : A -> bool) (l : list A) :
  List.filter p (List.filter p l) = List.filter p l.
Proof.
  induction l as [|x l IH]; [reflexivity|]. cbn [List.filter].
  destruct (p x) eqn:E; [|exact IH]. cbn [List.filter]. now rewrite E, IH.
Qed.

Lemma prepare_listings_unfold argsort api_data :
  data api_data <> [] ->
  prepare_listings_data argsort api_data
  = Ok (Frame (sort_rows argsort market_cap false (listed api_data))).
Proof.
  intros Hdata. unfold prepare_listings_data, listed.
  destruct (data api_data) as [|c cs]; [contradiction|].
  cbn [map DataFrame sort_values]. now rewrite map_map.
Qed.

(** C1, as the code has it.  For every listings payload with a coin, and
    whatever order numpy's default [argsort] leaves equal values in,
    [prepare_listings_data] returns the rows of the payload with the
    [market_cap] column in descending order, the rows without market cap
    after all the others and in the order of the payload. *)
Theorem prepare_listings_sorted (argsort : list Q -> list nat)
  (api_data : listings) :
  argsort_spec argsort ->
  data api_data <> [] ->
  exists rows,
    prepare_listings_data argsort api_data = Ok (Frame rows)
    /\ rows ≡ₚ listed api_data
    /\ descending_nulls_last (map market_cap rows)
    /\ List.filter (fun r => isna (market_cap r)) rows
       = List.filter (fun r => isna (market_cap r)) (listed api_data).
Proof.
  intros Hspec Hdata. eexists. split; [now apply prepare_listings_unfold|].
  split; [now apply sort_rows_perm|].
  split; [now apply sort_rows_descending|].
  destruct (sort_rows_shape market_cap argsort Hspec false (listed api_data))
    as (sorted & -> & Hperm & _).
  rewrite List.filter_app, (filter_isna_notna_perm _ _ _ Hperm).
  apply filter_idempotent.
Qed.

Lemma prepare_listings_sorted_witness :
  exists rows,
    prepare_listings_data stable_argsort
      {| data := [coin_with_cap "A" (Some 1%Q); coin_with_cap "B" None;
                  coin_with_cap "C" (Some 3%Q)] |}
    = Ok (Frame rows)
    /\ map symbol rows = [Some "C"; Some "A"; Some "B"].
Proof.
  destruct (prepare_listings_sorted stable_argsort
              {| data := [coin_with_cap "A" (Some 1%Q); coin_with_cap "B" None;
                          coin_with_cap "C" (Some 3%Q)] |}
              stable_argsort_spec)
    as (rows & Hrows & _).
  - discriminate.
  - exists rows. split; [exact Hrows|].
    vm_compute in Hrows. injection Hrows as <-. reflexivity.
Defined.

(** With [kind='stable'] the rows of equal market cap would keep the order
    of the payload; the module does not ask for that kind. *)
Lemma prepare_listings_stable_kind (api_data : listings) (v : Q) :
  data api_data <> [] ->
  exists rows,
    prepare_listings_data stable_argsort api_data = Ok (Frame rows)
    /\ List.filter (key_is market_cap v) rows
       = List.filter (key_is market_cap v) (listed api_data).
Proof.
  intros Hdata. eexists. split; [now apply prepare_listings_unfold|].
  apply sort_rows_stable_kind.
Qed.

(** C1, as the spec words it, fails on ties.  On eighteen coins of equal
    market cap numpy's quicksort answers the positions
    0, 15, 14, ..., 1, 16, 17, and the frame lists the coins in the order
    0, 1, 16, 15, ..., 2, 17 instead of the payload's. *)
Lemma prepare_listings_reorders_ties :
  aquicksort (repeat 1%Q 18)
  = Some [0; 15; 14; 13; 12; 11; 10; 9; 8; 7; 6; 5; 4; 3; 2; 1; 16; 17]%nat
  /\ map market_cap (listed equal_caps_payload) = repeat (Some 1%Q) 18
  /\ map symbol (listed equal_caps_payload)
     = map (fun i => Some (show_Z (Z.of_nat i))) (seq 0 18)
  /\ exists rows,
       prepare_listings_data quicksort_argsort equal_caps_payload
       = Ok (Frame rows)
       /\ map symbol rows
          = map (fun i => Some (show_Z (Z.of_nat i)))
              [0; 1; 16; 15; 14; 13; 12; 11; 10; 9; 8; 7; 6; 5; 4; 3; 2; 17]%nat
       /\ List.filter (key_is market_cap 1) rows
          <> List.filter (key_is market_cap 1) (listed equal_caps_payload).
Proof.
  split; [vm_compute; reflexivity|].
  split; [vm_compute; reflexivity|].
  split; [vm_compute; reflexivity|].
  eexists. split; [vm_compute; reflexivity|].
  split; [vm_compute; reflexivity|].
  vm_compute. discriminate.
Qed.

(** The promise numpy makes of [argsort] does not settle the order of ties:
    [latest_first_argsort] keeps it, and with it two coins of equal market
    cap come out in the opposite order. *)
Lemma argsort_spec_leaves_ties_open :
  argsort_spec latest_first_argsort
  /\ exists rows,
       prepare_listings_data latest_first_argsort
         {| data := [coin_with_cap "A" (Some 1%Q);
                     coin_with_cap "B" (Some 1%Q)] |}
       = Ok (Frame rows)
       /\ map symbol rows = [Some "B"; Some "A"].
Proof.
  split; [exact latest_first_argsort_spec|].
  eexists. split; [vm_compute; reflexivity|]. reflexivity.
Qed.

End ListingsFacts.

(** ** prepare_historical_data *)
Module HistoryFacts.
Import Frames Payloads DataProcessing Api SortValuesFacts.

Lemma dict_set_fresh {K V} `{EqDecision K} (k : K) (v : V) (d : list (K * V)) :
  k ∉ map fst d -> dict_set k v d = (d ++ [(k, v)])%list.
Proof.
  induction d as [|[k' v'] d IH]; intros Hk; [reflexivity|]. simpl.
  destruct (decide (k = k')) as [->|Hne].
  - exfalso. apply Hk. simpl. left.
  - rewrite IH; [reflexivity|]. intros Hin. apply Hk. simpl. now right.
Qed.

Lemma dict_get_head {K V} `{EqDecision K} (k : K) (v : V) (d : list (K * V)) :
  dict_get k ((k, v) :: d) = Some v.
Proof. simpl. now rewrite decide_True. Qed.

Lemma fst_imap_sample chart (f : nat -> nat) (points : list (Z * Q)) :
  map fst (imap (fun i => sample_at chart (f i)) points)
  = map (fun p => epoch_seconds p.1) points.
Proof.
  revert f. induction points as [|p t IH]; intros f; [reflexivity|].
  simpl. f_equal. apply (IH (fun i => f (S i))).
Qed.

(** With pairwise distinct seconds, the loop of [fetch_historical_data]
    builds one sample per price point, in the order of the series. *)
Lemma build_quotes_prefix (chart : market_chart) (k : nat) :
  NoDup (map (fun p => epoch_seconds p.1) (prices chart)) ->
  (k <= length (prices chart))%nat ->
  fold_left
    (add_sample (prices chart) (total_volumes chart) (market_caps chart))
    (seq 0 k) []
  = imap (sample_at chart) (take k (prices chart)).
Proof.
  intros Hnodup. induction k as [|k IH]; intros Hk; [reflexivity|].
  rewrite seq_S, fold_left_app, IH by lia. simpl.
  destruct (prices chart !! k) as [[ms price]|] eqn:Hpk;
    [|apply lookup_ge_None in Hpk; lia].
  unfold add_sample. rewrite Hpk.
  rewrite (take_S_r _ _ _ Hpk), imap_app. simpl.
  rewrite length_take, Nat.min_l, Nat.add_0_r by lia.
  rewrite dict_set_fresh; [reflexivity|].
  rewrite (fst_imap_sample chart (fun i => i)).
  rewrite <- (take_drop_middle _ _ _ Hpk) in Hnodup.
  rewrite map_app in Hnodup. apply NoDup_app in Hnodup as (_ & Hdisj & _).
  intros Hin. apply (Hdisj _ Hin). simpl. left.
Qed.

Lemma build_quotes_zipped (chart : market_chart) :
  NoDup (map (fun p => epoch_seconds p.1) (prices chart)) ->
  build_quotes chart = zipped_samples chart.
Proof.
  intros Hnodup. unfold build_quotes, zipped_samples.
  rewrite build_quotes_prefix by (assumption || lia).
  now rewrite firstn_all.
Qed.

Lemma prepare_history_unfold argsort fromtimestamp symbol status quotes :
  prepare_historical_data argsort fromtimestamp
    (Some {| h_data := Some [(symbol, {| quotes := quotes |})];
             h_status := status |})
  = sort_values argsort "timestamp"
      (fun r => Some (inject_Z (timestamp r))) true
      (DataFrame (map (history_row_of fromtimestamp) quotes)).
Proof.
  unfold prepare_historical_data, history_is_empty. cbn [h_data h_status].
  now rewrite dict_get_head.
Qed.

Lemma DataFrame_rows {A} (records : list A) :
  records <> [] -> DataFrame records = Frame records.
Proof. destruct records; [contradiction|reflexivity]. Qed.

Lemma StronglySorted_map_inv {A B} (f : A -> B) (R1 : A -> A -> Prop)
  (R2 : B -> B -> Prop) (l : list A) :
  (forall x y, R2 (f x) (f y) -> R1 x y) ->
  StronglySorted R2 (map f l) -> StronglySorted R1 l.
Proof.
  intros HR. induction l as [|x l IH]; intros Hs; [constructor|].
  simpl in Hs. apply StronglySorted_inv in Hs as [Hs Hall].
  constructor; [now apply IH|].
  rewrite Forall_map in Hall. eapply Forall_impl; [exact Hall|].
  intros y Hy. now apply HR.
Qed.

(** C5, as the code has it.  For every provider answer with a price series
    that is not empty and whose points fall on pairwise distinct seconds,
    the frame [prepare_historical_data] makes of the payload built from it
    has one row per price point; the rows are the three series zipped by
    index, with a null volume or market cap where that series is shorter;
    and the timestamps of the frame are in non-decreasing order. *)
Theorem prepare_history_samples (argsort : list Q -> list nat)
  (fromtimestamp : Z -> Z) (symbol : string) (chart : market_chart) :
  argsort_spec argsort ->
  prices chart <> [] ->
  NoDup (map (fun p => epoch_seconds p.1) (prices chart)) ->
  exists rows,
    prepare_historical_data argsort fromtimestamp
      (Some (history_result symbol chart)) = Ok (Frame rows)
    /\ length rows = length (prices chart)
    /\ rows ≡ₚ map (history_row_of fromtimestamp) (zipped_samples chart)
    /\ StronglySorted Z.le (map timestamp rows).
Proof.
  intros Hspec Hprices Hnodup.
  unfold history_result. rewrite prepare_history_unfold.
  rewrite build_quotes_zipped by assumption.
  set (samples := map (history_row_of fromtimestamp) (zipped_samples chart)).
  assert (Hlen : length samples = length (prices chart)).
  { unfold samples, zipped_samples. now rewrite length_map, length_imap. }
  rewrite DataFrame_rows
    by (intros ->; destruct (prices chart); [contradiction|discriminate]).
  cbn [sort_values]. eexists. split; [reflexivity|].
  assert (Hperm : sort_rows argsort
                    (fun r => Some (inject_Z (timestamp r))) true samples
                  ≡ₚ samples) by now apply sort_rows_perm.
  split; [now rewrite Hperm|]. split; [exact Hperm|].
  pose proof (sort_rows_ascending
                (fun r => Some (inject_Z (timestamp r))) argsort Hspec samples)
    as Hsorted.
  cbn [key_value] in Hsorted.
  assert (Hall : Forall (fun r : history_row =>
                   notna (Some (inject_Z (timestamp r))) = true) samples)
    by (apply Forall_forall; reflexivity).
  specialize (Hsorted Hall).
  rewrite <- (map_map timestamp inject_Z) in Hsorted.
  eapply StronglySorted_map_inv; [|exact Hsorted].
  intros x y Hxy. rewrite Zle_Qle. exact Hxy.
Qed.

Lemma prepare_history_samples_witness :
  exists rows,
    prepare_historical_data stable_argsort (fun t => t)
      (Some (history_result "BTC"
               {| prices := [(3000, 30%Q); (1000, 10%Q); (2000, 20%Q)]%Z;
                  total_volumes := [(3000, 5%Q)]%Z;
                  market_caps := [] |})) = Ok (Frame rows)
    /\ length rows = 3%nat
    /\ map timestamp rows = [1; 2; 3]%Z
    /\ map hvolume_24h rows = [None; None; Some 5%Q].
Proof.
  destruct (prepare_history_samples stable_argsort (fun t => t) "BTC"
              {| prices := [(3000, 30%Q); (1000, 10%Q); (2000, 20%Q)]%Z;
                 total_volumes := [(3000, 5%Q)]%Z;
                 market_caps := [] |}
              stable_argsort_spec)
    as (rows & Hrows & Hlen & _).
  - discriminate.
  - apply (bool_decide_unpack _). vm_compute. reflexivity.
  - exists rows. split; [exact Hrows|]. split; [exact Hlen|].
    vm_compute in Hrows. injection Hrows as <-. split; reflexivity.
Defined.

(** C5, as the spec words it, fails on the length: two price points that
    fall in the same second share one key of the payload, the later one
    replaces the earlier one, and the frame has one row for a price series
    of two points. *)
Lemma prepare_history_same_second :
  exists rows,
    prepare_historical_data stable_argsort (fun t => t)
      (Some (history_result "BTC"
               {| prices := [(1000, 1%Q); (1500, 2%Q)]%Z;
                  total_volumes := []; market_caps := [] |})) = Ok (Frame rows)
    /\ map hprice rows = [2%Q]
    /\ length rows <> length [(1000, 1%Q); (1500, 2%Q)]%Z.
Proof.
  eexists. split; [vm_compute; reflexivity|].
  split; [reflexivity|]. simpl. discriminate.
Qed.

(** C6, where the code departs from it.  [prepare_historical_data] returns
    the empty frame for None, for the empty dict and for a payload without
    ['data']; but a payload whose ['data'] is present and empty makes it
    raise IndexError, and a payload whose first symbol has no quote, which
    is what [fetch_historical_data] builds from an empty price series,
    makes it raise KeyError. *)
Theorem prepare_history_empty_raises (argsort : list Q -> list nat)
  (fromtimestamp : Z -> Z) :
  prepare_historical_data argsort fromtimestamp None = Ok NoColumns
  /\ (forall status,
        prepare_historical_data argsort fromtimestamp
          (Some {| h_data := None; h_status := status |}) = Ok NoColumns)
  /\ (forall status,
        prepare_historical_data argsort fromtimestamp
          (Some {| h_data := Some []; h_status := status |})
        = Raise IndexError)
  /\ (forall symbol status,
        prepare_historical_data argsort fromtimestamp
          (Some {| h_data := Some [(symbol, {| quotes := [] |})];
                   h_status := status |})
        = Raise (KeyError "timestamp"))
  /\ (forall symbol volumes caps,
        prepare_historical_data argsort fromtimestamp
          (Some (history_result symbol
                   {| prices := []; total_volumes := volumes;
                      market_caps := caps |}))
        = Raise (KeyError "timestamp")).
Proof.
  split; [reflexivity|].
  split; [intros [status|]; reflexivity|].
  split; [reflexivity|].
  split; [intros; now rewrite prepare_history_unfold|].
  intros. unfold history_result. now rewrite prepare_history_unfold.
Qed.

(** The payload of the last case is one the module builds itself: the
    provider knows the coin and answers the chart request with an empty
    price series. *)
Lemma empty_price_series_raises (argsort : list Q -> list nat)
  (fromtimestamp : Z -> Z) :
  let net :=
    serving_network [{| cl_id := "bitcoin"; cl_symbol := "btc" |}] []
      empty_chart in
  let fetched :=
    (fetch_historical_data "btc" (DaysInt 30) 0 net initial_world).1 in
  fetched = Some (history_result "BTC" empty_chart)
  /\ prepare_historical_data argsort fromtimestamp fetched
     = Raise (KeyError "timestamp").
Proof.
  intros net fetched.
  assert (Hfetched : fetched = Some (history_result "BTC" empty_chart))
    by (vm_compute; reflexivity).
  split; [exact Hfetched|]. rewrite Hfetched.
  unfold history_result. now rewrite prepare_history_unfold.
Qed.

End HistoryFacts.

(** ** The cache keys of the history data *)
Module CacheKeyFacts.
Import Api.

Lemma string_of_uint_no_underscore (d : Decimal.uint) :
  contains "_" (NilEmpty.string_of_uint d) = false.
Proof. induction d; simpl; assumption || reflexivity. Qed.

Lemma show_Z_no_underscore (z : Z) : contains "_" (show_Z z) = false.
Proof.
  unfold show_Z, NilZero.string_of_int, NilZero.string_of_uint.
  destruct z as [|p|p]; simpl; try reflexivity.
  - destruct (Pos.to_uint p) eqn:E; try apply string_of_uint_no_underscore.
    reflexivity.
  - destruct (Pos.to_uint p) eqn:E; try apply string_of_uint_no_underscore.
    reflexivity.
Qed.

Lemma show_Z_inj (a b : Z) : show_Z a = show_Z b -> a = b.
Proof.
  intros H. apply DecimalZ.to_int_inj.
  assert (Hnil : forall z, Z.to_int z <> Decimal.Pos Decimal.Nil
                           /\ Z.to_int z <> Decimal.Neg Decimal.Nil).
  { intros [|p|p]; split; simpl; try discriminate;
      intros E; injection E as E; now apply Unsigned.to_uint_nonnil in E. }
  destruct (Hnil a) as [Ha1 Ha2], (Hnil b) as [Hb1 Hb2].
  pose proof (NilZero.isi _ Ha1 Ha2) as Ea.
  pose proof (NilZero.isi _ Hb1 Hb2) as Eb.
  unfold show_Z in H. rewrite H in Ea. congruence.
Qed.

Lemma contains_step (c c' : ascii) (s t : string) :
  contains c (String c' s +:+ t)
  = if Ascii.eqb c c' then true else contains c (s +:+ t).
Proof. reflexivity. Qed.

Lemma append_underscore_inj (s1 s2 n1 n2 : string) :
  contains "_" n1 = false -> contains "_" n2 = false ->
  s1 +:+ String "_" n1 = s2 +:+ String "_" n2 ->
  s1 = s2 /\ n1 = n2.
Proof.
  intros H1 H2. revert s2.
  induction s1 as [|c s1 IH]; intros [|c' s2] H; simpl in H.
  - injection H as H. now split.
  - injection H as Hc Hn. subst n1 c'.
    exfalso. clear -H1. induction s2 as [|c s2 IH].
    + simpl in H1. discriminate.
    + rewrite contains_step in H1.
      destruct (Ascii.eqb "_" c); [discriminate|]. now apply IH.
  - injection H as Hc Hn. subst n2 c.
    exfalso. clear -H2. induction s1 as [|c s1 IH].
    + simpl in H2. discriminate.
    + rewrite contains_step in H2.
      destruct (Ascii.eqb "_" c); [discriminate|]. now apply IH.
  - injection H as Hc H. subst c'. destruct (IH _ H) as [-> ->]. now split.
Qed.

(** Two cache keys are equal only for the same symbol and the same number
    of days. *)
Lemma cache_key_inj (s1 s2 : string) (d1 d2 : Z) :
  cache_key s1 d1 = cache_key s2 d2 -> s1 = s2 /\ d1 = d2.
Proof.
  unfold cache_key. intros H.
  apply append_underscore_inj in H as [Hs Hd];
    try apply show_Z_no_underscore.
  split; [exact Hs|now apply show_Z_inj].
Qed.

End CacheKeyFacts.

(** ** The symbol index and the caches *)
Module ApiFacts.
Import Payloads Api CacheKeyFacts.

(** Unfolds one call of the module and splits on every branch it takes. *)
Ltac split_call :=
  unfold fetch_historical_data, fetch_latest_listings,
    get_coin_symbol_to_id_map, clamp_days, exception_message;
  repeat case_match; simplify_eq; cbn in *.

(** *** get_coin_symbol_to_id_map *)

Lemma coin_map_hit (net : network) (w : world) (index : gmap string string) :
  coin_symbol_to_id_map w = Some index ->
  get_coin_symbol_to_id_map net w = (index, w).
Proof. intros H. unfold get_coin_symbol_to_id_map. now rewrite H. Qed.

(** Whatever the provider answers, the call leaves the index set to the map
    it returns, and touches neither cache nor the history requests. *)
Lemma coin_map_set (net : network) (w : world) :
  coin_symbol_to_id_map (get_coin_symbol_to_id_map net w).2
  = Some (get_coin_symbol_to_id_map net w).1
  /\ cache_historical_data (get_coin_symbol_to_id_map net w).2
     = cache_historical_data w
  /\ cache_latest_listings (get_coin_symbol_to_id_map net w).2
     = cache_latest_listings w
  /\ market_chart_requests (get_coin_symbol_to_id_map net w).2
     = market_chart_requests w.
Proof. split_call; auto. Qed.

(** A call sends a request for the coin list exactly when the index is not
    set. *)
Lemma coin_map_requests (net : network) (w : world) :
  coin_list_requests (get_coin_symbol_to_id_map net w).2
  = match coin_symbol_to_id_map w with
    | Some _ => coin_list_requests w
    | None => S (coin_list_requests w)
    end.
Proof. split_call; auto. Qed.

(** *** One call into the module *)

(** Once the index is set, a call changes neither the index nor the number
    of requests for the coin list. *)
Lemma run_keeps_index (w : world) (c : call) (index : gmap string string) :
  coin_symbol_to_id_map w = Some index ->
  coin_symbol_to_id_map (run w c) = Some index
  /\ coin_list_requests (run w c) = coin_list_requests w.
Proof.
  intros H. destruct c; unfold run; split_call; auto; congruence.
Qed.

Lemma run_index_built_once (w : world) (c : call) :
  index_built_once w -> index_built_once (run w c).
Proof.
  unfold index_built_once. intros H.
  destruct c; unfold run; split_call; unfold coin_list_requests in *;
    cbn in *; try rewrite H; auto; try lia; try congruence.
Qed.

Lemma run_all_index_built_once (calls : list call) (w : world) :
  index_built_once w -> index_built_once (run_all calls w).
Proof.
  revert w. induction calls as [|c calls IH]; intros w H; [exact H|].
  apply IH, run_index_built_once, H.
Qed.

Lemma run_all_keeps_index (calls : list call) (w : world)
  (index : gmap string string) :
  coin_symbol_to_id_map w = Some index ->
  coin_symbol_to_id_map (run_all calls w) = Some index
  /\ coin_list_requests (run_all calls w) = coin_list_requests w.
Proof.
  revert w. induction calls as [|c calls IH]; intros w H; [now split|].
  destruct (run_keeps_index w c index H) as [H1 H2].
  destruct (IH _ H1) as [H3 H4]. split; [exact H3|]. simpl. congruence.
Qed.

(** *** The history cache holds resolved symbols only *)

Lemma cache_resolved_coin_map (net : network) (w : world) :
  cache_resolved w -> cache_resolved (get_coin_symbol_to_id_map net w).2.
Proof.
  intros H. unfold get_coin_symbol_to_id_map.
  destruct (coin_symbol_to_id_map w) eqn:E; [exact H|].
  assert (Hempty : forall key entry,
             cache_historical_data w !! key = Some entry -> False).
  { intros key entry Hk.
    destruct (H key entry Hk) as (? & ? & ? & ? & ? & ?). congruence. }
  repeat case_match; intros key entry Hk; exfalso;
    exact (Hempty key entry Hk).
Qed.

Lemma run_cache_resolved (w : world) (c : call) :
  cache_resolved w -> cache_resolved (run w c).
Proof.
  intros H. destruct c; unfold run.
  - now apply cache_resolved_coin_map.
  - unfold cache_resolved in *. split_call; intros key entry Hk;
      exact (H key entry Hk).
  - unfold cache_resolved in *. split_call.
    all: intros key entry Hk.
    all: try (exact (H key entry Hk)).
    all: try (destruct (H key entry Hk) as (? & ? & ? & ? & ? & ?); congruence).
    all: apply lookup_insert_Some in Hk as [[<- <-]|[Hne Hk]];
      [eauto 10|].
    all: first [exact (H key entry Hk)
               |destruct (H key entry Hk) as (? & ? & ? & ? & ? & ?);
                congruence].
Qed.

Lemma run_all_cache_resolved (calls : list call) (w : world) :
  cache_resolved w -> cache_resolved (run_all calls w).
Proof.
  revert w. induction calls as [|c calls IH]; intros w H; [exact H|].
  apply IH, run_cache_resolved, H.
Qed.

Lemma initial_cache_resolved : cache_resolved initial_world.
Proof. intros key entry Hk. cbn in Hk. now rewrite lookup_empty in Hk. Qed.


(** *** fetch_historical_data on a symbol the index does not hold *)

Lemma clamp_days_frame (days : days_arg) (w : world) :
  coin_symbol_to_id_map (clamp_days days w).2 = coin_symbol_to_id_map w
  /\ cache_historical_data (clamp_days days w).2 = cache_historical_data w
  /\ sent (clamp_days days w).2 = sent w.
Proof. unfold clamp_days. repeat case_match; simplify_eq; cbn; auto. Qed.

Lemma coin_map_same_index (net : network) (w w0 : world) :
  coin_symbol_to_id_map w0 = coin_symbol_to_id_map w ->
  (get_coin_symbol_to_id_map net w0).1 = (get_coin_symbol_to_id_map net w).1.
Proof.
  intros H. unfold get_coin_symbol_to_id_map. rewrite H.
  repeat case_match; simplify_eq; reflexivity.
Qed.

Lemma coin_map_index_of (net : network) (w : world)
  (index : gmap string string) :
  coin_symbol_to_id_map w = Some index ->
  (get_coin_symbol_to_id_map net w).1 = index.
Proof. intros H. now rewrite (coin_map_hit net w index H). Qed.

(** C9.  In every state the process can reach, and whatever the provider
    answers, a call of [fetch_historical_data] for a symbol that has no
    entry in the symbol index (the index in place, or the one this call
    builds) fails: it returns None, its last message is the error
    "Coin ID not found for symbol: ...", and it sends no request for
    history data. *)
Theorem unresolved_symbol_fails (calls : list call) (symbol : string)
  (days : days_arg) (now : Q) (net : network) :
  let w := run_all calls initial_world in
  (get_coin_symbol_to_id_map net w).1 !! str_upper symbol = None ->
  (fetch_historical_data symbol days now net w).1 = None
  /\ head (shown (fetch_historical_data symbol days now net w).2)
     = Some (st_error ("Coin ID not found for symbol: " +:+ str_upper symbol))
  /\ market_chart_requests (fetch_historical_data symbol days now net w).2
     = market_chart_requests w.
Proof.
  intros w Hindex.
  assert (Hinv : cache_resolved w)
    by apply run_all_cache_resolved, initial_cache_resolved.
  unfold fetch_historical_data.
  destruct (clamp_days_frame days w) as (Hmap0 & Hcache0 & Hsent0).
  destruct (clamp_days days w) as [d w0]. cbn [fst snd] in *.
  rewrite Hcache0.
  destruct (cache_historical_data w !! cache_key (str_upper symbol) d)
    as [[data timestamp]|] eqn:Hkey.
  { exfalso.
    destruct (Hinv _ _ Hkey) as (index & s & d' & coin_id & Hmap & Heq & Hres).
    apply cache_key_inj in Heq as [<- _].
    rewrite (coin_map_index_of net w index Hmap) in Hindex.
    rewrite Hindex in Hres. discriminate. }
  rewrite <- (coin_map_same_index net w w0 Hmap0) in Hindex.
  destruct (coin_map_set net w0) as (_ & _ & _ & Hchart).
  destruct (get_coin_symbol_to_id_map net w0) as [index w1].
  cbn [fst snd] in *. rewrite Hindex. cbn.
  split; [reflexivity|]. split; [reflexivity|].
  unfold market_chart_requests in *. cbn. rewrite Hchart. now rewrite Hsent0.
Qed.

Lemma unresolved_symbol_fails_witness :
  (fetch_historical_data "zzz" (DaysInt 30) 0
     (serving_network [{| cl_id := "bitcoin"; cl_symbol := "btc" |}] []
        empty_chart)
     initial_world).1 = None
  /\ sent (fetch_historical_data "zzz" (DaysInt 30) 0
             (serving_network [{| cl_id := "bitcoin"; cl_symbol := "btc" |}] []
                empty_chart)
             initial_world).2 = [GetCoinList].
Proof.
  destruct (unresolved_symbol_fails [] "zzz" (DaysInt 30) 0%Q
              (serving_network [{| cl_id := "bitcoin"; cl_symbol := "btc" |}]
                 [] empty_chart))
    as (Hnone & _ & _).
  - vm_compute. reflexivity.
  - split; [exact Hnone|]. vm_compute. reflexivity.
Defined.

(** *** The symbol index is fixed by the first call *)

(** C8, as the code has it.  The first call of [get_coin_symbol_to_id_map]
    sets the index to the map it returns, whatever the provider answers:
    the map of the coin list after a successful fetch, the empty map after
    a failed one.  From then on no call changes the index or asks for the
    coin list again, so that a process sends at most one request for it. *)
Theorem symbol_index_fixed_by_first_call (net : network) (w : world)
  (calls : list call) :
  let index := (get_coin_symbol_to_id_map net w).1 in
  let w1 := (get_coin_symbol_to_id_map net w).2 in
  coin_symbol_to_id_map w1 = Some index
  /\ coin_symbol_to_id_map (run_all calls w1) = Some index
  /\ coin_list_requests (run_all calls w1) = coin_list_requests w1
  /\ (coin_list_requests (run_all calls initial_world) <= 1)%nat
  /\ (coin_symbol_to_id_map w = None ->
      forall text coins,
        coin_list net = Response 200 text (Json coins) ->
        index = symbol_index coins)
  /\ (coin_symbol_to_id_map w = None ->
      (forall text coins, coin_list net <> Response 200 text (Json coins)) ->
      index = ∅).
Proof.
  intros index w1.
  destruct (coin_map_set net w) as (Hset & _). fold index w1 in Hset.
  destruct (run_all_keeps_index calls w1 index Hset) as [Hkeep Hreq].
  split; [exact Hset|]. split; [exact Hkeep|]. split; [exact Hreq|].
  split.
  { pose proof (run_all_index_built_once calls initial_world eq_refl) as H.
    unfold index_built_once in H.
    destruct (coin_symbol_to_id_map (run_all calls initial_world)); lia. }
  split.
  - intros Hnone text coins Hnet. unfold index, get_coin_symbol_to_id_map.
    now rewrite Hnone, Hnet.
  - intros Hnone Hfail. unfold index, get_coin_symbol_to_id_map.
    rewrite Hnone.
    destruct (coin_list net) as [e|code text [coins|r e]] eqn:Hnet;
      try reflexivity.
    + destruct (code =? 200)%Z eqn:Hcode; [|reflexivity].
      apply Z.eqb_eq in Hcode. subst code. now destruct (Hfail text coins).
    + now destruct (code =? 200)%Z.
Qed.

(** C8, as the spec words it, fails: after a failed fetch of the coin list
    the index is the empty map for good.  The next call, made while the
    provider would answer with the coin "btc", returns the empty map and
    sends nothing, and the history of BTC is refused. *)
Lemma failed_fetch_fixes_index :
  let down := failing_network 500 in
  let up :=
    serving_network [{| cl_id := "bitcoin"; cl_symbol := "btc" |}] []
      empty_chart in
  let w1 := (get_coin_symbol_to_id_map down initial_world).2 in
  symbol_index [{| cl_id := "bitcoin"; cl_symbol := "btc" |}] !! "BTC"
  = Some "bitcoin"
  /\ coin_symbol_to_id_map w1 = Some ∅
  /\ (get_coin_symbol_to_id_map up w1).1 = ∅
  /\ sent (get_coin_symbol_to_id_map up w1).2 = [GetCoinList]
  /\ (fetch_historical_data "BTC" (DaysInt 30) 100 up w1).1 = None.
Proof.
  cbv zeta. split; [vm_compute; reflexivity|].
  split; [reflexivity|]. split; [reflexivity|]. split; [reflexivity|].
  vm_compute. reflexivity.
Qed.

(** *** The caches and the request parameters *)

(** C7, where the code departs from it.  [fetch_latest_listings] keeps
    one cache entry for all its calls: while that entry is fresh, a call
    returns its payload and sends nothing, whatever currency, page size and
    page it is asked for. *)
Theorem listings_cache_ignores_parameters (w : world) (cached : listings)
  (timestamp : Q) (vs_currency : string) (per_page page : Z) (now : Q)
  (net : network) :
  cache_latest_listings w = (Some cached, Some timestamp) ->
  fresh now timestamp = true ->
  fetch_latest_listings vs_currency per_page page now net w
  = (Some cached, w).
Proof.
  intros Hcache Hfresh. unfold fetch_latest_listings.
  now rewrite Hcache, Hfresh.
Qed.

(** The first page in dollars is fetched at time 0; ten seconds later the
    second page in euros is asked for, and the first payload comes back. *)
Lemma listings_cache_serves_other_page :
  let first := serving_network [] [market_coin_of "bitcoin"] empty_chart in
  let second := serving_network [] [market_coin_of "ethereum"] empty_chart in
  let w1 := (fetch_latest_listings "usd" 100 1 0 first initial_world).2 in
  (fetch_latest_listings "usd" 100 1 0 first initial_world).1
  = Some {| data := [coin_dict (market_coin_of "bitcoin")] |}
  /\ fetch_latest_listings "eur" 50 2 10 second w1
     = (Some {| data := [coin_dict (market_coin_of "bitcoin")] |}, w1)
  /\ sent w1 = [GetMarkets "usd" 100 1].
Proof.
  cbv zeta. split; [reflexivity|]. split; [|reflexivity].
  apply (listings_cache_ignores_parameters _ _ 0%Q); reflexivity.
Defined.

(** The history cache, for its part, has one entry per symbol and number of
    days: writing the entry of one pair leaves the entry of every other
    pair as it was. *)
Lemma history_cache_per_symbol_and_days (s1 s2 : string) (d1 d2 : Z)
  (payload : history) (now : Q) (w : world) :
  (s1, d1) <> (s2, d2) ->
  cache_historical_data (set_historical_data (cache_key s1 d1) payload now w)
    !! cache_key s2 d2
  = cache_historical_data w !! cache_key s2 d2.
Proof.
  intros Hne. cbn. apply lookup_insert_ne.
  intros Hkey. apply cache_key_inj in Hkey as [-> ->]. now apply Hne.
Qed.

(** *** Two runs of the module *)

(** A listing cached at time 0 is served at 59 seconds and fetched again at
    61 seconds. *)
Example listings_cache_window :
  let net := serving_network [] [market_coin_of "bitcoin"] empty_chart in
  let w1 := (fetch_latest_listings "usd" 100 1 0 net initial_world).2 in
  sent (fetch_latest_listings "usd" 100 1 59 net w1).2
  = [GetMarkets "usd" 100 1]
  /\ sent (fetch_latest_listings "usd" 100 1 61 net w1).2
     = [GetMarkets "usd" 100 1; GetMarkets "usd" 100 1].
Proof. split; reflexivity. Qed.

(** A history of 500 days is asked of the provider as one of 365 days, with
    a warning and no failure. *)
Example days_are_clamped :
  let net :=
    serving_network [{| cl_id := "bitcoin"; cl_symbol := "btc" |}] []
      {| prices := [(1000, 1%Q)]%Z; total_volumes := []; market_caps := [] |} in
  let call := fetch_historical_data "btc" (DaysInt 500) 0 net initial_world in
  sent call.2 = [GetMarketChart "bitcoin" 365; GetCoinList]
  /\ (exists text, shown call.2 = [st_warning text])
  /\ exists payload, call.1 = Some payload.
Proof.
  cbv zeta. split; [vm_compute; reflexivity|].
  split; eexists; vm_compute; reflexivity.
Qed.

End ApiFacts.

(** ** More on the caches and the symbol index *)
Module ApiCacheFacts.
Import Payloads Api CacheKeyFacts ApiFacts.

(** *** The listings cache *)

(** X1.  [fetch_latest_listings] answers from its cache exactly when the
    entry is younger than 60 seconds, and then sends nothing and changes
    nothing; in every other case, a stale entry included, it sends one
    request, with the parameters of the call. *)
Theorem listings_served_only_when_fresh (vs_currency : string)
  (per_page page : Z) (now : Q) (net : network) (w : world) :
  let r := fetch_latest_listings vs_currency per_page page now net w in
  (exists cached timestamp,
      cache_latest_listings w = (Some cached, Some timestamp)
      /\ fresh now timestamp = true
      /\ r = (Some cached, w))
  \/ ((forall cached timestamp,
          cache_latest_listings w = (Some cached, Some timestamp) ->
          fresh now timestamp = false)
      /\ sent r.2 = GetMarkets vs_currency per_page page :: sent w).
Proof.
  intros r. subst r. unfold fetch_latest_listings.
  destruct (cache_latest_listings w) as [[cached|] [timestamp|]] eqn:Hcache.
  1: destruct (fresh now timestamp) eqn:Hfresh; [left; eauto|].
  all: right; split; [intros ? ? [= <- <-]; try assumption|].
  all: repeat case_match; reflexivity.
Qed.

(** X2.  A call of [fetch_latest_listings] that fails returns None and
    leaves the listings cache, the history cache and the symbol index as
    they were: nothing is written, nothing is cleared, and the stale entry
    it did not serve is still in place. *)
Theorem listings_failure_keeps_caches (vs_currency : string)
  (per_page page : Z) (now : Q) (net : network) (w : world) :
  (fetch_latest_listings vs_currency per_page page now net w).1 = None ->
  let w' := (fetch_latest_listings vs_currency per_page page now net w).2 in
  cache_latest_listings w' = cache_latest_listings w
  /\ cache_historical_data w' = cache_historical_data w
  /\ coin_symbol_to_id_map w' = coin_symbol_to_id_map w
  /\ sent w' = GetMarkets vs_currency per_page page :: sent w
  /\ exists text rest, shown w' = st_error text :: rest.
Proof.
  unfold fetch_latest_listings, exception_message.
  repeat case_match; simplify_eq; cbn; intros H; try discriminate;
    repeat split; eauto.
Qed.

Lemma listings_failure_keeps_caches_witness :
  let up := serving_network [] [market_coin_of "bitcoin"] empty_chart in
  let w1 := (fetch_latest_listings "usd" 100 1 0 up initial_world).2 in
  let w2 := (fetch_latest_listings "usd" 100 1 90 (failing_network 503) w1).2 in
  cache_latest_listings w2
  = (Some {| data := [coin_dict (market_coin_of "bitcoin")] |}, Some 0%Q)
  /\ sent w2 = [GetMarkets "usd" 100 1; GetMarkets "usd" 100 1].
Proof.
  cbv zeta.
  destruct (listings_failure_keeps_caches "usd" 100 1 90
              (failing_network 503)
              (fetch_latest_listings "usd" 100 1 0
                 (serving_network [] [market_coin_of "bitcoin"] empty_chart)
                 initial_world).2)
    as (Hcache & _ & _ & Hsent & _).
  - reflexivity.
  - split; [rewrite Hcache|rewrite Hsent]; reflexivity.
Defined.

(** X3.  A listing fetched with success at time [now] is the normalised
    answer of the provider, and it is what every call made less than 60
    seconds later returns, without a request; a call made 60 seconds later
    or more sends a new request. *)
Theorem listings_served_for_60_seconds (vs_currency : string) (per_page page : Z)
  (now : Q) (net : network) (w : world) (text : string)
  (coins : list market_coin) :
  (forall cached timestamp,
      cache_latest_listings w = (Some cached, Some timestamp) ->
      fresh now timestamp = false) ->
  markets net vs_currency per_page page = Response 200 text (Json coins) ->
  let payload := {| data := map coin_dict coins |} in
  let w1 := (fetch_latest_listings vs_currency per_page page now net w).2 in
  (fetch_latest_listings vs_currency per_page page now net w).1 = Some payload
  /\ forall vs' per_page' page' now' net',
      (if fresh now' now
       then fetch_latest_listings vs' per_page' page' now' net' w1
            = (Some payload, w1)
       else sent (fetch_latest_listings vs' per_page' page' now' net' w1).2
            = GetMarkets vs' per_page' page' :: sent w1).
Proof.
  intros Hstale Hnet payload w1.
  assert (Hcall : fetch_latest_listings vs_currency per_page page now net w
                  = (Some payload,
                     set_latest_listings payload now
                       (send (GetMarkets vs_currency per_page page) w))).
  { unfold fetch_latest_listings.
    destruct (cache_latest_listings w) as [[cached|] [timestamp|]] eqn:Hcache;
      try rewrite (Hstale _ _ eq_refl); now rewrite Hnet. }
  subst w1. rewrite Hcall. split; [reflexivity|].
  intros vs' per_page' page' now' net'. cbn [snd].
  unfold fetch_latest_listings at 1 2. cbn [cache_latest_listings set_latest_listings].
  destruct (fresh now' now); [reflexivity|].
  repeat case_match; reflexivity.
Qed.

Lemma listings_served_for_60_seconds_witness :
  let net := serving_network [] [market_coin_of "bitcoin"] empty_chart in
  let w1 := (fetch_latest_listings "usd" 100 1 0 net initial_world).2 in
  (fetch_latest_listings "usd" 100 1 (119 # 2) (failing_network 500) w1).1
  = Some {| data := [coin_dict (market_coin_of "bitcoin")] |}
  /\ sent (fetch_latest_listings "usd" 100 1 60 net w1).2
     = [GetMarkets "usd" 100 1; GetMarkets "usd" 100 1].
Proof.
  cbv zeta.
  destruct (listings_served_for_60_seconds "usd" 100 1 0
              (serving_network [] [market_coin_of "bitcoin"] empty_chart)
              initial_world "" [market_coin_of "bitcoin"])
    as [_ Hlater].
  - intros cached timestamp H. discriminate.
  - reflexivity.
  - split.
    + pose proof (Hlater "usd" 100%Z 1%Z (119 # 2)%Q (failing_network 500))
        as H.
      change (fresh (119 # 2) 0) with true in H. cbv iota in H.
      exact (f_equal fst H).
    + exact (Hlater "usd" 100%Z 1%Z 60%Q
               (serving_network [] [market_coin_of "bitcoin"] empty_chart)).
Defined.

(** *** Letter case *)

Lemma upper_ascii_idem (c : ascii) : upper_ascii (upper_ascii c) = upper_ascii c.
Proof.
  destruct c as [[] [] [] [] [] [] [] []]; vm_compute; reflexivity.
Qed.

Lemma str_upper_idem (s : string) : str_upper (str_upper s) = str_upper s.
Proof.
  induction s as [|c s IH]; [reflexivity|].
  cbn [str_upper]. now rewrite upper_ascii_idem, IH.
Qed.

(** *** The symbol index *)

Lemma find_last {A} (p : A -> bool) (l : list A) (x : A) :
  List.find p (l ++ [x])
  = match List.find p l with
    | Some y => Some y
    | None => if p x then Some x else None
    end.
Proof.
  induction l as [|y l IH]; [reflexivity|]. cbn [app List.find].
  destruct (p y); [reflexivity|exact IH].
Qed.

Lemma symbol_index_from (coins : list coin_list_entry)
  (m : gmap string string) (symbol : string) :
  fold_left (fun m c => <[str_upper (cl_symbol c) := cl_id c]> m) coins m
    !! symbol
  = match last_coin symbol coins with
    | Some c => Some (cl_id c)
    | None => m !! symbol
    end.
Proof.
  revert m. induction coins as [|c coins IH]; intros m; [reflexivity|].
  cbn [fold_left]. rewrite IH. unfold last_coin. cbn [rev].
  rewrite find_last.
  destruct (List.find _ (rev coins)); [reflexivity|].
  cbn [List.find]. case_bool_decide as Hc.
  - subst symbol. now rewrite lookup_insert_eq.
  - now rewrite lookup_insert_ne.
Qed.

(** X4.  The symbol index maps a symbol to the id of the last coin of the
    provider's list that bears it, letter case apart, and to nothing when
    no coin does; its keys are in upper case. *)
Theorem symbol_index_last_coin (coins : list coin_list_entry)
  (symbol : string) :
  symbol_index coins !! symbol = cl_id <$> last_coin symbol coins
  /\ (is_Some (symbol_index coins !! symbol) -> str_upper symbol = symbol)
  /\ (forall c,
        c ∈ coins -> is_Some (symbol_index coins !! str_upper (cl_symbol c))).
Proof.
  assert (Heq : symbol_index coins !! symbol = cl_id <$> last_coin symbol coins).
  { unfold symbol_index. rewrite symbol_index_from, lookup_empty.
    now destruct (last_coin symbol coins). }
  split; [exact Heq|]. split.
  - rewrite Heq. unfold last_coin. intros [id Hid].
    destruct (List.find _ (rev coins)) as [c|] eqn:Hfind; [|discriminate].
    apply find_some in Hfind as [_ Hc]. apply bool_decide_eq_true in Hc.
    subst symbol. apply str_upper_idem.
  - intros c Hc. unfold symbol_index. rewrite symbol_index_from, lookup_empty.
    destruct (last_coin (str_upper (cl_symbol c)) coins) as [c'|] eqn:Hlast;
      [now eexists|].
    exfalso. unfold last_coin in Hlast.
    eapply find_none in Hlast; [|apply in_rev; rewrite rev_involutive;
                                 apply list_elem_of_In; exact Hc].
    cbn in Hlast. now rewrite bool_decide_eq_false in Hlast.
Qed.

Lemma symbol_index_last_coin_witness :
  symbol_index [{| cl_id := "bitcoin"; cl_symbol := "btc" |};
                {| cl_id := "wrapped-bitcoin"; cl_symbol := "BTC" |}]
    !! "BTC" = Some "wrapped-bitcoin"
  /\ symbol_index [{| cl_id := "bitcoin"; cl_symbol := "btc" |}] !! "btc"
     = None.
Proof.
  split.
  - destruct (symbol_index_last_coin
                [{| cl_id := "bitcoin"; cl_symbol := "btc" |};
                 {| cl_id := "wrapped-bitcoin"; cl_symbol := "BTC" |}] "BTC")
      as [-> _]. reflexivity.
  - destruct (symbol_index_last_coin
                [{| cl_id := "bitcoin"; cl_symbol := "btc" |}] "btc")
      as [-> _]. reflexivity.
Defined.

(** *** The history cache *)

Lemma clamp_days_value (days : days_arg) (w : world) :
  (clamp_days days w).1 = clamped_days days.
Proof.
  unfold clamp_days, clamped_days. destruct days as [d|]; cbn.
  - now destruct (365 <? d)%Z.
  - reflexivity.
Qed.

Lemma clamped_days_le (days : days_arg) : (clamped_days days <= 365)%Z.
Proof.
  unfold clamped_days. destruct days as [d|]; [|lia].
  destruct (365 <? d)%Z eqn:E; [lia|]. apply Z.ltb_ge in E. lia.
Qed.

(** [fetch_historical_data] does not tell the letter cases of a symbol
    apart. *)
Lemma history_ignores_letter_case (symbol : string) (days : days_arg)
  (now : Q) (net : network) (w : world) :
  fetch_historical_data (str_upper symbol) days now net w
  = fetch_historical_data symbol days now net w.
Proof. unfold fetch_historical_data. now rewrite str_upper_idem. Qed.

End ApiCacheFacts.

(** ** More on fetch_historical_data *)
Module ApiHistoryFacts.
Import Payloads Api CacheKeyFacts ApiFacts ApiCacheFacts.

Lemma clamp_days_world (days : days_arg) (w : world) :
  coin_symbol_to_id_map (clamp_days days w).2 = coin_symbol_to_id_map w
  /\ cache_historical_data (clamp_days days w).2 = cache_historical_data w
  /\ cache_latest_listings (clamp_days days w).2 = cache_latest_listings w
  /\ sent (clamp_days days w).2 = sent w.
Proof. unfold clamp_days. repeat case_match; simplify_eq; cbn; auto. Qed.

(** X5.  A failed call of [fetch_historical_data] returns None and leaves
    both caches as they were: a failure writes no entry and clears none. *)
Theorem history_failure_keeps_caches (symbol : string) (days : days_arg)
  (now : Q) (net : network) (w : world) :
  (fetch_historical_data symbol days now net w).1 = None ->
  let w' := (fetch_historical_data symbol days now net w).2 in
  cache_historical_data w' = cache_historical_data w
  /\ cache_latest_listings w' = cache_latest_listings w
  /\ exists text rest, shown w' = st_error text :: rest.
Proof.
  unfold fetch_historical_data, get_coin_symbol_to_id_map, clamp_days,
    exception_message.
  repeat case_match; simplify_eq; cbn; intros H; try discriminate;
    repeat split; eauto.
Qed.

Lemma history_failure_keeps_caches_witness :
  let up :=
    serving_network [{| cl_id := "bitcoin"; cl_symbol := "btc" |}] []
      {| prices := [(1000, 1%Q)]%Z; total_volumes := []; market_caps := [] |} in
  let w1 := (fetch_historical_data "btc" (DaysInt 7) 0 up initial_world).2 in
  let w2 :=
    (fetch_historical_data "btc" (DaysInt 7) 90 (failing_network 429) w1).2 in
  cache_historical_data w2 = cache_historical_data w1
  /\ is_Some (cache_historical_data w2 !! cache_key "BTC" 7).
Proof.
  cbv zeta.
  destruct (history_failure_keeps_caches "btc" (DaysInt 7) 90
              (failing_network 429)
              (fetch_historical_data "btc" (DaysInt 7) 0
                 (serving_network
                    [{| cl_id := "bitcoin"; cl_symbol := "btc" |}] []
                    {| prices := [(1000, 1%Q)]%Z; total_volumes := [];
                       market_caps := [] |})
                 initial_world).2)
    as (Hcache & _ & _).
  - vm_compute. reflexivity.
  - split; [exact Hcache|]. rewrite Hcache. vm_compute. eauto.
Defined.

(** *** The requests for history data *)

Lemma resolved_nonempty (coin_id : option string) (id : string) :
  resolved coin_id = Some id -> id <> "".
Proof.
  destruct coin_id as [[|c s]|]; cbn; intros [= <-]; discriminate.
Qed.

Lemma run_chart_requests_ok (w : world) (c : call) :
  Forall chart_request_ok (sent w) ->
  Forall chart_request_ok (sent (run w c)).
Proof.
  intros H. destruct c; unfold run.
  - unfold get_coin_symbol_to_id_map.
    repeat case_match; simplify_eq; cbn; auto; constructor; cbn; auto.
  - unfold fetch_latest_listings, exception_message.
    repeat case_match; simplify_eq; cbn; auto; constructor; cbn; auto.
  - pose proof (clamped_days_le days) as Hle.
    rewrite <- (clamp_days_value days w) in Hle.
    unfold fetch_historical_data, get_coin_symbol_to_id_map, exception_message.
    destruct (clamp_days_world days w) as (_ & _ & _ & Hsent).
    destruct (clamp_days days w) as [d w0]. cbn [fst snd] in *.
    rewrite <- Hsent in H.
    repeat case_match; simplify_eq; cbn; auto.
    all: repeat (constructor; cbn; auto).
    all: try (split; [exact Hle|]).
    all: eapply resolved_nonempty; eassumption.
Qed.

(** X6.  Whatever calls are made and whatever number of days they ask for,
    every request for history data the process sends asks for 365 days at
    most and names a coin id that is not empty. *)
Theorem chart_requests_are_clamped (calls : list call) :
  Forall chart_request_ok (sent (run_all calls initial_world)).
Proof.
  assert (H : forall w, Forall chart_request_ok (sent w) ->
                        Forall chart_request_ok (sent (run_all calls w))).
  { induction calls as [|c calls IH]; intros w Hw; [exact Hw|].
    apply IH, run_chart_requests_ok, Hw. }
  apply H. constructor.
Qed.

(** *** The payloads of the history cache *)

Lemma run_cache_payloads (w : world) (c : call) :
  cache_payloads w -> cache_payloads (run w c).
Proof.
  intros H. destruct c; unfold run.
  - destruct (coin_map_set net w) as (_ & Hcache & _).
    intros key payload timestamp Hk. rewrite Hcache in Hk. eauto.
  - unfold cache_payloads in *. unfold fetch_latest_listings, exception_message.
    repeat case_match; simplify_eq; cbn;
      intros key payload timestamp Hk; exact (H key payload timestamp Hk).
  - unfold cache_payloads in *.
    unfold fetch_historical_data, get_coin_symbol_to_id_map, clamp_days,
      exception_message.
    repeat case_match; simplify_eq; cbn in *.
    all: intros key payload timestamp Hk.
    all: try (exact (H key payload timestamp Hk)).
    all: apply lookup_insert_Some in Hk as [[<- [= <- <-]]|[Hne Hk]];
      [eauto|exact (H key payload timestamp Hk)].
Qed.

Lemma run_all_cache_payloads (calls : list call) (w : world) :
  cache_payloads w -> cache_payloads (run_all calls w).
Proof.
  revert w. induction calls as [|c calls IH]; intros w H; [exact H|].
  apply IH, run_cache_payloads, H.
Qed.

(** X7.  In every state the process can reach, a payload returned by
    [fetch_historical_data], from the cache or from the provider, is a
    payload built for the symbol asked for, in upper case: the cache never
    hands out the history of another symbol. *)
Theorem history_payload_is_for_symbol (calls : list call) (symbol : string)
  (days : days_arg) (now : Q) (net : network) (payload : history) :
  (fetch_historical_data symbol days now net
     (run_all calls initial_world)).1 = Some payload ->
  exists chart, payload = history_result (str_upper symbol) chart.
Proof.
  set (w := run_all calls initial_world).
  assert (Hinv : cache_payloads w).
  { apply run_all_cache_payloads. intros key p t Hk. cbn in Hk.
    now rewrite lookup_empty in Hk. }
  unfold fetch_historical_data.
  destruct (clamp_days_world days w) as (_ & Hcache & _).
  destruct (clamp_days days w) as [d w0]. cbn [fst snd] in *. rewrite Hcache.
  destruct (cache_historical_data w !! cache_key (str_upper symbol) d)
    as [[cached timestamp]|] eqn:Hkey.
  - destruct (Hinv _ _ _ Hkey) as (s & d' & chart & Heq & ->).
    apply cache_key_inj in Heq as [<- _].
    destruct (fresh now timestamp).
    + cbn. intros [= <-]. eauto.
    + unfold get_coin_symbol_to_id_map, exception_message.
      repeat case_match; simplify_eq; cbn; intros [= <-]; eauto.
  - unfold get_coin_symbol_to_id_map, exception_message.
    repeat case_match; simplify_eq; cbn; intros [= <-]; eauto.
Qed.

Lemma history_payload_is_for_symbol_witness :
  exists chart,
    history_result "BTC"
      {| prices := [(1000, 1%Q)]%Z; total_volumes := []; market_caps := [] |}
    = history_result (str_upper "btc") chart.
Proof.
  apply (history_payload_is_for_symbol
           [CallHistory "BTC" (DaysInt 7) 0
              (serving_network
                 [{| cl_id := "bitcoin"; cl_symbol := "btc" |}] []
                 {| prices := [(1000, 1%Q)]%Z; total_volumes := [];
                    market_caps := [] |})]
           "btc" (DaysInt 7) 30 (failing_network 500)).
  vm_compute. reflexivity.
Defined.

(** *** The window of the history cache *)

Lemma history_miss (symbol : string) (days : days_arg) (now : Q)
  (net : network) (w : world) :
  (forall cached timestamp,
      cache_historical_data w
        !! cache_key (str_upper symbol) (clamped_days days)
      = Some (cached, timestamp) ->
      fresh now timestamp = false) ->
  fetch_historical_data symbol days now net w
  = let w0 := (clamp_days days w).2 in
    let key := cache_key (str_upper symbol) (clamped_days days) in
    let '(symbol_to_id, w1) := get_coin_symbol_to_id_map net w0 in
    match resolved (symbol_to_id !! str_upper symbol) with
    | None =>
        (None,
         show (st_error ("Coin ID not found for symbol: "
                         +:+ str_upper symbol)) w1)
    | Some coin_id =>
        let w2 := send (GetMarketChart coin_id (clamped_days days)) w1 in
        match market_chart_of net coin_id (clamped_days days) with
        | Response status_code text json =>
            if (status_code =? 200)%Z then
              match json with
              | Json chart =>
                  let result := history_result (str_upper symbol) chart in
                  (Some result, set_historical_data key result now w2)
              | BadBody request_exception e =>
                  (None, show (exception_message request_exception e) w2)
              end
            else
              (None,
               show (st_error ("Error message: " +:+ text))
                 (show (st_error
                          ("Historical data API request failed with status code: "
                           +:+ show_Z status_code)) w2))
        | ConnectionFailed e => (None, show (exception_message true e) w2)
        end
    end.
Proof.
  intros Hstale. unfold fetch_historical_data.
  pose proof (clamp_days_value days w) as Hd.
  destruct (clamp_days_world days w) as (_ & Hcache & _).
  destruct (clamp_days days w) as [d w0]. cbn [fst snd] in *. subst d.
  rewrite Hcache.
  destruct (cache_historical_data w
              !! cache_key (str_upper symbol) (clamped_days days))
    as [[cached timestamp]|] eqn:Hkey; [rewrite (Hstale _ _ eq_refl)|];
    reflexivity.
Qed.

(** X8.  A history fetched with success at time [now] is the payload built
    from the provider's answer.  Every call made less than 60 seconds
    later for the same symbol, in whatever letter case, and for a number of
    days that is clamped to the same value returns that payload without a
    request; made 60 seconds later or more, such a call asks the provider
    again, for the coin id the index holds. *)
Theorem history_cache_window (symbol : string) (days : days_arg) (now : Q)
  (net : network) (w : world) (coin_id text : string) (chart : market_chart) :
  (forall cached timestamp,
      cache_historical_data w
        !! cache_key (str_upper symbol) (clamped_days days)
      = Some (cached, timestamp) ->
      fresh now timestamp = false) ->
  resolved ((get_coin_symbol_to_id_map net w).1 !! str_upper symbol)
  = Some coin_id ->
  market_chart_of net coin_id (clamped_days days)
  = Response 200 text (Json chart) ->
  let payload := history_result (str_upper symbol) chart in
  let w1 := (fetch_historical_data symbol days now net w).2 in
  (fetch_historical_data symbol days now net w).1 = Some payload
  /\ forall symbol' days' now' net',
      str_upper symbol' = str_upper symbol ->
      clamped_days days' = clamped_days days ->
      if fresh now' now
      then (fetch_historical_data symbol' days' now' net' w1).1 = Some payload
           /\ sent (fetch_historical_data symbol' days' now' net' w1).2
              = sent w1
      else sent (fetch_historical_data symbol' days' now' net' w1).2
           = GetMarketChart coin_id (clamped_days days) :: sent w1.
Proof.
  intros Hstale Hres Hnet payload w1.
  set (key := cache_key (str_upper symbol) (clamped_days days)).
  destruct (clamp_days_world days w) as (Hmap0 & _).
  rewrite <- (coin_map_same_index net w _ Hmap0) in Hres.
  destruct (coin_map_set net (clamp_days days w).2) as (Hset & _).
  destruct (get_coin_symbol_to_id_map net (clamp_days days w).2)
    as [index wi] eqn:Hget. cbn [fst snd] in *.
  assert (Hcall : fetch_historical_data symbol days now net w
                  = (Some payload,
                     set_historical_data key payload now
                       (send (GetMarketChart coin_id (clamped_days days)) wi))).
  { rewrite (history_miss _ _ _ _ _ Hstale). cbv zeta.
    now rewrite Hget, Hres, Hnet. }
  subst w1. rewrite Hcall. cbn [fst snd]. split; [reflexivity|].
  intros symbol' days' now' net' Hsym Hdays.
  set (w1 := set_historical_data key payload now
               (send (GetMarketChart coin_id (clamped_days days)) wi)).
  assert (Hentry : cache_historical_data w1 !! key = Some (payload, now))
    by apply lookup_insert_eq.
  assert (Hindex : coin_symbol_to_id_map w1 = Some index) by exact Hset.
  destruct (fresh now' now) eqn:Hfresh.
  - unfold fetch_historical_data.
    pose proof (clamp_days_value days' w1) as Hd.
    destruct (clamp_days_world days' w1) as (_ & Hcache & _ & Hsent).
    destruct (clamp_days days' w1) as [d w0]. cbn [fst snd] in *. subst d.
    rewrite Hcache, Hsym, Hdays. fold key. rewrite Hentry, Hfresh.
    split; [reflexivity|exact Hsent].
  - rewrite history_miss.
    + cbv zeta.
      destruct (clamp_days_world days' w1) as (Hmap & _ & _ & Hsent).
      rewrite (coin_map_hit net' _ index) by (rewrite Hmap; exact Hindex).
      rewrite Hsym, Hres, Hdays.
      destruct (market_chart_of net' coin_id (clamped_days days))
        as [e|code text' [chart'|r e]]; cbn; try (now rewrite Hsent).
      * destruct (code =? 200)%Z; cbn; now rewrite Hsent.
      * destruct (code =? 200)%Z; cbn; now rewrite Hsent.
    + intros cached timestamp. rewrite Hsym, Hdays. fold key.
      rewrite Hentry. now intros [= <- <-].
Qed.

Lemma history_cache_window_witness :
  let net :=
    serving_network [{| cl_id := "bitcoin"; cl_symbol := "btc" |}] []
      {| prices := [(1000, 1%Q)]%Z; total_volumes := []; market_caps := [] |} in
  let w1 := (fetch_historical_data "btc" (DaysInt 400) 0 net initial_world).2 in
  (fetch_historical_data "BTC" (DaysInt 365) 59 (failing_network 500) w1).1
  = Some (history_result "BTC"
            {| prices := [(1000, 1%Q)]%Z; total_volumes := [];
               market_caps := [] |})
  /\ sent (fetch_historical_data "Btc" (DaysInt 999) 60 net w1).2
     = GetMarketChart "bitcoin" 365 :: sent w1.
Proof.
  cbv zeta.
  destruct (history_cache_window "btc" (DaysInt 400) 0
              (serving_network
                 [{| cl_id := "bitcoin"; cl_symbol := "btc" |}] []
                 {| prices := [(1000, 1%Q)]%Z; total_volumes := [];
                    market_caps := [] |})
              initial_world "bitcoin" ""
              {| prices := [(1000, 1%Q)]%Z; total_volumes := [];
                 market_caps := [] |})
    as [_ Hlater].
  - intros cached timestamp H. vm_compute in H. discriminate.
  - vm_compute. reflexivity.
  - reflexivity.
  - split.
    + pose proof (Hlater "BTC" (DaysInt 365) 59%Q (failing_network 500)
                    eq_refl eq_refl) as H.
      change (fresh 59 0) with true in H. cbv iota in H. exact (proj1 H).
    + pose proof (Hlater "Btc" (DaysInt 999) 60%Q
                    (serving_network
                       [{| cl_id := "bitcoin"; cl_symbol := "btc" |}] []
                       {| prices := [(1000, 1%Q)]%Z; total_volumes := [];
                          market_caps := [] |})
                    eq_refl eq_refl) as H.
      change (fresh 60 0) with false in H. cbv iota in H. exact H.
Defined.

End ApiHistoryFacts.

(** ** More on get_top_gainers_losers *)
Module MoversOrderFacts.
Import Frames Payloads DataProcessing StableSortFacts KeySortFacts MoversFacts.

Lemma StronglySorted_take {A} (R : A -> A -> Prop) (k : nat) (l : list A) :
  StronglySorted R l -> StronglySorted R (take k l).
Proof.
  intros H. rewrite <- (take_drop k l) in H.
  now apply StronglySorted_app_1_l in H.
Qed.

Lemma nlargest_sorted (tf : timeframe) (n : Z) (rows : list listing_row) :
  StronglySorted
    (fun a b => (key_value (m_change b) <= key_value (m_change a))%Q)
    (map (project tf) (nlargest n (column tf) rows)).
Proof.
  unfold nlargest. destruct (n <=? 0)%Z; [constructor|].
  eapply StronglySorted_fmap; [|apply StronglySorted_take,
    (stable_sort_sorted _ (key_geb_total _) (key_geb_trans _))].
  intros x y H. now apply Qle_bool_iff.
Qed.

Lemma nsmallest_sorted (tf : timeframe) (n : Z) (rows : list listing_row) :
  StronglySorted
    (fun a b => (key_value (m_change a) <= key_value (m_change b))%Q)
    (map (project tf) (nsmallest n (column tf) rows)).
Proof.
  unfold nsmallest. destruct (n <=? 0)%Z; [constructor|].
  eapply StronglySorted_fmap; [|apply StronglySorted_take,
    (stable_sort_sorted _ (key_leb_total _) (key_leb_trans _))].
  intros x y H. now apply Qle_bool_iff.
Qed.

(** X9.  For every listings frame, every [n] and every percent-change
    column, the gainers come in descending order of their change, the
    largest first, and the losers in ascending order, the most negative
    first. *)
Theorem movers_are_ordered (rows : list listing_row) (n : Z)
  (tf : timeframe) :
  exists gainers losers : list mover,
    get_top_gainers_losers (Frame rows) n tf
    = Ok (Frame gainers, Frame losers)
    /\ StronglySorted
         (fun a b => (key_value (m_change b) <= key_value (m_change a))%Q)
         gainers
    /\ StronglySorted
         (fun a b => (key_value (m_change a) <= key_value (m_change b))%Q)
         losers.
Proof.
  unfold get_top_gainers_losers. eexists _, _. split; [reflexivity|].
  split; [apply nlargest_sorted|apply nsmallest_sorted].
Qed.

(** A list whose elements are all in one tie is left as it is by the stable
    sort. *)
Lemma stable_sort_all_tied {A} (leb : A -> A -> bool) (p : A -> bool)
  (l : list A) :
  tie_class leb p -> Forall (fun x => p x = true) l -> stable_sort leb l = l.
Proof.
  intros Htie Hall.
  assert (Hfilter : forall l', Forall (fun x => p x = true) l' ->
                               List.filter p l' = l').
  { induction 1 as [|x t Hx _ IH]; [reflexivity|].
    cbn [List.filter]. now rewrite Hx, IH. }
  rewrite <- (Hfilter (stable_sort leb l)).
  - rewrite stable_sort_stable by assumption. now apply Hfilter.
  - now rewrite (stable_sort_perm leb l).
Qed.

(** X10.  When every row with a change has the same change, the gainers
    and the losers are the same rows: the first rows of the input that have
    a change, [n] of them or half of them.  The two selections are not kept
    apart. *)
Theorem tied_movers_coincide (rows : list listing_row) (n : nat)
  (tf : timeframe) (v : Q) :
  (forall r q, r ∈ rows -> column tf r = Some q -> (q == v)%Q) ->
  let valid := List.filter (fun r => notna (column tf r)) rows in
  let selected :=
    map (project tf) (take (movers_count (length valid) n) valid) in
  get_top_gainers_losers (Frame rows) (Z.of_nat n) tf
  = Ok (Frame selected, Frame selected).
Proof.
  intros Htied valid selected.
  assert (Hall : Forall (fun r => column_is tf v r = true) valid).
  { apply Forall_forall. intros r Hr.
    apply list_elem_of_In, filter_In in Hr as [Hin Hq].
    unfold column_is. destruct (column tf r) as [q|] eqn:E; [|discriminate].
    apply Qeq_bool_iff. apply (Htied r q); [now apply list_elem_of_In|exact E]. }
  unfold get_top_gainers_losers. fold valid.
  rewrite adjusted_count, nlargest_count, nsmallest_count.
  rewrite (stable_sort_all_tied _ _ _ (column_is_tie_geb tf v) Hall).
  rewrite (stable_sort_all_tied _ _ _ (column_is_tie_leb tf v) Hall).
  reflexivity.
Qed.

Lemma tied_movers_coincide_witness :
  exists selected,
    get_top_gainers_losers
      (Frame [listing_with_change "A" (Some 1%Q);
              listing_with_change "B" None;
              listing_with_change "C" (Some 1%Q);
              listing_with_change "D" (Some 1%Q);
              listing_with_change "E" (Some 1%Q)]) 5 change_24h
    = Ok (Frame selected, Frame selected)
    /\ map m_symbol selected = [Some "A"; Some "C"].
Proof.
  eexists. split.
  - apply (tied_movers_coincide
             [listing_with_change "A" (Some 1%Q);
              listing_with_change "B" None;
              listing_with_change "C" (Some 1%Q);
              listing_with_change "D" (Some 1%Q);
              listing_with_change "E" (Some 1%Q)] 5 change_24h 1%Q).
    intros r q Hr Hq.
    apply list_elem_of_In in Hr. cbn [In] in Hr.
    repeat (destruct Hr as [<-|Hr];
            [cbn in Hq; first [discriminate|injection Hq as <-; reflexivity]|]).
    destruct Hr.
  - reflexivity.
Defined.

End MoversOrderFacts.

(** ** More on the history payload and its frame *)
Module HistoryQuotesFacts.
Import Frames Payloads DataProcessing Api SortValuesFacts HistoryFacts.

(** *** Dicts *)

Section Dict.
Context {K V : Type} `{EqDecision K}.

Lemma dict_set_keys (t k : K) (v : V) (d : list (K * V)) :
  t ∈ map fst (dict_set k v d) <-> t = k \/ t ∈ map fst d.
Proof.
  induction d as [|[k' v'] d IH]; cbn [dict_set map fst].
  - rewrite list_elem_of_singleton, elem_of_nil. tauto.
  - destruct (decide (k = k')) as [->|Hne]; cbn [map fst].
    + rewrite !elem_of_cons. tauto.
    + rewrite !elem_of_cons, IH. tauto.
Qed.

Lemma dict_set_NoDup (k : K) (v : V) (d : list (K * V)) :
  NoDup (map fst d) -> NoDup (map fst (dict_set k v d)).
Proof.
  induction d as [|[k' v'] d IH]; cbn [dict_set map fst]; intros Hd.
  - apply NoDup_singleton.
  - apply NoDup_cons in Hd as [Hk' Hd].
    destruct (decide (k = k')) as [->|Hne]; cbn [map fst].
    + now apply NoDup_cons.
    + apply NoDup_cons. split; [|now apply IH].
      rewrite dict_set_keys. intros [->|Hin]; [now apply Hne|now apply Hk'].
Qed.

Lemma dict_set_length (k : K) (v : V) (d : list (K * V)) :
  (length (dict_set k v d) <= S (length d))%nat.
Proof.
  induction d as [|[k' v'] d IH]; cbn [dict_set length]; [lia|].
  destruct (decide (k = k')); cbn [length]; lia.
Qed.

Lemma dict_set_entries (x : K * V) (k : K) (v : V) (d : list (K * V)) :
  x ∈ dict_set k v d -> x = (k, v) \/ x ∈ d.
Proof.
  induction d as [|[k' v'] d IH]; cbn [dict_set].
  - rewrite list_elem_of_singleton. tauto.
  - destruct (decide (k = k')) as [->|Hne]; rewrite !elem_of_cons.
    + tauto.
    + intros [->|Hin]; [tauto|]. destruct (IH Hin); tauto.
Qed.

Lemma dict_get_set_eq (k : K) (v : V) (d : list (K * V)) :
  dict_get k (dict_set k v d) = Some v.
Proof.
  induction d as [|[k' v'] d IH]; cbn [dict_set dict_get].
  - now rewrite decide_True.
  - destruct (decide (k = k')) as [->|Hne]; cbn [dict_get].
    + now rewrite decide_True.
    + now rewrite decide_False.
Qed.

Lemma dict_get_set_ne (t k : K) (v : V) (d : list (K * V)) :
  t <> k -> dict_get t (dict_set k v d) = dict_get t d.
Proof.
  intros Hne. induction d as [|[k' v'] d IH]; cbn [dict_set dict_get].
  - now rewrite decide_False.
  - destruct (decide (k = k')) as [->|Hne']; cbn [dict_get].
    + now rewrite !decide_False.
    + destruct (decide (t = k')); [reflexivity|exact IH].
Qed.

End Dict.

(** *** The loop of fetch_historical_data *)

Section Loop.
Variable chart : market_chart.

Let step := add_sample (prices chart) (total_volumes chart) (market_caps chart).

Lemma add_sample_point (quotes : list (Z * usd_sample)) (i : nat)
  (p : Z * Q) :
  prices chart !! i = Some p ->
  step quotes i
  = dict_set (epoch_seconds p.1) (sample_at chart i p).2 quotes.
Proof. intros Hp. unfold step, add_sample. rewrite Hp. now destruct p. Qed.

Lemma add_sample_beyond (quotes : list (Z * usd_sample)) (i : nat) :
  prices chart !! i = None -> step quotes i = quotes.
Proof. intros Hp. unfold step, add_sample. now rewrite Hp. Qed.

Lemma loop_keys (indices : list nat) (quotes : list (Z * usd_sample))
  (t : Z) :
  t ∈ map fst (fold_left step indices quotes)
  <-> t ∈ map fst quotes
      \/ exists i p, i ∈ indices /\ prices chart !! i = Some p
                     /\ epoch_seconds p.1 = t.
Proof.
  revert quotes. induction indices as [|i indices IH]; intros quotes;
    cbn [fold_left].
  - split; [tauto|]. intros [H|(i & p & Hi & _)]; [exact H|].
    now apply elem_of_nil in Hi.
  - rewrite IH. destruct (prices chart !! i) as [p|] eqn:Hp.
    + rewrite (add_sample_point _ _ _ Hp), dict_set_keys. split.
      * intros [[->|H]|(j & q & Hj & Hq & Ht)].
        -- right. exists i, p. split; [left|now split].
        -- now left.
        -- right. exists j, q. split; [now right|now split].
      * intros [H|(j & q & Hj & Hq & Ht)]; [tauto|].
        apply elem_of_cons in Hj as [->|Hj].
        -- left. left. congruence.
        -- right. now exists j, q.
    + rewrite (add_sample_beyond _ _ Hp). split.
      * intros [H|(j & q & Hj & Hq & Ht)]; [now left|].
        right. exists j, q. split; [now right|now split].
      * intros [H|(j & q & Hj & Hq & Ht)]; [now left|].
        apply elem_of_cons in Hj as [->|Hj]; [congruence|].
        right. now exists j, q.
Qed.

Lemma loop_NoDup (indices : list nat) (quotes : list (Z * usd_sample)) :
  NoDup (map fst quotes) -> NoDup (map fst (fold_left step indices quotes)).
Proof.
  revert quotes. induction indices as [|i indices IH]; intros quotes Hq;
    cbn [fold_left]; [exact Hq|].
  apply IH. destruct (prices chart !! i) as [p|] eqn:Hp.
  - rewrite (add_sample_point _ _ _ Hp). now apply dict_set_NoDup.
  - now rewrite (add_sample_beyond _ _ Hp).
Qed.

Lemma loop_length (indices : list nat) (quotes : list (Z * usd_sample)) :
  (length (fold_left step indices quotes)
   <= length quotes + length indices)%nat.
Proof.
  revert quotes. induction indices as [|i indices IH]; intros quotes;
    cbn [fold_left length]; [lia|].
  etransitivity; [apply IH|].
  destruct (prices chart !! i) as [p|] eqn:Hp.
  - rewrite (add_sample_point _ _ _ Hp).
    pose proof (dict_set_length (epoch_seconds p.1) (sample_at chart i p).2
                  quotes). lia.
  - rewrite (add_sample_beyond _ _ Hp). lia.
Qed.

Lemma loop_entries (indices : list nat) (quotes : list (Z * usd_sample))
  (x : Z * usd_sample) :
  x ∈ fold_left step indices quotes ->
  x ∈ quotes
  \/ exists i p, prices chart !! i = Some p /\ x = sample_at chart i p.
Proof.
  revert quotes. induction indices as [|i indices IH]; intros quotes;
    cbn [fold_left]; [tauto|].
  intros Hx. apply IH in Hx as [Hx|Hx]; [|now right].
  destruct (prices chart !! i) as [p|] eqn:Hp.
  - rewrite (add_sample_point _ _ _ Hp) in Hx.
    apply dict_set_entries in Hx as [->|Hx]; [|now left].
    right. now exists i, p.
  - rewrite (add_sample_beyond _ _ Hp) in Hx. now left.
Qed.

Lemma loop_get_other (indices : list nat) (quotes : list (Z * usd_sample))
  (t : Z) :
  (forall i p, i ∈ indices -> prices chart !! i = Some p ->
               epoch_seconds p.1 <> t) ->
  dict_get t (fold_left step indices quotes) = dict_get t quotes.
Proof.
  revert quotes. induction indices as [|i indices IH]; intros quotes Hother;
    cbn [fold_left]; [reflexivity|].
  rewrite IH by (intros j q Hj; apply Hother; now right).
  destruct (prices chart !! i) as [p|] eqn:Hp.
  - rewrite (add_sample_point _ _ _ Hp). apply dict_get_set_ne.
    intros Heq. apply (Hother i p); [left|exact Hp|now symmetry].
  - now rewrite (add_sample_beyond _ _ Hp).
Qed.

End Loop.

Lemma build_quotes_keys (chart : market_chart) (t : Z) :
  t ∈ map fst (build_quotes chart)
  <-> t ∈ map (fun p => epoch_seconds p.1) (prices chart).
Proof.
  unfold build_quotes. rewrite loop_keys. cbn [map].
  rewrite elem_of_nil, list_elem_of_fmap. split.
  - intros [[]|(i & p & _ & Hp & Ht)].
    exists p. split; [now symmetry|]. eapply list_elem_of_lookup_2, Hp.
  - intros (p & Ht & Hp). right.
    apply list_elem_of_lookup in Hp as [i Hi]. exists i, p.
    split; [|now split]. apply elem_of_seq. split; [lia|].
    apply lookup_lt_Some in Hi. lia.
Qed.

Lemma build_quotes_length (chart : market_chart) :
  (length (build_quotes chart) <= length (prices chart))%nat.
Proof.
  unfold build_quotes. etransitivity; [apply loop_length|].
  cbn [length]. now rewrite length_seq.
Qed.

(** X12.  Whatever the provider's series, the payload has one quote per
    distinct second of the price series: no key comes twice, the keys are
    the seconds of the price points, and there are at most as many quotes
    as price points. *)
Theorem quotes_keys_are_seconds (chart : market_chart) :
  NoDup (map fst (build_quotes chart))
  /\ (forall t,
        t ∈ map fst (build_quotes chart)
        <-> t ∈ map (fun p => epoch_seconds p.1) (prices chart))
  /\ (length (build_quotes chart) <= length (prices chart))%nat.
Proof.
  split.
  - unfold build_quotes. apply loop_NoDup. constructor.
  - split.
    + intros t. apply build_quotes_keys.
    + apply build_quotes_length.
Qed.

(** X13.  Of the price points that fall in one second the last one wins:
    the quote of that second carries its price, and the volume and the
    market cap found at its index. *)
Theorem quotes_last_point_wins (chart : market_chart) (i : nat) (p : Z * Q) :
  prices chart !! i = Some p ->
  (forall j q, (i < j)%nat -> prices chart !! j = Some q ->
               epoch_seconds q.1 <> epoch_seconds p.1) ->
  dict_get (epoch_seconds p.1) (build_quotes chart)
  = Some {| s_price := p.2;
            s_volume_24h := snd <$> total_volumes chart !! i;
            s_market_cap := snd <$> market_caps chart !! i;
            s_timestamp := utc_iso (epoch_seconds p.1) |}.
Proof.
  intros Hp Hlast. unfold build_quotes.
  pose proof (lookup_lt_Some _ _ _ Hp) as Hi.
  replace (length (prices chart)) with (i + S (length (prices chart) - S i))%nat
    by lia.
  rewrite seq_app, fold_left_app. cbn [seq fold_left Nat.add].
  rewrite loop_get_other.
  - rewrite (add_sample_point _ _ _ _ Hp). apply dict_get_set_eq.
  - intros j q Hj Hq. apply elem_of_seq in Hj. apply (Hlast j q); [lia|exact Hq].
Qed.

Lemma quotes_last_point_wins_witness :
  dict_get 1%Z
    (build_quotes
       {| prices := [(1000, 1%Q); (2000, 5%Q); (1999, 2%Q)]%Z;
          total_volumes := [(1000, 7%Q)]%Z; market_caps := [] |})
  = Some {| s_price := 2%Q; s_volume_24h := None; s_market_cap := None;
            s_timestamp := utc_iso 1 |}.
Proof.
  apply (quotes_last_point_wins
           {| prices := [(1000, 1%Q); (2000, 5%Q); (1999, 2%Q)]%Z;
              total_volumes := [(1000, 7%Q)]%Z; market_caps := [] |}
           2 (1999%Z, 2%Q)).
  - reflexivity.
  - intros j q Hj Hq. apply lookup_lt_Some in Hq. cbn in Hq. lia.
Defined.

(** *** The frame *)

Lemma prepare_history_sorted (argsort : list Q -> list nat)
  (fromtimestamp : Z -> Z) (symbol : string) (status : option status_block)
  (quotes : list (Z * usd_sample)) :
  argsort_spec argsort ->
  quotes <> [] ->
  exists rows,
    prepare_historical_data argsort fromtimestamp
      (Some {| h_data := Some [(symbol, {| quotes := quotes |})];
               h_status := status |}) = Ok (Frame rows)
    /\ rows ≡ₚ map (history_row_of fromtimestamp) quotes
    /\ StronglySorted Z.le (map timestamp rows).
Proof.
  intros Hspec Hquotes. rewrite prepare_history_unfold.
  set (samples := map (history_row_of fromtimestamp) quotes).
  rewrite DataFrame_rows
    by (unfold samples; destruct quotes; [contradiction|discriminate]).
  cbn [sort_values]. eexists. split; [reflexivity|].
  split; [now apply sort_rows_perm|].
  pose proof (sort_rows_ascending
                (fun r => Some (inject_Z (timestamp r))) argsort Hspec samples)
    as Hsorted.
  cbn [key_value] in Hsorted.
  assert (Hall : Forall (fun r : history_row =>
                   notna (Some (inject_Z (timestamp r))) = true) samples)
    by (apply Forall_forall; reflexivity).
  specialize (Hsorted Hall).
  rewrite <- (map_map timestamp inject_Z) in Hsorted.
  eapply StronglySorted_map_inv; [|exact Hsorted].
  intros x y Hxy. rewrite Zle_Qle. exact Hxy.
Qed.

(** X14.  For every provider answer whose price series is not empty,
    points of one second or not, the frame is built: it has at least one
    row and at most one per price point, its timestamps are in
    non-decreasing order, each row is the sample of a price point zipped by
    index with the two other series, and the second of every price point
    has its row. *)
Theorem history_frame_of_any_series (argsort : list Q -> list nat)
  (fromtimestamp : Z -> Z) (symbol : string) (chart : market_chart) :
  argsort_spec argsort ->
  prices chart <> [] ->
  exists rows,
    prepare_historical_data argsort fromtimestamp
      (Some (history_result symbol chart)) = Ok (Frame rows)
    /\ (1 <= length rows <= length (prices chart))%nat
    /\ StronglySorted Z.le (map timestamp rows)
    /\ (forall r, r ∈ rows ->
          exists i p, prices chart !! i = Some p
                      /\ r = history_row_of fromtimestamp (sample_at chart i p))
    /\ (forall p, p ∈ prices chart ->
          exists r, r ∈ rows
                    /\ timestamp r = fromtimestamp (epoch_seconds p.1)).
Proof.
  intros Hspec Hprices.
  pose proof (build_quotes_keys chart) as Hkeys.
  pose proof (build_quotes_length chart) as Hlen.
  assert (Hquotes : build_quotes chart <> []).
  { destruct (prices chart) as [|p ps] eqn:E; [contradiction|].
    intros Hnil. specialize (Hkeys (epoch_seconds p.1)).
    rewrite Hnil in Hkeys. cbn [map] in Hkeys.
    destruct Hkeys as [_ Hkeys]. eapply elem_of_nil, Hkeys. left. }
  destruct (prepare_history_sorted argsort fromtimestamp symbol
              (Some {| error_code := 0; error_message := None;
                       credit_count := 0 |})
              (build_quotes chart) Hspec Hquotes)
    as (rows & Hrows & Hperm & Hsorted).
  exists rows. split; [exact Hrows|].
  assert (Hsize : length rows = length (build_quotes chart))
    by now rewrite Hperm, length_map.
  split.
  { rewrite Hsize. split; [|exact Hlen].
    destruct (build_quotes chart); [contradiction|cbn [length]; lia]. }
  split; [exact Hsorted|]. split.
  - intros r Hr. rewrite Hperm in Hr.
    apply list_elem_of_fmap in Hr as (x & -> & Hx).
    apply loop_entries in Hx as [Hx|(i & p & Hp & ->)];
      [now apply elem_of_nil in Hx|].
    now exists i, p.
  - intros p Hp.
    assert (Hkey : epoch_seconds p.1 ∈ map fst (build_quotes chart)).
    { apply Hkeys, list_elem_of_fmap. now exists p. }
    apply list_elem_of_fmap in Hkey as (x & Hx & Hin).
    exists (history_row_of fromtimestamp x). split.
    + rewrite Hperm. apply list_elem_of_fmap. now exists x.
    + cbn [history_row_of timestamp]. now rewrite Hx.
Qed.

Lemma history_frame_of_any_series_witness :
  exists rows,
    prepare_historical_data stable_argsort (fun t => t)
      (Some (history_result "BTC"
               {| prices := [(2000, 5%Q); (1000, 1%Q); (1999, 2%Q)]%Z;
                  total_volumes := []; market_caps := [] |})) = Ok (Frame rows)
    /\ map timestamp rows = [1; 2]%Z
    /\ map hprice rows = [2%Q; 5%Q].
Proof.
  destruct (history_frame_of_any_series stable_argsort (fun t => t) "BTC"
              {| prices := [(2000, 5%Q); (1000, 1%Q); (1999, 2%Q)]%Z;
                 total_volumes := []; market_caps := [] |}
              stable_argsort_spec)
    as (rows & Hrows & _).
  - discriminate.
  - exists rows. split; [exact Hrows|].
    vm_compute in Hrows. injection Hrows as <-. split; reflexivity.
Defined.

End HistoryQuotesFacts.

(** ** From the provider's listing to the frame *)
Module ListingsPipelineFacts.
Import Frames Payloads DataProcessing Api SortValuesFacts ListingsFacts.
Import ApiCacheFacts.

Lemma fetch_listings_success (vs_currency : string) (per_page page : Z)
  (now : Q) (net : network) (w : world) (text : string)
  (coins : list market_coin) :
  (forall cached timestamp,
      cache_latest_listings w = (Some cached, Some timestamp) ->
      fresh now timestamp = false) ->
  markets net vs_currency per_page page = Response 200 text (Json coins) ->
  (fetch_latest_listings vs_currency per_page page now net w).1
  = Some {| data := map coin_dict coins |}.
Proof.
  intros Hstale Hnet. unfold fetch_latest_listings.
  destruct (cache_latest_listings w) as [[cached|] [timestamp|]] eqn:Hcache;
    try rewrite (Hstale _ _ eq_refl); now rewrite Hnet.
Qed.

Lemma upper_symbol_shape (s : option string) (u : string) :
  upper_symbol s = Some u -> u <> "" /\ str_upper u = u.
Proof.
  destruct s as [[|c s]|]; cbn [upper_symbol]; intros [= <-].
  split; [discriminate|apply (str_upper_idem (String c s))].
Qed.

(** The row made of a coin of the provider's answer. *)
Lemma listed_coin_dict (coins : list market_coin) :
  listed {| data := map coin_dict coins |}
  = map (fun c => set_last_updated to_datetime (listing_of_coin (coin_dict c)))
      coins.
Proof. unfold listed. cbn [data]. now rewrite map_map. Qed.

(** X15.  What a successful call of [fetch_latest_listings] returns goes
    through [prepare_listings_data] in this way.  When the provider answers
    with an empty page, the payload is returned all the same and the
    preparation raises KeyError on [last_updated].  Otherwise the frame has
    one row per coin of the answer; in each row the slug is the id, the
    symbol, if any, is not empty and in upper case; and the 30 days changes
    are the provider's, a null staying a null: the default 0 of the
    preparation never applies. *)
Theorem fetched_listings_frame (argsort : list Q -> list nat)
  (vs_currency : string) (per_page page : Z) (now : Q) (net : network)
  (w : world) (text : string) (coins : list market_coin) :
  argsort_spec argsort ->
  (forall cached timestamp,
      cache_latest_listings w = (Some cached, Some timestamp) ->
      fresh now timestamp = false) ->
  markets net vs_currency per_page page = Response 200 text (Json coins) ->
  exists payload,
    (fetch_latest_listings vs_currency per_page page now net w).1
    = Some payload
    /\ match coins with
       | [] =>
           prepare_listings_data argsort payload
           = Raise (KeyError "last_updated")
       | _ :: _ =>
           exists rows,
             prepare_listings_data argsort payload = Ok (Frame rows)
             /\ length rows = length coins
             /\ Forall (fun r =>
                          slug r = id r
                          /\ forall s, symbol r = Some s ->
                                       s <> "" /\ str_upper s = s) rows
             /\ map percent_change_30d rows ≡ₚ map mk_change_30d coins
       end.
Proof.
  intros Hspec Hstale Hnet. eexists. split.
  { eapply fetch_listings_success; eassumption. }
  destruct coins as [|c coins]; [reflexivity|].
  set (payload := {| data := map coin_dict (c :: coins) |}).
  assert (Hperm : sort_rows argsort market_cap false (listed payload)
                  ≡ₚ listed payload) by now apply sort_rows_perm.
  eexists. split; [now apply prepare_listings_unfold|].
  rewrite Hperm. unfold payload. rewrite listed_coin_dict.
  split; [now rewrite length_map|]. split.
  - apply Forall_forall. intros r Hr.
    apply list_elem_of_fmap in Hr as (c' & -> & _).
    split; [reflexivity|]. intros s Hs. cbn in Hs.
    now apply upper_symbol_shape in Hs.
  - now rewrite map_map.
Qed.

Lemma fetched_listings_frame_witness :
  (exists payload,
      (fetch_latest_listings "usd" 100 1 0
         (serving_network [] [] empty_chart) initial_world).1 = Some payload
      /\ prepare_listings_data stable_argsort payload
         = Raise (KeyError "last_updated"))
  /\ (exists payload rows,
        (fetch_latest_listings "usd" 100 1 0
           (serving_network [] [market_coin_of "bitcoin"] empty_chart)
           initial_world).1 = Some payload
        /\ prepare_listings_data stable_argsort payload = Ok (Frame rows)
        /\ length rows = 1%nat).
Proof.
  split.
  - destruct (fetched_listings_frame stable_argsort "usd" 100 1 0
                (serving_network [] [] empty_chart) initial_world "" []
                stable_argsort_spec)
      as (payload & Hfetch & Hraise).
    + intros cached timestamp H. discriminate.
    + reflexivity.
    + now exists payload.
  - destruct (fetched_listings_frame stable_argsort "usd" 100 1 0
                (serving_network [] [market_coin_of "bitcoin"] empty_chart)
                initial_world "" [market_coin_of "bitcoin"]
                stable_argsort_spec)
      as (payload & Hfetch & rows & Hrows & Hlen & _).
    + intros cached timestamp H. discriminate.
    + reflexivity.
    + now exists payload, rows.
Defined.

End ListingsPipelineFacts.

(** ** More on utils.py *)
Module UtilsFormatFacts.
Import Utils UtilsFacts.

(** *** Rounding *)

Lemma Qfloor_eq (x : Q) (f : Z) :
  (inject_Z f <= x)%Q -> (x < inject_Z (f + 1))%Q -> Qfloor x = f.
Proof.
  intros Hle Hlt.
  pose proof (Qfloor_le x) as Hfl. pose proof (Qlt_floor x) as Hfu.
  assert (H1 : (inject_Z f < inject_Z (Qfloor x + 1))%Q)
    by (eapply Qle_lt_trans; eassumption).
  assert (H2 : (inject_Z (Qfloor x) < inject_Z (f + 1))%Q)
    by (eapply Qle_lt_trans; eassumption).
  rewrite <- Zlt_Qlt in H1, H2. lia.
Qed.

(** From the half on, an odd floor is rounded up. *)
Lemma round_half_even_up (x : Q) (f : Z) :
  Z.even f = false ->
  (inject_Z f + (1 # 2) <= x)%Q -> (x < inject_Z (f + 1))%Q ->
  round_half_even x = (f + 1)%Z.
Proof.
  intros Hodd Hle Hlt. unfold round_half_even.
  assert (Hf : Qfloor x = f).
  { apply Qfloor_eq; [|exact Hlt].
    apply Qle_trans with (inject_Z f + (1 # 2))%Q; [|exact Hle].
    rewrite <- (Qplus_0_r (inject_Z f)) at 1.
    apply Qplus_le_r. discriminate. }
  rewrite Hf, Hodd.
  destruct (Qcompare_spec (x - inject_Z f) (1 # 2)) as [_|Hc|_];
    try reflexivity.
  exfalso. lra.
Qed.

(** Below the half of a unit the rounding gives 0. *)
Lemma round_half_even_zero (x : Q) :
  (0 <= x)%Q -> (x < 1 # 2)%Q -> round_half_even x = 0%Z.
Proof.
  intros Hle Hlt. unfold round_half_even.
  assert (Hf : Qfloor x = 0%Z).
  { apply Qfloor_eq; [exact Hle|]. change (inject_Z (0 + 1)) with 1%Q. lra. }
  rewrite Hf.
  destruct (Qcompare_spec (x - inject_Z 0) (1 # 2)) as [Hc|_|Hc];
    try reflexivity.
  exfalso. change (inject_Z 0) with 0%Q in Hc. lra.
Qed.

Lemma Qabs_div_1000 (q : Q) : (Qabs (q / 1000) == Qabs q / 1000)%Q.
Proof. unfold Qdiv. rewrite Qabs_Qmult. reflexivity. Qed.

(** *** The loop of format_large_number *)

(** X16.  The loop of [format_large_number] stops with a suffix index of
    4 at most and a mantissa in this range: a number below 1000 is not
    divided; from 1000 on the mantissa is at least 1; the mantissa is below
    1000 as long as the number is below a thousand times the last suffix;
    and, from there on, the last suffix comes with a mantissa of 1000 or
    more. *)
Theorem scaled_mantissa (q : Q) :
  exists s m,
    scale_loop (length suffixes) (Finite q) 0 = (Finite s, m)
    /\ (m <= 4)%nat
    /\ ((Qabs q < 1000)%Q -> m = 0%nat /\ s = q)
    /\ ((1000 <= Qabs q)%Q -> (1 <= m)%nat /\ (1 <= Qabs s)%Q)
    /\ ((Qabs q < 1000000000000000)%Q -> (Qabs s < 1000)%Q)
    /\ ((1000000000000000 <= Qabs q)%Q -> m = 4%nat /\ (1000 <= Qabs s)%Q).
Proof.
  rewrite scale_loop_magnitude. unfold magnitude_by_abs.
  destruct (Qle_bool 1000000000000 (Qabs q)) eqn:E4;
    [|destruct (Qle_bool 1000000000 (Qabs q)) eqn:E3;
      [|destruct (Qle_bool 1000000 (Qabs q)) eqn:E2;
        [|destruct (Qle_bool 1000 (Qabs q)) eqn:E1]]];
    cbn [scaled_down Nat.iter pyfloat_div_const];
    change (Qle_bool 0 1000) with true; cbv iota;
    eexists _, _; (split; [reflexivity|]); qle_props;
    rewrite ?Qabs_div_1000; (split; [lia|]).
  all: repeat split; intros; try lia; try lra; try reflexivity.
  all: unfold Qdiv; change (/ 1000)%Q with (1 # 1000)%Q; lra.
Qed.

Lemma scaled_mantissa_witness :
  exists s m,
    scale_loop (length suffixes) (Finite 1234567) 0 = (Finite s, m)
    /\ (1 <= Qabs s)%Q /\ (Qabs s < 1000)%Q.
Proof.
  destruct (scaled_mantissa 1234567)
    as (s & m & Hloop & _ & _ & Hge & Hlt & _).
  exists s, m. split; [exact Hloop|].
  split; [apply Hge; vm_compute; discriminate|apply Hlt; reflexivity].
Defined.

(** *** Rounding after scaling *)

Lemma format_fixed_Q_1000 (s : Q) :
  (999995 # 1000 <= s)%Q -> (s < 1000)%Q -> format_fixed_Q s 2 = "1000.00".
Proof.
  intros Hle Hlt. unfold format_fixed_Q.
  assert (Hpos : (0 <= s)%Q) by lra.
  assert (Hround : round_half_even (Qabs s * inject_Z (10 ^ Z.of_nat 2))
                   = 100000%Z).
  { apply (round_half_even_up _ 99999); [reflexivity| |];
      rewrite (Qabs_pos s Hpos);
      change (inject_Z (10 ^ Z.of_nat 2)) with 100%Q;
      [change (inject_Z 99999) with 99999%Q
      |change (inject_Z (99999 + 1)) with 100000%Q]; lra. }
  rewrite Hround.
  apply Qle_bool_iff in Hpos. rewrite Hpos. vm_compute. reflexivity.
Qed.

(** X17.  The mantissa is rounded after the suffix is chosen, and the
    suffix is not revised: a number within half a cent of a thousand of
    the next unit is written "1000.00" with the suffix below. *)
Theorem rounding_reaches_1000 (q : Q) (m : nat) :
  (m <= 4)%nat ->
  ((999995 # 1000) * inject_Z (1000 ^ Z.of_nat m) <= q)%Q ->
  (q < inject_Z (1000 ^ Z.of_nat (S m)))%Q ->
  format_large_number (Some (Finite q)) 2
  = "$1000.00" +:+ nth m suffixes "".
Proof.
  intros Hm Hle Hlt.
  assert (Hcases : (m = 0 \/ m = 1 \/ m = 2 \/ m = 3 \/ m = 4)%nat) by lia.
  assert (Hstep : forall k s,
             magnitude_by_abs (Finite q) = k ->
             scaled_down k (Finite q) = Finite s ->
             (999995 # 1000 <= s)%Q -> (s < 1000)%Q ->
             ~ (q == 0)%Q ->
             format_large_number (Some (Finite q)) 2
             = "$1000.00" +:+ nth k suffixes "").
  { intros k s Hk Hs Hs1 Hs2 Hq. unfold format_large_number.
    assert (Hz : pyfloat_is_zero (Finite q) = false).
    { cbn [pyfloat_is_zero]. apply not_true_is_false. intros E.
      now apply Qeq_bool_iff in E. }
    rewrite Hz, scale_loop_magnitude, Hk, Hs. cbn [format_fixed].
    now rewrite (format_fixed_Q_1000 s Hs1 Hs2). }
  unfold magnitude_by_abs in Hstep.
  destruct Hcases as [->|[->|[->|[->| ->]]]];
    repeat match goal with
      | H : context [inject_Z (1000 ^ Z.of_nat ?k)] |- _ =>
          let v := eval vm_compute in (inject_Z (1000 ^ Z.of_nat k)) in
          change (inject_Z (1000 ^ Z.of_nat k)) with v in H
      end;
    (assert (Hpos : (0 <= q)%Q) by lra);
    pose proof (Qabs_pos q Hpos) as Habs;
    destruct (Qle_bool 1000000000000 (Qabs q)) eqn:E4;
    destruct (Qle_bool 1000000000 (Qabs q)) eqn:E3;
    destruct (Qle_bool 1000000 (Qabs q)) eqn:E2;
    destruct (Qle_bool 1000 (Qabs q)) eqn:E1;
    qle_props; try (exfalso; lra);
    (eapply Hstep; [reflexivity|reflexivity| | |lra]);
    unfold Qdiv; change (/ 1000)%Q with (1 # 1000)%Q; lra.
Qed.

Lemma rounding_reaches_1000_witness :
  format_large_number (Some (Finite (999995 # 1))) 2 = "$1000.00K"
  /\ format_large_number (Some (Finite 1000000)) 2 = "$1.00M".
Proof.
  split; [|vm_compute; reflexivity].
  apply (rounding_reaches_1000 (999995 # 1) 1).
  - lia.
  - vm_compute. discriminate.
  - vm_compute. reflexivity.
Defined.

(** *** format_percent and get_percent_color *)

Lemma string_of_uint_head (d : Decimal.uint) :
  d <> Decimal.Nil ->
  exists c rest, NilEmpty.string_of_uint d = String c rest /\ is_digit_char c.
Proof.
  unfold is_digit_char.
  destruct d; [contradiction|..]; intros _; cbn [NilEmpty.string_of_uint];
    eexists _, _; (split; [reflexivity|]); tauto.
Qed.

(** A number that is not negative is written from a digit on. *)
Lemma show_Z_head (z : Z) :
  (0 <= z)%Z -> exists c rest, show_Z z = String c rest /\ is_digit_char c.
Proof.
  intros Hz. unfold show_Z, NilZero.string_of_int, NilZero.string_of_uint.
  destruct z as [|p|p]; [| |lia].
  - exists "0"%char, "". split; [reflexivity|]. now left.
  - cbn [Z.to_int]. destruct (Pos.to_uint p) eqn:E;
      [now apply Unsigned.to_uint_nonnil in E|..];
      apply string_of_uint_head; discriminate.
Qed.

Lemma round_half_even_nonneg (x : Q) : (0 <= x)%Q -> (0 <= round_half_even x)%Z.
Proof.
  intros Hx. unfold round_half_even.
  assert (Hf : (0 <= Qfloor x)%Z).
  { change 0%Z with (Qfloor 0). now apply Qfloor_resp_le. }
  destruct (_ ?= _)%Q; [destruct (Z.even _)|..]; lia.
Qed.

(** The text of a number: a digit first, or the minus sign of a negative
    number, or the name of a special value. *)
Lemma format_fixed_head (x : pyfloat) :
  exists c rest,
    format_fixed x 2 = String c rest
    /\ (if pyfloat_lt0 x then c = "-"%char
        else is_digit_char c \/ c = "i"%char \/ c = "n"%char).
Proof.
  destruct x as [q| | |]; cbn [format_fixed pyfloat_lt0].
  2: { eexists _, _. split; [reflexivity|]. tauto. }
  2: { eexists _, _. split; [reflexivity|]. reflexivity. }
  2: { eexists _, _. split; [reflexivity|]. tauto. }
  unfold format_fixed_Q.
  destruct (Qle_bool 0 q) eqn:Hq; cbn [negb].
  - set (n := round_half_even _).
    assert (Hn : (0 <= n)%Z).
    { apply round_half_even_nonneg. apply Qmult_le_0_compat;
        [apply Qabs_nonneg|discriminate]. }
    destruct (show_Z_head (n / 10 ^ Z.of_nat 2)) as (c & rest & -> & Hc).
    { apply Z.div_pos; [exact Hn|reflexivity]. }
    eexists _, _. split; [reflexivity|]. now left.
  - eexists _, _. split; [reflexivity|]. reflexivity.
Qed.

(** X18.  The two functions agree on the sign: the text of
    [format_percent] starts with a plus sign exactly when
    [get_percent_color] answers green, and it starts with a minus sign
    whenever the colour is red; without [include_sign] no plus sign is
    written. *)
Theorem plus_sign_iff_green (x : pyfloat) :
  (String.get 0 (format_percent (Some x) true) = Some "+"%char
   <-> get_percent_color (Some x) = "#10B981")
  /\ (get_percent_color (Some x) = "#EF4444" ->
      forall include_sign,
        String.get 0 (format_percent (Some x) include_sign) = Some "-"%char)
  /\ String.get 0 (format_percent (Some x) false) <> Some "+"%char.
Proof.
  destruct (format_fixed_head x) as (c & rest & Htext & Hc).
  assert (Hget : forall include_sign,
             String.get 0 (format_percent (Some x) include_sign)
             = Some (if pyfloat_gt0 x && include_sign then "+"%char else c)).
  { intros b. unfold format_percent. rewrite Htext.
    now destruct (pyfloat_gt0 x && b). }
  assert (Hplus : c <> "+"%char).
  { unfold is_digit_char in Hc. destruct (pyfloat_lt0 x);
      [subst c; discriminate|].
    intros ->. repeat (destruct Hc as [Hc|Hc]; try discriminate). }
  rewrite !Hget. unfold get_percent_color.
  destruct (pyfloat_gt0 x) eqn:Hgt; cbn [andb].
  - split; [split; reflexivity|]. split; [discriminate|]. congruence.
  - split; [split; [congruence|destruct (pyfloat_lt0 x); discriminate]|].
    split; [|congruence].
    destruct (pyfloat_lt0 x); [|discriminate].
    intros _ include_sign. rewrite Hget. cbn [andb]. now subst c.
Qed.

Lemma plus_sign_iff_green_witness :
  get_percent_color (Some (Finite 5)) = "#10B981"
  /\ String.get 0 (format_percent (Some (Finite (-5))) true) = Some "-"%char.
Proof.
  destruct (plus_sign_iff_green (Finite 5)) as [[Hgreen _] _].
  destruct (plus_sign_iff_green (Finite (-5))) as (_ & Hred & _).
  split; [apply Hgreen; reflexivity|apply Hred; reflexivity].
Defined.

(** X19.  The sign and the colour follow the number, not the text: a
    change above 0 and below 0.005 is written "+0.00%" and is green, a
    change below 0 and above -0.005 is written "-0.00%" and is red. *)
Theorem tiny_percent_keeps_sign (q : Q) :
  (0 < q)%Q -> (q < 5 # 1000)%Q ->
  format_percent (Some (Finite q)) true = "+0.00%"
  /\ get_percent_color (Some (Finite q)) = "#10B981"
  /\ format_percent (Some (Finite (- q))) true = "-0.00%"
  /\ get_percent_color (Some (Finite (- q))) = "#EF4444".
Proof.
  intros Hpos Hlt.
  assert (Hround : forall p, (Qabs p == q)%Q ->
            round_half_even (Qabs p * inject_Z (10 ^ Z.of_nat 2)) = 0%Z).
  { intros p Hp. apply round_half_even_zero;
      rewrite Hp; change (inject_Z (10 ^ Z.of_nat 2)) with 100%Q; lra. }
  assert (Hgt : Qle_bool q 0 = false).
  { apply not_true_is_false. intros E. qle_props. lra. }
  assert (Hge : Qle_bool 0 q = true) by (apply Qle_bool_iff; lra).
  assert (Hgt' : Qle_bool (- q) 0 = true) by (apply Qle_bool_iff; lra).
  assert (Hge' : Qle_bool 0 (- q) = false).
  { apply not_true_is_false. intros E. qle_props. lra. }
  unfold format_percent, get_percent_color, format_fixed, format_fixed_Q.
  cbn [pyfloat_gt0 pyfloat_lt0].
  rewrite (Hround q) by (apply Qabs_pos; lra).
  rewrite (Hround (- q)%Q) by (rewrite Qabs_opp; apply Qabs_pos; lra).
  rewrite Hgt, Hge, Hgt', Hge'. repeat split; vm_compute; reflexivity.
Qed.

Lemma tiny_percent_keeps_sign_witness :
  format_percent (Some (Finite (1 # 1000))) true = "+0.00%"
  /\ get_percent_color (Some (Finite (- (1 # 1000)))) = "#EF4444".
Proof.
  destruct (tiny_percent_keeps_sign (1 # 1000)) as (H1 & _ & _ & H2).
  - reflexivity.
  - reflexivity.
  - split; [exact H1|exact H2].
Defined.

End UtilsFormatFacts.

(** ** The history call of the page *)
Module AppFacts.
Import Payloads Api App CacheKeyFacts ApiFacts UtilsFormatFacts.

Lemma all_chars_app (p : ascii -> bool) (a b : string) :
  all_chars p (a +:+ b) = all_chars p a && all_chars p b.
Proof.
  induction a as [|c a IH]; [reflexivity|].
  change (String c a +:+ b) with (String c (a +:+ b)).
  cbn [all_chars]. now rewrite IH, andb_assoc.
Qed.

Lemma all_chars_impl (p q : ascii -> bool) (s : string) :
  (forall c, p c = true -> q c = true) ->
  all_chars p s = true -> all_chars q s = true.
Proof.
  intros Hpq. induction s as [|c s IH]; [reflexivity|].
  cbn [all_chars]. intros H. apply andb_true_iff in H as [Hc Hs].
  now rewrite (Hpq c Hc), IH.
Qed.

Lemma string_of_uint_digits (d : Decimal.uint) :
  all_chars is_digit (NilEmpty.string_of_uint d) = true.
Proof. induction d; cbn; assumption || reflexivity. Qed.

Lemma show_Z_digits (z : Z) :
  (0 <= z)%Z -> all_chars is_digit (show_Z z) = true.
Proof.
  intros Hz. unfold show_Z, NilZero.string_of_int, NilZero.string_of_uint.
  destruct z as [|p|p]; [reflexivity| |lia].
  cbn [Z.to_int]. destruct (Pos.to_uint p) eqn:E;
    try apply string_of_uint_digits. reflexivity.
Qed.

Lemma digit_is_no_sign (c : ascii) :
  is_digit c = true ->
  Ascii.eqb c "-" = false /\ Ascii.eqb c "+" = false /\ is_space c = false.
Proof.
  destruct c as [[] [] [] [] [] [] [] []]; vm_compute; intros H;
    try discriminate H; repeat split.
Qed.

Lemma date_char_is_no_space (c : ascii) :
  is_digit c || Ascii.eqb c "-" = true -> negb (is_space c) = true.
Proof.
  destruct c as [[] [] [] [] [] [] [] []]; vm_compute; intros H;
    try discriminate H; reflexivity.
Qed.

Lemma lstrip_id (c : ascii) (s : string) :
  is_space c = false -> lstrip (String c s) = String c s.
Proof. intros H. cbn [lstrip]. now rewrite H. Qed.

Lemma rstrip_id (s : string) :
  all_chars (fun c => negb (is_space c)) s = true -> rstrip s = s.
Proof.
  induction s as [|c s IH]; [reflexivity|].
  cbn [all_chars rstrip]. intros H. apply andb_true_iff in H as [Hc Hs].
  rewrite (IH Hs). apply negb_true_iff in Hc. rewrite Hc. now destruct s.
Qed.

Lemma contains_app (c : ascii) (a b : string) :
  contains c (a +:+ b) = contains c a || contains c b.
Proof.
  induction a as [|c' a IH]; [reflexivity|].
  rewrite contains_step. cbn [contains].
  destruct (Ascii.eqb c c'); [reflexivity|exact IH].
Qed.

(** A minus sign among the digits makes the literal invalid. *)
Lemma digits_value_minus (s : string) (acc : Z) (after_digit : bool) :
  contains "-" s = true -> digits_value acc after_digit s = None.
Proof.
  revert acc after_digit. induction s as [|c s IH]; intros acc b H;
    [discriminate|].
  cbn [contains] in H. cbn [digits_value].
  destruct (Ascii.eqb "-" c) eqn:E.
  - apply Ascii.eqb_eq in E. subst c. reflexivity.
  - destruct (is_digit c); [now apply IH|].
    destruct (Ascii.eqb c "_" && b); [now apply IH|reflexivity].
Qed.

(** [int] on a few texts. *)
Lemma py_int_examples :
  py_int "30" = DaysInt 30
  /\ py_int " 1_000 " = DaysInt 1000
  /\ py_int "-5" = DaysInt (-5)
  /\ py_int "+007" = DaysInt 7
  /\ py_int "7d" = DaysInvalid
  /\ py_int "1__0" = DaysInvalid
  /\ py_int "_1" = DaysInvalid
  /\ py_int "1_" = DaysInvalid
  /\ py_int "- 1" = DaysInvalid
  /\ py_int "" = DaysInvalid.
Proof. repeat split; vm_compute; reflexivity. Qed.

(** [int] raises ValueError on the text of a date. *)
Lemma py_int_date (d : date) :
  valid_date d -> py_int (strftime_ymd d) = DaysInvalid.
Proof.
  intros ([Hy _] & [Hm _] & [Hd _]).
  assert (Htwo : forall n, (0 <= n)%Z ->
                           all_chars is_digit (two_digits n) = true).
  { intros n Hn. unfold two_digits. destruct (n <? 10)%Z;
      [rewrite all_chars_app|]; now rewrite ?show_Z_digits. }
  assert (Hchars : all_chars (fun c => is_digit c || Ascii.eqb c "-")
                     (strftime_ymd d) = true).
  { assert (Hweaken : forall s,
               all_chars is_digit s = true ->
               all_chars (fun c => is_digit c || Ascii.eqb c "-") s = true).
    { intros s. apply all_chars_impl. intros c ->. reflexivity. }
    unfold strftime_ymd. rewrite !all_chars_app.
    rewrite (Hweaken (show_Z (year d))) by (apply show_Z_digits; lia).
    rewrite (Hweaken (two_digits (month d))) by (apply Htwo; lia).
    rewrite (Hweaken (two_digits (day d))) by (apply Htwo; lia).
    reflexivity. }
  assert (Hminus : contains "-" (strftime_ymd d) = true).
  { unfold strftime_ymd. rewrite contains_app.
    apply orb_true_iff. right. reflexivity. }
  assert (Hhead : exists c rest,
             strftime_ymd d = String c rest /\ is_digit c = true).
  { destruct (show_Z_head (year d)) as (c & rest & Hshow & _); [lia|].
    pose proof (show_Z_digits (year d)) as Hdigits.
    rewrite Hshow in Hdigits. cbn [all_chars] in Hdigits.
    exists c. eexists. unfold strftime_ymd. rewrite Hshow. split;
      [reflexivity|].
    apply andb_true_iff in Hdigits as [Hc _]; [exact Hc|lia]. }
  destruct Hhead as (c & rest & Htext & Hc).
  destruct (digit_is_no_sign c Hc) as (Hm1 & Hp1 & Hs1).
  unfold py_int.
  rewrite Htext, (lstrip_id c rest Hs1), <- Htext.
  rewrite rstrip_id
    by (eapply all_chars_impl; [apply date_char_is_no_space|exact Hchars]).
  rewrite Htext, Hm1, Hp1, <- Htext.
  now rewrite digits_value_minus.
Qed.

(** X20.  The timeframe selected on the page has no effect on the history
    that is fetched.  The page hands [fetch_historical_data] the text of a
    date where a number of days is expected; [int] raises ValueError on
    it, so that the call is the call with an invalid number of days: the
    warning is shown, and every chart request it sends asks for 30 days. *)
Theorem selected_timeframe_is_ignored (selected_symbol : string)
  (start_date : date) (now : Q) (net : network) (w : world) :
  valid_date start_date ->
  let r := fetch_selected_history selected_symbol start_date now net w in
  r = fetch_historical_data selected_symbol DaysInvalid now net w
  /\ st_warning "Invalid value for days parameter. Defaulting to 30 days."
     ∈ shown r.2
  /\ forall request,
       request ∈ sent r.2 ->
       request ∈ sent w \/ request = GetCoinList
       \/ exists coin_id, request = GetMarketChart coin_id 30.
Proof.
  intros Hdate r. subst r. unfold fetch_selected_history.
  rewrite (py_int_date start_date Hdate). split; [reflexivity|].
  split.
  - split_call; repeat (apply elem_of_cons; (left; reflexivity) || right).
  - intros request. split_call; intros Hin;
      repeat (apply elem_of_cons in Hin as [->|Hin]; eauto).
    all: now left.
Qed.

Lemma selected_timeframe_is_ignored_witness :
  let net :=
    serving_network [{| cl_id := "bitcoin"; cl_symbol := "btc" |}] []
      empty_chart in
  let week_ago := {| year := 2025; month := 3; day := 9 |} in
  let year_ago := {| year := 2024; month := 3; day := 16 |} in
  strftime_ymd week_ago = "2025-03-09"
  /\ sent (fetch_selected_history "BTC" week_ago 0 net initial_world).2
     = [GetMarketChart "bitcoin" 30; GetCoinList]
  /\ sent (fetch_selected_history "BTC" year_ago 0 net initial_world).2
     = [GetMarketChart "bitcoin" 30; GetCoinList].
Proof.
  cbv zeta. split; [reflexivity|].
  split.
  - destruct (selected_timeframe_is_ignored "BTC"
                {| year := 2025; month := 3; day := 9 |} 0
                (serving_network
                   [{| cl_id := "bitcoin"; cl_symbol := "btc" |}] []
                   empty_chart) initial_world) as [-> _].
    + unfold valid_date. cbn. lia.
    + reflexivity.
  - destruct (selected_timeframe_is_ignored "BTC"
                {| year := 2024; month := 3; day := 16 |} 0
                (serving_network
                   [{| cl_id := "bitcoin"; cl_symbol := "btc" |}] []
                   empty_chart) initial_world) as [-> _].
    + unfold valid_date. cbn. lia.
    + reflexivity.
Defined.

End AppFacts.

(** ** What the page shows of a row *)
Module UiFacts.
Import Frames Payloads DataProcessing Utils Ui Charts.
Import SortValuesFacts UtilsFacts.

Lemma format_large_number_is_not_NA (x : pyfloat) (precision : nat) :
  format_large_number (Some x) precision <> "N/A".
Proof.
  unfold format_large_number. destruct (pyfloat_is_zero x); [discriminate|].
  destruct (scale_loop (length suffixes) x 0) as [scaled magnitude].
  discriminate.
Qed.

(** X21.  In the metrics of a row a missing number is never written
    "N/A": a null market cap, volume or price is written "$nan", a null
    change gives the delta "nan%"; and the delta is left out exactly when
    the change is zero. *)
Theorem metrics_of_missing_numbers (row : listing_row) :
  market_cap_value (row_metrics row) <> "N/A"
  /\ volume_value (row_metrics row) <> "N/A"
  /\ (market_cap row = None -> market_cap_value (row_metrics row) = "$nan")
  /\ (volume_24h row = None -> volume_value (row_metrics row) = "$nan")
  /\ (price row = None -> price_value (row_metrics row) = "$nan")
  /\ (percent_change_24h row = None ->
      price_delta (row_metrics row) = Some "nan%")
  /\ (price_delta (row_metrics row) = None
      <-> exists q, percent_change_24h row = Some q /\ (q == 0)%Q).
Proof.
  unfold row_metrics. cbn [market_cap_value volume_value price_value
                           price_delta].
  split; [apply format_large_number_is_not_NA|].
  split; [apply format_large_number_is_not_NA|].
  split; [now intros ->|]. split; [now intros ->|].
  split; [now intros ->|]. split; [now intros ->|].
  unfold truthy. destruct (percent_change_24h row) as [q|];
    cbn [cell pyfloat_is_zero negb].
  - destruct (Qeq_bool q 0) eqn:E; cbn [negb].
    + split; [|reflexivity]. intros _. exists q.
      split; [reflexivity|now apply Qeq_bool_iff].
    + split; [discriminate|]. intros (q' & [= <-] & Hq).
      apply Qeq_bool_iff in Hq. congruence.
  - split; [discriminate|]. now intros (q & Hq & _).
Qed.

Lemma metrics_of_missing_numbers_witness :
  market_cap_value (row_metrics (listing "DOGE" None)) = "$nan"
  /\ price_delta (row_metrics (listing_with_change "DOGE" (Some 0%Q))) = None.
Proof.
  destruct (metrics_of_missing_numbers (listing "DOGE" None))
    as (_ & _ & Hcap & _).
  destruct (metrics_of_missing_numbers
              (listing_with_change "DOGE" (Some 0%Q)))
    as (_ & _ & _ & _ & _ & _ & Hdelta).
  split; [now apply Hcap|]. apply Hdelta. now exists 0%Q.
Defined.

(** *** The market-cap chart *)

(** X22.  The bars of the market-cap chart are the rows of the frame in
    ascending order of market cap, the rows without market cap last, these
    with the text "$nanB"; the figure is 300 high up to six rows and 50
    per row beyond. *)
Theorem market_cap_chart_ascending (argsort : list Q -> list nat)
  (rows : list listing_row) :
  argsort_spec argsort ->
  exists chart,
    create_market_cap_chart argsort (Frame rows) = Ok chart
    /\ bars chart ≡ₚ map market_cap_bar rows
    /\ ascending_nulls_last (map bar_value (bars chart))
    /\ (forall b, b ∈ bars chart -> bar_value b = None ->
                  bar_text b = "$nanB")
    /\ height chart = Z.max 300 (50 * Z.of_nat (length rows))
    /\ ((length rows <= 6)%nat -> height chart = 300%Z).
Proof.
  intros Hspec. eexists. split; [reflexivity|].
  cbn [bars height].
  split; [now rewrite (sort_rows_perm market_cap argsort Hspec)|].
  split.
  { rewrite map_map. cbn [market_cap_bar bar_value].
    destruct (sort_rows_shape market_cap argsort Hspec true rows)
      as (sorted & -> & Hperm & Hsorted).
    exists (map (fun r => key_value (market_cap r)) sorted),
           (length (List.filter (fun r => isna (market_cap r)) rows)).
    split; [|exact Hsorted].
    rewrite map_app, map_key_isna. f_equal.
    apply map_key_all_notna. rewrite Hperm. apply Forall_forall.
    intros r Hr. now apply list_elem_of_In, filter_In in Hr as [_ Hr]. }
  split.
  { intros b Hb Hnull. apply list_elem_of_fmap in Hb as (r & -> & _).
    cbn [market_cap_bar bar_value bar_text] in *. now rewrite Hnull. }
  split; [f_equal; lia|]. intros Hlen. lia.
Qed.

Lemma market_cap_chart_ascending_witness :
  exists chart,
    create_market_cap_chart stable_argsort
      (Frame [listing "BTC" (Some 3000000000%Q); listing "DOGE" None;
              listing "ETH" (Some 1500000000%Q)]) = Ok chart
    /\ map bar_text (bars chart) = ["$1.50B"; "$3.00B"; "$nanB"]
    /\ height chart = 300%Z.
Proof.
  destruct (market_cap_chart_ascending stable_argsort
              [listing "BTC" (Some 3000000000%Q); listing "DOGE" None;
               listing "ETH" (Some 1500000000%Q)] stable_argsort_spec)
    as (chart & Hchart & _ & _ & _ & _ & Hheight).
  exists chart. split; [exact Hchart|].
  split; [|apply Hheight; cbn; lia].
  vm_compute in Hchart. injection Hchart as <-. vm_compute. reflexivity.
Defined.

End UiFacts.
